(** * MoniBags SDK: a shallow embedding of [monibags/sdk.py]

    The client is glue code around an HTTP session: it builds a request,
    maps the status code of the answer to a result or to an exception of
    [monibags/exceptions.py], loops over a list of usernames with a pause
    between two requests, and writes results to a file.

    Python strings are modelled by [string], holding the UTF-8 bytes of the
    text.  Python values that travel through the client (parsed JSON bodies,
    result records) are the type [pyval]; dictionaries keep their insertion
    order, as Python's do, so they are association lists.  Effects (the
    network, the clock, [time.sleep], [print], files) are explicit: a
    computation reads an environment [Env] of oracles, threads a [World]
    and ends in a value or in a raised exception.

    What is left out: [print] always succeeds; exceptions are those of the
    [Exception] tree (a [KeyboardInterrupt] or [SystemExit] is not one);
    the texts of the built-in errors are CPython 3.11's, and no statement
    depends on them. *)

From Stdlib Require Import ZArith Lia List Ascii String DecimalString PrimFloat.
From stdpp Require Import base strings list gmap.

Local Open Scope Z_scope.

(** ** Text *)

Module Text.

(** The decimal rendering of an integer, as [str(n)] or [f"{n}"] give it. *)
Definition of_Z (n : Z) : string := NilZero.string_of_int (Z.to_int n).

(** [c in chars] for a character and a string used as a set of characters. *)
Fixpoint mem (c : ascii) (chars : string) : bool :=
  match chars with
  | EmptyString => false
  | String a rest => if Ascii.eqb c a then true else mem c rest
  end.

(** [s.lstrip(chars)]: drops every leading character that occurs in [chars]. *)
Fixpoint lstrip (chars : string) (s : string) : string :=
  match s with
  | EmptyString => EmptyString
  | String a rest => if mem a chars then lstrip chars rest else s
  end.

(** [s.rstrip(chars)]. *)
Definition rstrip (chars : string) (s : string) : string :=
  String.rev (lstrip chars (String.rev s)).

(** [s.startswith(p)]. *)
Fixpoint startswith (p s : string) : bool :=
  match p, s with
  | EmptyString, _ => true
  | String a p', String b s' => if Ascii.eqb a b then startswith p' s' else false
  | String _ _, EmptyString => false
  end.

(** [sub in s]: [sub] occurs in [s] as a contiguous block. *)
Fixpoint contains (sub s : string) : bool :=
  if startswith sub s then true
  else match s with
       | EmptyString => false
       | String _ s' => contains sub s'
       end.

(** [sep.join(parts)]. *)
Fixpoint join (sep : string) (parts : list string) : string :=
  match parts with
  | [] => ""
  | [p] => p
  | p :: rest => p +:+ sep +:+ join sep rest
  end.

(** [c * n] for a one-character string, as in ["=" * 50]. *)
Fixpoint replicate_char (n : nat) (c : ascii) : string :=
  match n with
  | O => ""
  | S k => String c (replicate_char k c)
  end.

(** Bytes [10xxxxxx] continue a UTF-8 sequence. *)
Definition is_continuation (a : ascii) : bool :=
  match a with
  | Ascii _ _ _ _ _ _ false true => true
  | _ => false
  end.

(** The characters of a text, one string per code point: what iterating
    over a [str] yields. *)
Fixpoint chars_go (cur : option string) (s : string) : list string :=
  match s with
  | EmptyString => option_list (String.rev <$> cur)
  | String a rest =>
      if is_continuation a
      then chars_go (Some (String a (default "" cur))) rest
      else option_list (String.rev <$> cur) ++ chars_go (Some (String a "")) rest
  end.
Definition chars : string -> list string := chars_go None.

(** The texts of a list, one after the other. *)
Definition concat (parts : list string) : string := foldr String.append "" parts.

Definition quote : ascii := Ascii.ascii_of_nat 34.
Definition CR : ascii := Ascii.ascii_of_nat 13.
Definition LF : ascii := Ascii.ascii_of_nat 10.
Definition newline : string := String LF "".
Definition crlf : string := String CR (String LF "").

End Text.

(** ** Python values *)

#[warnings="-register-all"]
Inductive pyval : Type :=
| PyNone
| PyBool (b : bool)
| PyInt (n : Z)
| PyFloat (x : float)
| PyStr (s : string)
| PyList (items : list pyval)
| PyDict (entries : list (string * pyval)).

(** ** Exceptions

    The classes below are the part of Python's [Exception] tree that the
    client can meet: the built-in errors raised by operations on values,
    the errors of the [requests] library, and the three classes of
    [monibags/exceptions.py]. *)

Inductive exn_class : Type :=
| Exception
| TypeError
| ValueError
| AttributeError
| KeyError
| OverflowError
| OSError
| JSONDecodeError                 (* json.JSONDecodeError(ValueError) *)
| RequestException                (* requests.exceptions.RequestException(IOError) *)
| InvalidJSONError                (* requests: InvalidJSONError(RequestException) *)
| RequestsJSONDecodeError         (* requests: JSONDecodeError(InvalidJSONError, json.JSONDecodeError) *)
| HTTPError                       (* requests: HTTPError(RequestException) *)
| ConnectionError                 (* requests: ConnectionError(RequestException) *)
| Timeout                         (* requests: Timeout(RequestException) *)
| ConnectTimeout                  (* requests: ConnectTimeout(ConnectionError, Timeout) *)
| ReadTimeout                     (* requests: ReadTimeout(Timeout) *)
| MoniBagsException               (* class MoniBagsException(Exception) *)
| RateLimitError                  (* class RateLimitError(MoniBagsException) *)
| APIError                        (* class APIError(MoniBagsException) *)
| OtherException (name : string). (* any other direct subclass of Exception *)

#[global] Instance exn_class_eq_dec : EqDecision exn_class.
Proof. solve_decision. Defined.

(** The strict ancestors of a class. *)
Definition ancestors (c : exn_class) : list exn_class :=
  match c with
  | Exception => []
  | TypeError | ValueError | AttributeError | KeyError | OverflowError | OSError => [Exception]
  | JSONDecodeError => [ValueError; Exception]
  | RequestException => [OSError; Exception]
  | InvalidJSONError | HTTPError | ConnectionError | Timeout =>
      [RequestException; OSError; Exception]
  | RequestsJSONDecodeError =>
      [InvalidJSONError; RequestException; OSError; JSONDecodeError; ValueError; Exception]
  | ConnectTimeout => [ConnectionError; Timeout; RequestException; OSError; Exception]
  | ReadTimeout => [Timeout; RequestException; OSError; Exception]
  | MoniBagsException => [Exception]
  | RateLimitError | APIError => [MoniBagsException; Exception]
  | OtherException _ => [Exception]
  end.

Definition issubclass (c d : exn_class) : bool :=
  bool_decide (c = d) || bool_decide (d ∈ ancestors c).

(** A raised exception: its class and [str(e)]. *)
Record exn : Type := MkExn { exn_cls : exn_class; exn_msg : string }.

Definition isinstance (e : exn) (c : exn_class) : bool := issubclass (exn_cls e) c.


(** ** Results of fallible operations *)

Inductive outcome (A : Type) : Type :=
| Ok (a : A)
| Raise (e : exn).
Arguments Ok {A} a.
Arguments Raise {A} e.

#[global] Instance outcome_ret : MRet outcome := fun A a => Ok a.
#[global] Instance outcome_bind : MBind outcome := fun A B f m =>
  match m with
  | Ok a => f a
  | Raise e => Raise e
  end.

Definition raise_ {A} (c : exn_class) (msg : string) : outcome A := Raise (MkExn c msg).

(** ** Operations of the Python runtime on values

    The renderings of a float and of a quoted string are the interpreter's
    and the [json] module's business: a [Runtime] supplies them. *)

Record Runtime : Type := {
  float_repr : float -> string;   (* repr(x) for a finite or non-finite float *)
  str_repr : string -> string;    (* repr(s): the quoted form of a str *)
  json_str : string -> string     (* json.dumps(s): the JSON literal of a str *)
}.

Module Py.
Import Text.

Definition type_name (v : pyval) : string :=
  match v with
  | PyNone => "NoneType"
  | PyBool _ => "bool"
  | PyInt _ => "int"
  | PyFloat _ => "float"
  | PyStr _ => "str"
  | PyList _ => "list"
  | PyDict _ => "dict"
  end.

(** [bool(v)]: what [if v:] tests. *)
Definition truthy (v : pyval) : bool :=
  match v with
  | PyNone => false
  | PyBool b => b
  | PyInt n => negb (n =? 0)
  | PyFloat x => negb (PrimFloat.eqb x 0%float)
  | PyStr s => negb (bool_decide (s = ""))
  | PyList items => match items with [] => false | _ => true end
  | PyDict entries => match entries with [] => false | _ => true end
  end.

(** Lookup in a dictionary's entries. *)
Fixpoint lookup (key : string) (entries : list (string * pyval)) : option pyval :=
  match entries with
  | [] => None
  | (k, v) :: rest => if bool_decide (k = key) then Some v else lookup key rest
  end.

(** [d[key] = v] on the entries: an existing key keeps its place, a new
    key goes last. *)
Fixpoint store (key : string) (v : pyval) (entries : list (string * pyval))
  : list (string * pyval) :=
  match entries with
  | [] => [(key, v)]
  | (k, v0) :: rest =>
      if bool_decide (k = key) then (k, v) :: rest else (k, v0) :: store key v rest
  end.

(** [d.get(key, dflt)]. Only a dict has the method. *)
Definition get (d : pyval) (key : string) (dflt : pyval) : outcome pyval :=
  match d with
  | PyDict entries => Ok (default dflt (lookup key entries))
  | _ => raise_ AttributeError
           ("'" +:+ type_name d +:+ "' object has no attribute 'get'")
  end.

(** [d[key]] for a string key. *)
Definition getitem (d : pyval) (key : string) : outcome pyval :=
  match d with
  | PyDict entries =>
      match lookup key entries with
      | Some v => Ok v
      | None => raise_ KeyError ("'" +:+ key +:+ "'")
      end
  | PyStr _ => raise_ TypeError "string indices must be integers, not 'str'"
  | PyList _ => raise_ TypeError "list indices must be integers or slices, not str"
  | _ => raise_ TypeError ("'" +:+ type_name d +:+ "' object is not subscriptable")
  end.

(** [d[key] = v] for a string key. *)
Definition setitem (d : pyval) (key : string) (v : pyval) : outcome pyval :=
  match d with
  | PyDict entries => Ok (PyDict (store key v entries))
  | PyList _ => raise_ TypeError "list indices must be integers or slices, not str"
  | _ => raise_ TypeError
           ("'" +:+ type_name d +:+ "' object does not support item assignment")
  end.

(** [v > 0]. *)
Definition gt_zero (v : pyval) : outcome bool :=
  match v with
  | PyInt n => Ok (0 <? n)
  | PyBool b => Ok b
  | PyFloat x => Ok (PrimFloat.ltb 0%float x)
  | _ => raise_ TypeError
           ("'>' not supported between instances of '" +:+ type_name v +:+ "' and 'int'")
  end.

(** The items a [for] loop over [v] visits. *)
Definition iter (v : pyval) : outcome (list pyval) :=
  match v with
  | PyList items => Ok items
  | PyStr s => Ok (PyStr <$> chars s)
  | PyDict entries => Ok ((fun kv => PyStr kv.1) <$> entries)
  | _ => raise_ TypeError ("'" +:+ type_name v +:+ "' object is not iterable")
  end.

(** [repr(v)]. *)
Fixpoint repr (rt : Runtime) (v : pyval) : string :=
  match v with
  | PyNone => "None"
  | PyBool true => "True"
  | PyBool false => "False"
  | PyInt n => of_Z n
  | PyFloat x => float_repr rt x
  | PyStr s => str_repr rt s
  | PyList items => "[" +:+ join ", " (map (repr rt) items) +:+ "]"
  | PyDict entries =>
      "{" +:+ join ", " (map (fun kv => let '(k, x) := kv in
                                         str_repr rt k +:+ ": " +:+ repr rt x) entries)
          +:+ "}"
  end.

(** [str(v)], also what an f-string field [{v}] renders. *)
Definition str (rt : Runtime) (v : pyval) : string :=
  match v with
  | PyStr s => s
  | _ => repr rt v
  end.

(** [sep.join(v)]: [v] must be iterable and hold only strings. *)
Fixpoint join_items (sep : string) (idx : Z) (items : list pyval) : outcome (list string) :=
  match items with
  | [] => Ok []
  | PyStr s :: rest => parts ← join_items sep (idx + 1) rest; Ok (s :: parts)
  | x :: _ => raise_ TypeError
                ("sequence item " +:+ of_Z idx +:+ ": expected str instance, "
                 +:+ type_name x +:+ " found")
  end.
Definition str_join (sep : string) (v : pyval) : outcome string :=
  match iter v with
  | Ok items => parts ← join_items sep 0 items; Ok (join sep parts)
  | Raise _ => raise_ TypeError "can only join an iterable"
  end.

End Py.

(** ** The world outside the client *)

Inductive http_method : Type := GET | POST.

Record request : Type := {
  req_method : http_method;
  req_url : string;
  req_headers : list (string * string);
  req_json : option pyval;          (* the [json=] payload of a POST *)
  req_timeout : Z
}.

(** What [requests] hands back: the status code, the body text and what
    calling [.json()] on the response gives (a value, or a decoding error). *)
Record response : Type := {
  status_code : Z;
  text : string;
  json : outcome pyval
}.

Inductive event : Type :=
| EvPrint (line : string)
| EvProgress (current total : Z) (username : string)
| EvRequest (req : request)
| EvSleep (seconds : float).

Record World : Type := {
  trace : list event;               (* what has happened, oldest first *)
  clock_reads : nat;                (* how often the clock was read *)
  fs : gmap string string           (* the files, by name *)
}.

(** The oracles: how the network answers a request, what the clock shows,
    which pauses [time.sleep] refuses (a negative one, for instance) and
    which files cannot be opened for writing. *)
Record Env : Type := {
  runtime : Runtime;
  transport : World -> request -> outcome response;
  now_isoformat : World -> string;
  sleep_error : float -> option exn;
  open_error : World -> string -> option exn
}.

(** ** Computations *)

Definition M (A : Type) : Type := Env -> World -> outcome A * World.

#[global] Instance M_ret : MRet M := fun A a _ w => (Ok a, w).
#[global] Instance M_bind : MBind M := fun A B f m env w =>
  match m env w with
  | (Ok a, w') => f a env w'
  | (Raise e, w') => (Raise e, w')
  end.

Definition raise {A} (c : exn_class) (msg : string) : M A :=
  fun _ w => (raise_ c msg, w).

Definition lift {A} (o : outcome A) : M A := fun _ w => (o, w).

Definition get_runtime : M Runtime := fun env w => (Ok (runtime env), w).

Definition log (ev : event) (w : World) : World :=
  {| trace := trace w ++ [ev]; clock_reads := clock_reads w; fs := fs w |}.

Definition emit (ev : event) : M unit := fun _ w => (Ok tt, log ev w).

(** [try: body except C1 ...: h1 except C2 ...: h2]: the first clause whose
    class the exception is an instance of handles it; with none, it goes on. *)
Definition try_except {A} (body : M A) (handlers : list (exn_class * (exn -> M A))) : M A :=
  fun env w =>
    match body env w with
    | (Ok a, w') => (Ok a, w')
    | (Raise e, w') =>
        match find (fun h => isinstance e h.1) handlers with
        | Some h => h.2 e env w'
        | None => (Raise e, w')
        end
    end.

Definition print (line : string) : M unit := emit (EvPrint line).

(** [time.sleep(seconds)]. *)
Definition time_sleep (seconds : float) : M unit :=
  fun env w =>
    match sleep_error env seconds with
    | Some e => (Raise e, w)
    | None => (Ok tt, log (EvSleep seconds) w)
    end.

(** [datetime.now().isoformat()]. *)
Definition datetime_now_isoformat : M string :=
  fun env w =>
    (Ok (now_isoformat env w),
     {| trace := trace w; clock_reads := S (clock_reads w); fs := fs w |}).

(** The session sends the request; the network answers or an error is raised. *)
Definition session_send (req : request) : M response :=
  fun env w => (transport env w req, log (EvRequest req) w).

(** [open(filename, 'w')]: the file is created or emptied. *)
Definition open_w (filename : string) : M unit :=
  fun env w =>
    match open_error env w filename with
    | Some e => (Raise e, w)
    | None => (Ok tt, {| trace := trace w; clock_reads := clock_reads w;
                         fs := <[filename := ""]> (fs w) |})
    end.

(** [f.write(data)] on the file opened under [filename]. *)
Definition fwrite (filename data : string) : M unit :=
  fun _ w =>
    (Ok tt, {| trace := trace w; clock_reads := clock_reads w;
               fs := <[filename := default "" (fs w !! filename) +:+ data]> (fs w) |}).

(** ** The client: [class MoniBagsSDK] *)

Record MoniBagsSDK : Type := {
  base_url : string;
  session_headers : list (string * string)
}.

(** [__init__]: the headers are the two the constructor sets on the session. *)
Definition init (url : string) : MoniBagsSDK :=
  {| base_url := Text.rstrip "/" url;
     session_headers := [("Content-Type", "application/json");
                         ("User-Agent", "MoniBags-SDK/1.0")] |}.

Definition session_post (self : MoniBagsSDK) (url : string) (payload : pyval) (timeout : Z)
  : M response :=
  session_send {| req_method := POST; req_url := url; req_headers := session_headers self;
                  req_json := Some payload; req_timeout := timeout |}.

Definition session_get (self : MoniBagsSDK) (url : string) (timeout : Z) : M response :=
  session_send {| req_method := GET; req_url := url; req_headers := session_headers self;
                  req_json := None; req_timeout := timeout |}.

Definition check_username_history (self : MoniBagsSDK) (username : string) (timeout : Z)
  : M pyval :=
  let username := Text.lstrip "@" username in
  try_except
    (response ← session_post self (base_url self +:+ "/api/check-username-history")
                  (PyDict [("username", PyStr username)]) timeout;
     if status_code response =? 429 then
       raise RateLimitError "Rate limit exceeded. Please wait before making another request."
     else if status_code response =? 200 then
       lift (json response)
     else
       raise APIError ("API returned status code " +:+ Text.of_Z (status_code response)
                       +:+ ": " +:+ text response))
    [ (Timeout, fun _ =>
         raise MoniBagsException
           ("Request timed out after " +:+ Text.of_Z timeout +:+ " seconds"));
      (RequestException, fun e =>
         raise MoniBagsException ("Request failed: " +:+ exn_msg e)) ].

Definition analyze_profile (self : MoniBagsSDK) (username : string) (timeout : Z)
  : M pyval :=
  let username := Text.lstrip "@" username in
  try_except
    (response ← session_post self (base_url self +:+ "/api/analyze")
                  (PyDict [("username", PyStr username)]) timeout;
     if status_code response =? 429 then
       raise RateLimitError "Rate limit exceeded"
     else if status_code response =? 200 then
       lift (json response)
     else
       raise APIError ("API returned status code " +:+ Text.of_Z (status_code response)))
    [ (RequestException, fun e =>
         raise MoniBagsException ("Request failed: " +:+ exn_msg e)) ].

(** The default values of the [timeout] parameters. *)
Definition check_timeout_default : Z := 30.
Definition analyze_timeout_default : Z := 60.

(** A progress callback is the caller's code: it is told the position, the
    total and the username, and returns or raises. *)
Definition callback : Type := Z -> Z -> string -> outcome unit.

Definition call_progress (cb : callback) (current total : Z) (username : string) : M unit :=
  emit (EvProgress current total username);;
  lift (cb current total username).

(** The record [batch_check] stores for a check that raised. *)
Definition failure_record (username : string) (e : exn) (timestamp : string) : pyval :=
  PyDict [("username", PyStr username);
          ("success", PyBool false);
          ("error", PyStr (exn_msg e));
          ("timestamp", PyStr timestamp)].

(** The [try] statement of the loop: the check, and the two entries it adds. *)
Definition batch_try (self : MoniBagsSDK) (username : string) (results : list pyval)
  : M (list pyval) :=
  try_except
    (result ← check_username_history self username check_timeout_default;
     result ← lift (Py.setitem result "username" (PyStr username));
     timestamp ← datetime_now_isoformat;
     result ← lift (Py.setitem result "timestamp" (PyStr timestamp));
     mret (results ++ [result]))
    [ (Exception, fun e =>
         timestamp ← datetime_now_isoformat;
         mret (results ++ [failure_record username e timestamp])) ].

(** The body of [for i, username in enumerate(usernames)]. *)
Definition batch_body (self : MoniBagsSDK) (delay : float) (progress_callback : option callback)
    (total i : Z) (username : string) (results : list pyval) : M (list pyval) :=
  match progress_callback with
  | Some cb => call_progress cb (i + 1) total username
  | None => print ("Checking " +:+ Text.of_Z (i + 1) +:+ "/" +:+ Text.of_Z total
                   +:+ ": @" +:+ username)
  end;;
  results ← batch_try self username results;
  (if i <? total - 1 then time_sleep delay else mret tt);;
  mret results.

Fixpoint batch_loop (self : MoniBagsSDK) (delay : float) (progress_callback : option callback)
    (total i : Z) (usernames : list string) (results : list pyval) : M (list pyval) :=
  match usernames with
  | [] => mret results
  | username :: rest =>
      results ← batch_body self delay progress_callback total i username results;
      batch_loop self delay progress_callback total (i + 1) rest results
  end.

Definition batch_check (self : MoniBagsSDK) (usernames : list string) (delay : float)
    (progress_callback : option callback) : M (list pyval) :=
  let results := [] in
  let total := Z.of_nat (length usernames) in
  batch_loop self delay progress_callback total 0 usernames results.

Definition batch_delay_default : float := 2%float.

Definition get_rate_limit_status (self : MoniBagsSDK) : M pyval :=
  try_except
    (response ← session_get self (base_url self +:+ "/api/rate-limit") 10;
     if status_code response =? 200 then
       lift (json response)
     else
       mret (PyDict [("error", PyStr "Failed to get rate limit status")]))
    [ (Exception, fun e => mret (PyDict [("error", PyStr (exn_msg e))])) ].

Definition format_result (rt : Runtime) (result : pyval) : outcome string :=
  let output := [] in
  let output := output ++ [Text.replicate_char 50 "="] in
  success ← Py.get result "success" PyNone;
  output ←
    (if Py.truthy success then
       data ← Py.get result "data" (PyDict []);
       current_username ← Py.get data "current_username" (PyStr "unknown");
       let output := output ++ ["Username: @" +:+ Py.str rt current_username] in
       is_clean ← Py.get data "is_clean" PyNone;
       let output := output ++ ["Status: " +:+ (if Py.truthy is_clean then "CLEAN ✅"
                                                 else "CHANGES DETECTED ⚠️")] in
       total_changes ← Py.get data "total_changes" (PyInt 0);
       changed ← Py.gt_zero total_changes;
       output ←
         (if (changed : bool) then
            total_changes ← Py.getitem data "total_changes";
            let output := output ++ ["Total Changes: " +:+ Py.str rt total_changes] in
            let output := output ++ [Text.newline +:+ "Previous Usernames:"] in
            history ← Py.get data "history" (PyList []);
            items ← Py.iter history;
            mret (output ++ map (fun item => "  • " +:+ Py.str rt item) items)
          else mret output);
       insights ← Py.get data "insights" (PyList []);
       if Py.truthy insights then
         let output := output ++ [Text.newline +:+ "Insights:"] in
         items ← Py.iter insights;
         mret (output ++ map (fun insight => "  " +:+ Py.str rt insight) items)
       else mret output
     else
       error ← Py.get result "error" (PyStr "Unknown error");
       let output := output ++ ["Error: " +:+ Py.str rt error] in
       message ← Py.get result "message" PyNone;
       if Py.truthy message then
         message ← Py.getitem result "message";
         mret (output ++ ["Message: " +:+ Py.str rt message])
       else mret output);
  let output := output ++ [Text.replicate_char 50 "="] in
  mret (Text.join Text.newline output).

(** *** [json.dump(obj, f, indent=n)] *)

Module Json.
Import Text.

Definition encode_float (rt : Runtime) (x : float) : string :=
  if PrimFloat.is_nan x then "NaN"
  else if PrimFloat.eqb x infinity then "Infinity"
  else if PrimFloat.eqb x neg_infinity then "-Infinity"
  else float_repr rt x.

(** A line break followed by the indentation of a nesting level. *)
Definition newline_indent (indent level : nat) : string :=
  newline +:+ replicate_char (indent * level) " ".

(** The text of a value that sits at nesting level [level]. *)
Fixpoint encode (rt : Runtime) (indent level : nat) (v : pyval) : string :=
  match v with
  | PyNone => "null"
  | PyBool true => "true"
  | PyBool false => "false"
  | PyInt n => of_Z n
  | PyFloat x => encode_float rt x
  | PyStr s => json_str rt s
  | PyList [] => "[]"
  | PyList items =>
      "[" +:+ newline_indent indent (S level)
      +:+ join ("," +:+ newline_indent indent (S level))
               (map (encode rt indent (S level)) items)
      +:+ newline_indent indent level +:+ "]"
  | PyDict [] => "{}"
  | PyDict entries =>
      "{" +:+ newline_indent indent (S level)
      +:+ join ("," +:+ newline_indent indent (S level))
               (map (fun kv => let '(k, x) := kv in
                               json_str rt k +:+ ": " +:+ encode rt indent (S level) x)
                    entries)
      +:+ newline_indent indent level +:+ "}"
  end.

Definition dumps (rt : Runtime) (indent : nat) (v : pyval) : string :=
  encode rt indent 0 v.
End Json.

(** *** [csv.DictWriter] with the default (excel) dialect *)

Module Csv.
Import Text.

(** A field is quoted when it holds the delimiter, the quote character or
    a character of the line terminator. *)
Fixpoint needs_quotes (field : string) : bool :=
  match field with
  | EmptyString => false
  | String c rest =>
      if mem c (String "," (String quote crlf)) then true else needs_quotes rest
  end.

(** Inside quotes, a quote character is written twice. *)
Fixpoint double_quotes (field : string) : string :=
  match field with
  | EmptyString => EmptyString
  | String c rest =>
      if Ascii.eqb c quote then String quote (String quote (double_quotes rest))
      else String c (double_quotes rest)
  end.

Definition field (s : string) : string :=
  if needs_quotes s then String quote (double_quotes s) +:+ String quote ""
  else s.

(** The text of a cell: nothing for [None], [str(v)] otherwise. *)
Definition cell (rt : Runtime) (v : pyval) : string :=
  match v with
  | PyNone => ""
  | _ => Py.str rt v
  end.

(** [writer.writerow(cells)]: the fields, comma-separated, and CR LF. *)
Definition row (fields : list string) : string :=
  join "," (field <$> fields) +:+ crlf.
End Csv.

Definition fieldnames : list string :=
  ["username"; "is_clean"; "total_changes"; "history"; "timestamp"].

(** The values of the dict that [export_results] hands to [writer.writerow],
    in the order of [fieldnames]. *)
Definition csv_rowdict (result : pyval) : outcome (list pyval) :=
  data ← Py.get result "data" (PyDict []);
  username ← Py.get result "username" (PyStr "");
  is_clean ← Py.get data "is_clean" (PyStr "");
  total_changes ← Py.get data "total_changes" (PyInt 0);
  history ← Py.get data "history" (PyList []);
  history ← Py.str_join ", " history;
  timestamp ← Py.get result "timestamp" (PyStr "");
  mret [username; is_clean; total_changes; PyStr history; timestamp].

(** [for result in results:] of the CSV branch. *)
Fixpoint export_csv_rows (filename : string) (results : list pyval) : M unit :=
  match results with
  | [] => mret tt
  | result :: rest =>
      success ← lift (Py.get result "success" PyNone);
      (if Py.truthy success then
         rt ← get_runtime;
         cells ← lift (csv_rowdict result);
         fwrite filename (Csv.row (Csv.cell rt <$> cells))
       else mret tt);;
      export_csv_rows filename rest
  end.

Definition export_results (results : list pyval) (filename : string) (format : string)
  : M unit :=
  (if bool_decide (format = "json") then
     open_w filename;;
     rt ← get_runtime;
     fwrite filename (Json.dumps rt 2 (PyList results))
   else if bool_decide (format = "csv") then
     open_w filename;;
     match results with
     | [] => mret tt
     | _ =>
         fwrite filename (Csv.row fieldnames);;
         export_csv_rows filename results
     end
   else
     raise ValueError ("Unsupported format: " +:+ format));;
  print ("Results exported to " +:+ filename).

(** ** Vocabulary of the statements *)

(** *** The requests the methods send, and the requests of a trace *)

Definition history_request (self : MoniBagsSDK) (username : string) (timeout : Z) : request :=
  {| req_method := POST;
     req_url := base_url self +:+ "/api/check-username-history";
     req_headers := session_headers self;
     req_json := Some (PyDict [("username", PyStr (Text.lstrip "@" username))]);
     req_timeout := timeout |}.

Definition analyze_request (self : MoniBagsSDK) (username : string) (timeout : Z) : request :=
  {| req_method := POST;
     req_url := base_url self +:+ "/api/analyze";
     req_headers := session_headers self;
     req_json := Some (PyDict [("username", PyStr (Text.lstrip "@" username))]);
     req_timeout := timeout |}.

Definition rate_limit_request (self : MoniBagsSDK) : request :=
  {| req_method := GET;
     req_url := base_url self +:+ "/api/rate-limit";
     req_headers := session_headers self;
     req_json := None;
     req_timeout := 10 |}.

(** The requests among the events of a trace, and the payloads sent so far. *)
Definition requests_of (events : list event) : list request :=
  omap (fun ev => match ev with EvRequest req => Some req | _ => None end) events.

Definition payloads (w : World) : list (option pyval) :=
  req_json <$> requests_of (trace w).

(** *** Results of [get_rate_limit_status] and of the formatter *)

(** The mapping returned in place of a failure. *)
Definition error_mapping (msg : string) : pyval := PyDict [("error", PyStr msg)].

Definition has_error_key (v : pyval) : Prop :=
  exists entries, v = PyDict entries /\ is_Some (Py.lookup "error" entries).

(** The two rules of the formatter's frame. *)
Definition rule : string := Text.replicate_char 50 "=".

(** *** What the exporter writes *)

(** A result gets a CSV row when its [success] entry is truthy. *)
Definition is_success (result : pyval) : bool :=
  match Py.get result "success" PyNone with
  | Ok v => Py.truthy v
  | Raise _ => false
  end.

(** The row of a result: its five cells, rendered, quoted and terminated. *)
Definition csv_line (rt : Runtime) (result : pyval) : outcome string :=
  cells ← csv_rowdict result; mret (Csv.row (Csv.cell rt <$> cells)).

Definition file_content (w : World) (filename : string) : option string :=
  fs w !! filename.

(** *** Records and events of the batch loop *)

(** The record of one username: the body of a successful check with the
    username and the timestamp stored in it, or the failure record of what
    was raised (by the check, or by storing into a body that is no dict). *)
Definition item_record (username : string) (checked : outcome pyval) (timestamp : string)
  : pyval :=
  match checked with
  | Ok body =>
      match Py.setitem body "username" (PyStr username) with
      | Ok body =>
          match Py.setitem body "timestamp" (PyStr timestamp) with
          | Ok body => body
          | Raise e => failure_record username e timestamp
          end
      | Raise e => failure_record username e timestamp
      end
  | Raise e => failure_record username e timestamp
  end.

(** The record [r] is the one the loop stores for [username]. *)
Definition record_of (username : string) (r : pyval) : Prop :=
  exists checked timestamp, r = item_record username checked timestamp.

Definition tick (w : World) : World :=
  {| trace := trace w; clock_reads := S (clock_reads w); fs := fs w |}.

(** What the loop tells about the username at position [i]: the callback's
    call when there is one, the printed line otherwise. *)
Definition progress_event (progress_callback : option callback) (total i : Z)
    (username : string) : event :=
  match progress_callback with
  | Some _ => EvProgress (i + 1) total username
  | None => EvPrint ("Checking " +:+ Text.of_Z (i + 1) +:+ "/" +:+ Text.of_Z total
                     +:+ ": @" +:+ username)
  end.

(** The events of one check: the notification, then the request. *)
Definition check_events (self : MoniBagsSDK) (progress_callback : option callback)
    (total i : Z) (username : string) : list event :=
  [progress_event progress_callback total i username;
   EvRequest (history_request self username check_timeout_default)].

Fixpoint blocks (self : MoniBagsSDK) (progress_callback : option callback)
    (total i : Z) (usernames : list string) : list (list event) :=
  match usernames with
  | [] => []
  | username :: rest =>
      check_events self progress_callback total i username
      :: blocks self progress_callback total (i + 1) rest
  end.

(** Blocks of events with [sep] between two consecutive blocks, and
    nowhere else. *)
Fixpoint separate (sep : list event) (bs : list (list event)) : list event :=
  match bs with
  | [] => []
  | [b] => b
  | b :: rest => b ++ sep ++ separate sep rest
  end.

(** How many times a trace sleeps. *)
Fixpoint sleeps (events : list event) : nat :=
  match events with
  | [] => 0
  | EvSleep _ :: rest => S (sleeps rest)
  | _ :: rest => sleeps rest
  end.

(** The callback, if there is one, returns. *)
Definition callback_returns (progress_callback : option callback) : Prop :=
  forall cb, progress_callback = Some cb ->
             forall current total username, cb current total username = Ok tt.

(** *** The record of each position of a batch *)






(** *** Results the CSV branch can read *)

Definition is_mapping (v : pyval) : Prop := exists entries, v = PyDict entries.

Definition is_str_list (v : pyval) : Prop := exists items, v = PyList (PyStr <$> items).

(** A result is exportable when it is a mapping and, if its [success] is
    truthy, its [data] (when present) is a mapping whose [history] (when
    present) is a list of strings: what [batch_check] stores for an answer
    of the service.  Nothing is asked of the data of a failed result. *)
Definition exportable (result : pyval) : Prop :=
  is_mapping result
  /\ (is_success result = true ->
      exists data history,
        Py.get result "data" (PyDict []) = Ok data
        /\ is_mapping data
        /\ Py.get data "history" (PyList []) = Ok history
        /\ is_str_list history).

(** ** Sample environments and inputs, to run the client on *)

Definition sample_runtime : Runtime :=
  {| float_repr := fun _ => "0.0";
     str_repr := fun s => "'" +:+ s +:+ "'";
     json_str := fun s => String Text.quote s +:+ String Text.quote "" |}.

(** A network that gives every request the same answer. *)
Definition constant_env (answer : outcome response) : Env :=
  {| runtime := sample_runtime;
     transport := fun _ _ => answer;
     now_isoformat := fun _ => "2024-01-01T00:00:00";
     sleep_error := fun _ => None;
     open_error := fun _ _ => None |}.

Definition empty_world : World := {| trace := []; clock_reads := 0; fs := ∅ |}.

Definition sample_sdk : MoniBagsSDK := init "https://monibags.xyz".

Definition too_many_requests : response :=
  {| status_code := 429; text := "Too Many Requests";
     json := raise_ RequestsJSONDecodeError "Expecting value: line 1 column 1 (char 0)" |}.

Definition server_error : response :=
  {| status_code := 500; text := "Internal Server Error";
     json := raise_ RequestsJSONDecodeError "Expecting value: line 1 column 1 (char 0)" |}.

(** A network where every check succeeds with the same body. *)
Definition clean_answer : response :=
  {| status_code := 200; text := "{...}";
     json := Ok (PyDict [("success", PyBool true);
                         ("data", PyDict [("is_clean", PyBool true);
                                          ("total_changes", PyInt 0)])]) |}.

(** The exception a test double or a bare [requests.exceptions.Timeout()]
    gives: a timeout without a text. *)
Definition bare_timeout : exn := MkExn Timeout "".

Definition rate_limit_body : pyval :=
  PyDict [("remaining", PyInt 7); ("reset_in", PyInt 42)].

Definition sample_results : list pyval :=
  [ PyDict [("success", PyBool true);
            ("data", PyDict [("current_username", PyStr "bob"); ("is_clean", PyBool true);
                             ("total_changes", PyInt 0); ("history", PyList [])]);
            ("username", PyStr "bob"); ("timestamp", PyStr "2024-01-01T00:00:00")];
    failure_record "eve" (MkExn APIError "API returned status code 500: oops")
      "2024-01-01T00:00:02" ].

(** ** Unfolding the client's computations *)

Ltac unfold_client :=
  unfold check_username_history, analyze_profile, get_rate_limit_status,
    try_except, session_post, session_get, session_send, raise, lift, raise_,
    mbind, mret, M_bind, M_ret;
  fold (@raise_).

(** ** Further vocabulary: what the methods do beyond the cases above *)

(** [s] ends with the character [c]. *)
Definition ends_with_char (c : ascii) (s : string) : Prop :=
  exists prefix, s = prefix +:+ String c "".

(** The exception [e] was raised below the method that sent [req]: by the
    transport, or by [response.json()] on the answer. *)
Definition raised_below (env : Env) (w : World) (req : request) (e : exn) : Prop :=
  transport env w req = Raise e
  \/ exists resp, transport env w req = Ok resp /\ json resp = Raise e.

(** A 200 answer that is a web page, not JSON. *)
Definition html_answer : response :=
  {| status_code := 200; text := "<html>maintenance</html>";
     json := Raise (MkExn RequestsJSONDecodeError
                      "Expecting value: line 1 column 1 (char 0)") |}.

(** What the progress callback answers at position [i]; without a callback
    the line is printed, which always succeeds. *)
Definition notified (progress_callback : option callback) (total i : Z) (username : string)
  : outcome unit :=
  match progress_callback with
  | Some cb => cb (i + 1) total username
  | None => Ok tt
  end.

(** Every notification that a batch over [usernames] makes returns. *)
Definition every_notification_returns (progress_callback : option callback)
    (usernames : list string) : Prop :=
  forall i username,
    usernames !! i = Some username ->
    notified progress_callback (Z.of_nat (length usernames)) (Z.of_nat i) username = Ok tt.

(** The progress notifications among the events of a trace. *)
Definition notifications (events : list event) : list event :=
  omap (fun ev => match ev with
                  | EvPrint _ | EvProgress _ _ _ => Some ev
                  | _ => None
                  end) events.

(** A 200 answer whose JSON is a list, not an object. *)
Definition list_answer : response :=
  {| status_code := 200; text := "[]"; json := Ok (PyList []) |}.

(** The callback raises [e] on some call. *)
Definition callback_raises (progress_callback : option callback) (e : exn) : Prop :=
  exists cb current total username,
    progress_callback = Some cb /\ cb current total username = Raise e.

(** A callback that cannot draw its progress bar. *)
Definition failing_callback : callback :=
  fun _ _ _ => Raise (MkExn ValueError "no progress bar").

(** An environment whose [time.sleep] refuses negative pauses, as Python's does. *)
Definition refusing_env : Env :=
  {| runtime := sample_runtime;
     transport := fun _ _ => Ok clean_answer;
     now_isoformat := fun _ => "2024-01-01T00:00:00";
     sleep_error := fun seconds =>
       if PrimFloat.ltb seconds 0%float
       then Some (MkExn ValueError "sleep length must be non-negative")
       else None;
     open_error := fun _ _ => None |}.

(** The lines of a formatted failure: the error, and the message when the
    result has a truthy one. *)
Definition failure_lines (rt : Runtime) (entries : list (string * pyval)) : list string :=
  ["Error: " +:+ Py.str rt (default (PyStr "Unknown error") (Py.lookup "error" entries))]
  ++ match Py.lookup "message" entries with
     | Some message => if Py.truthy message then ["Message: " +:+ Py.str rt message] else []
     | None => []
     end.

(** The lines of the history block of a formatted result. *)
Definition history_lines (rt : Runtime) (total_changes : Z) (items : list pyval)
  : list string :=
  ["Total Changes: " +:+ Text.of_Z total_changes;
   Text.newline +:+ "Previous Usernames:"]
  ++ map (fun item => "  • " +:+ Py.str rt item) items.

(** A world with one file in it. *)
Definition world_with_notes : World :=
  {| trace := []; clock_reads := 0; fs := {["notes.txt" := "keep me"]} |}.

(** An environment in which no file can be opened for writing. *)
Definition read_only_env : Env :=
  {| runtime := sample_runtime;
     transport := fun _ _ => Ok clean_answer;
     now_isoformat := fun _ => "2024-01-01T00:00:00";
     sleep_error := fun _ => None;
     open_error := fun _ filename =>
       Some (MkExn OSError ("[Errno 13] Permission denied: '" +:+ filename +:+ "'")) |}.

(** A result mapping whose [success] is missing or falsy: a failed check. *)
Definition is_failed_mapping (result : pyval) : Prop :=
  exists entries,
    result = PyDict entries
    /\ Py.truthy (default PyNone (Py.lookup "success" entries)) = false.

(** ** The consumers of the client: [monibags/cli.py]

    [main] is modelled from the parsed arguments on.  A call of
    [sys.exit(1)] is always the last act of [main], so [main] is a
    computation that returns the exit status, 0 when it runs to its end; an
    exception that leaves it is one that no handler of [main] caught. *)

(** [len(v)]. *)
Definition py_len (v : pyval) : outcome Z :=
  match v with
  | PyList items => Ok (Z.of_nat (length items))
  | PyDict entries => Ok (Z.of_nat (length entries))
  | PyStr s => Ok (Z.of_nat (length (Text.chars s)))
  | _ => raise_ TypeError ("object of type '" +:+ Py.type_name v +:+ "' has no len()")
  end.

(** [FileNotFoundError].  In Python it derives from [OSError]; no handler
    of this repository tells the difference. *)
Definition FileNotFoundError : exn_class := OtherException "FileNotFoundError".

(** What the command line needs beyond [Env]: the formatted clock, the
    lines of a text file as iterating over it yields them (or the error of
    opening or decoding it), [str.strip] and the help text of [argparse]. *)
Record CliEnv : Type := {
  now_strftime : World -> string -> string;
  file_lines : World -> string -> outcome (list string);
  str_strip : string -> string;
  help_text : string
}.

(** [datetime.now().strftime(fmt)]. *)
Definition datetime_now_strftime (cli : CliEnv) (fmt : string) : M string :=
  fun _ w => (Ok (now_strftime cli w fmt), tick w).

(** [with open(file, 'r') as f:] and the iteration over [f]. *)
Definition read_lines (cli : CliEnv) (file : string) : M (list string) :=
  fun _ w => (file_lines cli w file, w).

(** The parsed arguments: the subcommand and its options. *)
Inductive command : Type :=
| NoCommand
| Check (usernames : list string) (save : bool) (output : option string) (format : string)
| Analyze (username : string) (save : bool)
| Batch (file : string) (delay : float) (output : option string).

(** [args.output or <default>]: the default is computed only when the
    option is absent or empty. *)
Definition output_or (output : option string) (default_name : M string) : M string :=
  match output with
  | Some name => if bool_decide (name = "") then default_name else mret name
  | None => default_name
  end.

Definition stamp_format : string := "%Y%m%d_%H%M%S".

(** [sum(1 for r in results if cond(r))]. *)
Fixpoint sum_ones_if (cond : pyval -> outcome bool) (results : list pyval) (acc : Z)
  : outcome Z :=
  match results with
  | [] => Ok acc
  | r :: rest =>
      counted ← cond r;
      sum_ones_if cond rest (if (counted : bool) then acc + 1 else acc)
  end.

(** [r.get('success') and r.get('data', {}).get('is_clean')], as a test. *)
Definition is_clean_result (r : pyval) : outcome bool :=
  success ← Py.get r "success" PyNone;
  if Py.truthy success then
    data ← Py.get r "data" (PyDict []);
    is_clean ← Py.get data "is_clean" PyNone;
    mret (Py.truthy is_clean)
  else mret false.

(** [r.get('success') and not r.get('data', {}).get('is_clean')]. *)
Definition is_suspicious_result (r : pyval) : outcome bool :=
  success ← Py.get r "success" PyNone;
  if Py.truthy success then
    data ← Py.get r "data" (PyDict []);
    is_clean ← Py.get data "is_clean" PyNone;
    mret (negb (Py.truthy is_clean))
  else mret false.

(** [not r.get('success')]. *)
Definition is_error_result (r : pyval) : outcome bool :=
  success ← Py.get r "success" PyNone;
  mret (negb (Py.truthy success)).

(** [for result in results: print(sdk.format_result(result))]. *)
Fixpoint print_results (results : list pyval) : M unit :=
  match results with
  | [] => mret tt
  | result :: rest =>
      rt ← get_runtime;
      text ← lift (format_result rt result);
      print text;;
      print_results rest
  end.

(** The [check] command with one username. *)
Definition main_check_one (cli : CliEnv) (sdk : MoniBagsSDK) (username : string)
    (save : bool) (output : option string) (format : string) : M Z :=
  print ("Checking @" +:+ username +:+ "...");;
  try_except
    (result ← check_username_history sdk username check_timeout_default;
     rt ← get_runtime;
     text ← lift (format_result rt result);
     print text;;
     (if save then
        output_file ← output_or output
          (stamp ← datetime_now_strftime cli stamp_format;
           mret ("monibags_" +:+ username +:+ "_" +:+ stamp +:+ "." +:+ format));
        export_results [result] output_file format
      else mret tt);;
     mret 0)
    [ (Exception, fun e => print ("Error: " +:+ exn_msg e);; mret 1) ].

(** The [check] command with several usernames. *)
Definition main_check_many (cli : CliEnv) (sdk : MoniBagsSDK) (usernames : list string)
    (save : bool) (output : option string) (format : string) : M Z :=
  results ← batch_check sdk usernames batch_delay_default None;
  print_results results;;
  (if save then
     output_file ← output_or output
       (stamp ← datetime_now_strftime cli stamp_format;
        mret ("monibags_batch_" +:+ stamp +:+ "." +:+ format));
     export_results results output_file format
   else mret tt);;
  mret 0.

(** The [analyze] command. *)
Definition main_analyze (cli : CliEnv) (sdk : MoniBagsSDK) (username : string) (save : bool)
  : M Z :=
  print ("Analyzing @" +:+ username +:+ "...");;
  try_except
    (result ← analyze_profile sdk username analyze_timeout_default;
     success ← lift (Py.get result "success" PyNone);
     (if Py.truthy success then
        print (Text.newline +:+ "Profile Analysis for @" +:+ username);;
        print (Text.replicate_char 50 "=");;
        rt ← get_runtime;
        profile ← lift (Py.get result "profile" (PyDict []));
        followers ← lift (Py.get profile "followers_count" (PyStr "N/A"));
        print ("Followers: " +:+ Py.str rt followers);;
        profile ← lift (Py.get result "profile" (PyDict []));
        following ← lift (Py.get profile "following_count" (PyStr "N/A"));
        print ("Following: " +:+ Py.str rt following);;
        network ← lift (Py.get result "network" (PyList []));
        size ← lift (py_len network);
        print ("Network size: " +:+ Text.of_Z size);;
        if save then
          stamp ← datetime_now_strftime cli stamp_format;
          let output_file :=
            "monibags_analysis_" +:+ username +:+ "_" +:+ stamp +:+ ".json" in
          open_w output_file;;
          fwrite output_file (Json.dumps rt 2 result);;
          print (Text.newline +:+ "Analysis saved to " +:+ output_file)
        else mret tt
      else
        rt ← get_runtime;
        error ← lift (Py.get result "error" (PyStr "Unknown error"));
        print ("Error: " +:+ Py.str rt error));;
     mret 0)
    [ (Exception, fun e => print ("Error: " +:+ exn_msg e);; mret 1) ].

(** [[line.strip() for line in f if line.strip()]]. *)
Definition loaded_usernames (cli : CliEnv) (lines : list string) : list string :=
  str_strip cli <$> List.filter (fun line => negb (bool_decide (str_strip cli line = "")))
                      lines.

(** The [batch] command. *)
Definition main_batch (cli : CliEnv) (sdk : MoniBagsSDK) (file : string) (delay : float)
    (output : option string) : M Z :=
  try_except
    (lines ← read_lines cli file;
     let usernames := loaded_usernames cli lines in
     print ("Loaded " +:+ Text.of_Z (Z.of_nat (length usernames)) +:+ " usernames from "
            +:+ file);;
     results ← batch_check sdk usernames delay None;
     clean_count ← lift (sum_ones_if is_clean_result results 0);
     suspicious_count ← lift (sum_ones_if is_suspicious_result results 0);
     error_count ← lift (sum_ones_if is_error_result results 0);
     print (Text.newline +:+ Text.replicate_char 50 "=");;
     print "Batch Check Summary";;
     print (Text.replicate_char 50 "=");;
     print ("Total checked: " +:+ Text.of_Z (Z.of_nat (length results)));;
     print ("Clean accounts: " +:+ Text.of_Z clean_count);;
     print ("Suspicious accounts: " +:+ Text.of_Z suspicious_count);;
     print ("Errors: " +:+ Text.of_Z error_count);;
     output_file ← output_or output
       (stamp ← datetime_now_strftime cli stamp_format;
        mret ("monibags_batch_" +:+ stamp +:+ ".json"));
     open_w output_file;;
     rt ← get_runtime;
     fwrite output_file (Json.dumps rt 2 (PyList results));;
     print (Text.newline +:+ "Detailed results saved to " +:+ output_file);;
     mret 0)
    [ (FileNotFoundError, fun _ =>
         print ("Error: File '" +:+ file +:+ "' not found");; mret 1);
      (Exception, fun e => print ("Error: " +:+ exn_msg e);; mret 1) ].

(** [main], after [parser.parse_args()]. *)
Definition main (cli : CliEnv) (args : command) : M Z :=
  match args with
  | NoCommand => print (help_text cli);; mret 1
  | Check usernames save output format =>
      let sdk := init "https://monibags.xyz" in
      match usernames with
      | [username] => main_check_one cli sdk username save output format
      | _ => main_check_many cli sdk usernames save output format
      end
  | Analyze username save => main_analyze cli (init "https://monibags.xyz") username save
  | Batch file delay output => main_batch cli (init "https://monibags.xyz") file delay output
  end.

(** A command-line environment: a fixed clock, a file of two usernames. *)
Definition sample_cli : CliEnv :=
  {| now_strftime := fun _ _ => "20240101_000000";
     file_lines := fun _ file =>
       if bool_decide (file = "usernames.txt") then Ok ["alice"; ""; "bob"]
       else Raise (MkExn FileNotFoundError
                     ("[Errno 2] No such file or directory: '" +:+ file +:+ "'"));
     str_strip := fun s => s;
     help_text := "usage: monibags [-h] [--version] {check,analyze,batch} ..." |}.

(** A 200 answer that reports a failure of the service. *)
Definition suspended_answer : response :=
  {| status_code := 200; text := "{...}";
     json := Ok (PyDict [("success", PyBool false); ("error", PyStr "Account suspended")]) |}.

(** The commands whose work [main] wraps in a [try] statement: all but
    [check] with no or several usernames. *)
Definition guarded (args : command) : Prop :=
  match args with
  | Check [_] _ _ _ => True
  | Check _ _ _ _ => False
  | _ => True
  end.

(** A result that claims success and carries no data mapping. *)
Definition null_data_result : pyval :=
  PyDict [("success", PyBool true); ("data", PyNone)].

(** ** A consumer of the results: [export_to_html] of [examples/export_results.py] *)

(** *** [str.format] with keyword arguments

    The scanner of [str.format], one character at a time, as CPython's
    does: literal text with doubled braces, then a field name up to [!],
    [:] or the closing brace, an optional conversion, and a format
    specification with nested braces.  A field that is a plain keyword is
    replaced by [str] of its value; the rendering of a field with an
    attribute or an index, a conversion or a format specification is left
    to [render]. *)

Module Format.
Import Text.

Inductive state : Type :=
| Literal
| AfterOpen
| AfterClose
| InName (name : string) (in_bracket : bool)
| AfterBang (name : string)
| AfterConversion (name : string) (conversion : ascii)
| InSpec (name : string) (conversion : option ascii) (depth : nat) (spec : string).

Inductive action : Type :=
| Next (st : state)
| Emit (c : ascii)
| Render (name : string) (conversion : option ascii) (spec : string)
| Fail (msg : string).

Definition snoc (s : string) (c : ascii) : string := s +:+ String c "".

(** One character of a field name. *)
Definition name_step (name : string) (in_bracket : bool) (c : ascii) : action :=
  if in_bracket then Next (InName (snoc name c) (negb (Ascii.eqb c "]")))
  else if Ascii.eqb c "{" then Fail "unexpected '{' in field name"
  else if Ascii.eqb c "[" then Next (InName (snoc name c) true)
  else if Ascii.eqb c "}" then Render name None ""
  else if Ascii.eqb c ":" then Next (InSpec name None 1 "")
  else if Ascii.eqb c "!" then Next (AfterBang name)
  else Next (InName (snoc name c) false).

Definition step (st : state) (c : ascii) : action :=
  match st with
  | Literal =>
      if Ascii.eqb c "{" then Next AfterOpen
      else if Ascii.eqb c "}" then Next AfterClose
      else Emit c
  | AfterOpen => if Ascii.eqb c "{" then Emit c else name_step "" false c
  | AfterClose =>
      if Ascii.eqb c "}" then Emit c
      else Fail "Single '}' encountered in format string"
  | InName name in_bracket => name_step name in_bracket c
  | AfterBang name => Next (AfterConversion name c)
  | AfterConversion name conversion =>
      if Ascii.eqb c "}" then Render name (Some conversion) ""
      else if Ascii.eqb c ":" then Next (InSpec name (Some conversion) 1 "")
      else Fail "expected ':' after conversion specifier"
  | InSpec name conversion depth spec =>
      if Ascii.eqb c "{" then Next (InSpec name conversion (S depth) (snoc spec c))
      else if Ascii.eqb c "}" then
        match depth with
        | 1%nat => Render name conversion spec
        | _ => Next (InSpec name conversion (Nat.pred depth) (snoc spec c))
        end
      else Next (InSpec name conversion depth (snoc spec c))
  end.

(** The end of the template. *)
Definition finish (st : state) (out : string) : outcome string :=
  match st with
  | Literal => Ok out
  | AfterOpen => raise_ ValueError "Single '{' encountered in format string"
  | AfterClose => raise_ ValueError "Single '}' encountered in format string"
  | InName _ _ => raise_ ValueError "expected '}' before end of string"
  | AfterBang _ => raise_ ValueError "end of string while looking for conversion specifier"
  | AfterConversion _ _ | InSpec _ _ _ _ => raise_ ValueError "unmatched '{' in format spec"
  end.

(** The argument a field names: its text up to the first dot or opening bracket. *)
Fixpoint first_part (name : string) : string :=
  match name with
  | EmptyString => EmptyString
  | String c rest =>
      if Ascii.eqb c "." || Ascii.eqb c "[" then EmptyString else String c (first_part rest)
  end.

Fixpoint is_digits (s : string) : bool :=
  match s with
  | EmptyString => true
  | String c rest => (Nat.leb 48 (Ascii.nat_of_ascii c) && Nat.leb (Ascii.nat_of_ascii c) 57)
                     && is_digits rest
  end.

Definition renderer : Type :=
  list (string * pyval) -> pyval -> string -> option ascii -> string -> outcome string.

(** The text of one field.  There are no positional arguments: a field
    without a name or with a number has nothing to take. *)
Definition field (render : renderer) (rt : Runtime) (kwargs : list (string * pyval))
    (name : string) (conversion : option ascii) (spec : string) : outcome string :=
  let first := first_part name in
  if is_digits first then
    raise_ (OtherException "IndexError")
      ("Replacement index "
       +:+ match NilZero.uint_of_string first with
           | Some index => of_Z (Z.of_uint index)
           | None => "0"
           end
       +:+ " out of range for positional args tuple")
  else
    match Py.lookup first kwargs with
    | None => raise_ KeyError (str_repr rt first)
    | Some value =>
        match conversion with
        | None =>
            if bool_decide (name = first) && bool_decide (spec = "")
            then Ok (Py.str rt value)
            else render kwargs value name conversion spec
        | Some _ => render kwargs value name conversion spec
        end
    end.

Fixpoint scan (render : renderer) (rt : Runtime) (kwargs : list (string * pyval))
    (template : string) (st : state) (out : string) : outcome string :=
  match template with
  | EmptyString => finish st out
  | String c rest =>
      match step st c with
      | Next st' => scan render rt kwargs rest st' out
      | Emit c' => scan render rt kwargs rest Literal (snoc out c')
      | Render name conversion spec =>
          text ← field render rt kwargs name conversion spec;
          scan render rt kwargs rest Literal (out +:+ text)
      | Fail msg => raise_ ValueError msg
      end
  end.

Definition format (render : renderer) (rt : Runtime) (template : string)
    (kwargs : list (string * pyval)) : outcome string :=
  scan render rt kwargs template Literal "".
End Format.

(** The template of the report, with its style sheet. *)
Definition html_content : string := "
<!DOCTYPE html>
<html>
<head>
    <title>MoniBags Report</title>
    <style>
        body { font-family: Arial, sans-serif; margin: 20px; }
        h1 { color: #00ff41; }
        .clean { color: green; }
        .suspicious { color: orange; }
        .error { color: red; }
        table { border-collapse: collapse; width: 100%; margin-top: 20px; }
        th, td { border: 1px solid #ddd; padding: 8px; text-align: left; }
        th { background-color: #f2f2f2; }
    </style>
</head>
<body>
    <h1>MoniBags Username History Report</h1>
    <p>Generated: {timestamp}</p>
    
    <h2>Summary</h2>
    <ul>
        <li>Total accounts: {total}</li>
        <li>Clean accounts: {clean}</li>
        <li>Suspicious accounts: {suspicious}</li>
    </ul>
    
    <h2>Results</h2>
    <table>
        <tr>
            <th>Username</th>
            <th>Status</th>
            <th>Changes</th>
            <th>Previous Names</th>
        </tr>
        {rows}
    </table>
</body>
</html>
    ".

Definition status_clean : string :=
  "<span class=" +:+ String Text.quote "clean" +:+ String Text.quote ">CLEAN ✅</span>".

Definition status_suspicious : string :=
  "<span class=" +:+ String Text.quote "suspicious" +:+ String Text.quote
    ">CHANGES ⚠️</span>".

(** The table row of one result. *)
Definition html_row (username status changes history : string) : string :=
  "
        <tr>
            <td>@" +:+ username +:+ "</td>
            <td>" +:+ status +:+ "</td>
            <td>" +:+ changes +:+ "</td>
            <td>" +:+ history +:+ "</td>
        </tr>".

(** [for result in results:] of [export_to_html], with the rows and the
    two counters it updates. *)
Fixpoint html_rows (rt : Runtime) (results : list pyval) (rows : list string)
    (clean suspicious : Z) : outcome (list string * Z * Z) :=
  match results with
  | [] => Ok (rows, clean, suspicious)
  | result :: rest =>
      success ← Py.get result "success" PyNone;
      if Py.truthy success then
        data ← Py.getitem result "data";
        username ← Py.get data "current_username" (PyStr "unknown");
        is_clean ← Py.get data "is_clean" PyNone;
        if Py.truthy is_clean then
          html_rows rt rest
            (rows ++ [html_row (Py.str rt username) status_clean "0" "None"])
            (clean + 1) suspicious
        else
          total_changes ← Py.get data "total_changes" (PyInt 0);
          history ← Py.get data "history" (PyList []);
          history ← Py.str_join ", " history;
          html_rows rt rest
            (rows ++ [html_row (Py.str rt username) status_suspicious
                        (Py.str rt total_changes) history])
            clean (suspicious + 1)
      else html_rows rt rest rows clean suspicious
  end.

Definition export_to_html (cli : CliEnv) (render : Format.renderer)
    (results : list pyval) (filename : string) : M unit :=
  rt ← get_runtime;
  let total := Z.of_nat (length results) in
  counted ← lift (html_rows rt results [] 0 0);
  let '(rows, clean, suspicious) := counted in
  timestamp ← datetime_now_strftime cli "%Y-%m-%d %H:%M:%S";
  html_final ← lift (Format.format render rt html_content
                       [("timestamp", PyStr timestamp); ("total", PyInt total);
                        ("clean", PyInt clean); ("suspicious", PyInt suspicious);
                        ("rows", PyStr (Text.concat rows))]);
  open_w filename;;
  fwrite filename html_final.

(** A renderer for the sample runs; the sample templates do not need it. *)
Definition no_renderer : Format.renderer :=
  fun _ _ _ _ _ => raise_ ValueError "format specification not modelled".

(** Case analysis on the next outcome or test of a computation. *)
Ltac step_outcome :=
  match goal with
  | |- context [match ?x with Ok _ => _ | Raise _ => _ end] =>
      lazymatch x with
      | context [match _ with Ok _ => _ | Raise _ => _ end] => fail
      | context [if _ then _ else _] => fail
      | _ => destruct x
      end
  | |- context [if ?b then _ else _] =>
      lazymatch b with
      | context [match _ with Ok _ => _ | Raise _ => _ end] => fail
      | context [if _ then _ else _] => fail
      | _ => destruct b
      end
  end.

(** An environment in which the directory of the output file is missing. *)
Definition no_directory_env : Env :=
  {| runtime := sample_runtime;
     transport := fun _ _ => Ok clean_answer;
     now_isoformat := fun _ => "2024-01-01T00:00:00";
     sleep_error := fun _ => None;
     open_error := fun _ filename =>
       Some (MkExn FileNotFoundError
               ("[Errno 2] No such file or directory: '" +:+ filename +:+ "'")) |}.

(** ** Sanity checks of the model *)

Example of_Z_30 : Text.of_Z 30 = "30". Proof. reflexivity. Qed.
Example lstrip_ex : Text.lstrip "@" "@@bob" = "bob". Proof. reflexivity. Qed.
Example chars_ex : Text.chars "a✅b" = ["a"; "✅"; "b"]. Proof. reflexivity. Qed.
Example isinstance_ex : issubclass ReadTimeout RequestException = true. Proof. reflexivity. Qed.
Example setitem_ex :
  Py.setitem (PyDict [("success", PyBool true)]) "username" (PyStr "bob")
  = Ok (PyDict [("success", PyBool true); ("username", PyStr "bob")]).
Proof. reflexivity. Qed.

(** ** Facts about text *)

Lemma append_String (a : ascii) (s t : string) : String a s +:+ t = String a (s +:+ t).
Proof. reflexivity. Qed.

Lemma append_empty_r (s : string) : s +:+ "" = s.
Proof. induction s as [|a s IH]; [reflexivity|]. rewrite append_String, IH. reflexivity. Qed.

Lemma append_assoc (s t u : string) : (s +:+ t) +:+ u = s +:+ t +:+ u.
Proof.
  induction s as [|a s IH]; [reflexivity|]. rewrite !append_String, IH. reflexivity.
Qed.

Lemma startswith_append (p s : string) : Text.startswith p (p +:+ s) = true.
Proof.
  induction p as [|a p IH]; [reflexivity|].
  rewrite append_String. simpl. rewrite Ascii.eqb_refl. exact IH.
Qed.

Lemma contains_startswith (sub s : string) :
  Text.startswith sub s = true -> Text.contains sub s = true.
Proof. intros H. destruct s; simpl; rewrite H; reflexivity. Qed.

Lemma contains_append_r (sub s : string) : Text.contains sub (sub +:+ s) = true.
Proof. apply contains_startswith, startswith_append. Qed.

Lemma contains_append_l (sub pre s : string) :
  Text.contains sub s = true -> Text.contains sub (pre +:+ s) = true.
Proof.
  intros H. induction pre as [|a pre IH]; [exact H|].
  rewrite append_String. simpl. rewrite IH. destruct (Text.startswith _ _); reflexivity.
Qed.

Lemma contains_middle (sub pre post : string) :
  Text.contains sub (pre +:+ sub +:+ post) = true.
Proof. apply contains_append_l, contains_append_r. Qed.

Lemma contains_end (sub pre : string) : Text.contains sub (pre +:+ sub) = true.
Proof.
  apply contains_append_l, contains_startswith.
  induction sub as [|a sub IH]; [reflexivity|]. simpl. rewrite Ascii.eqb_refl. exact IH.
Qed.

Lemma startswith_at (a : ascii) (s : string) :
  Text.startswith "@" (String a s) = Ascii.eqb "@" a.
Proof. unfold Text.startswith. destruct (Ascii.eqb "@" a); reflexivity. Qed.

Lemma lstrip_at_cons (a : ascii) (s : string) :
  Text.lstrip "@" (String a s) = if Ascii.eqb a "@" then Text.lstrip "@" s else String a s.
Proof. unfold Text.lstrip at 1, Text.mem. destruct (Ascii.eqb a "@"); reflexivity. Qed.

(** What [lstrip] leaves does not start with a stripped character, and what
    it removes is made of stripped characters only. *)
Lemma lstrip_at_shape (s : string) :
  exists n : nat,
    s = Text.replicate_char n "@" +:+ Text.lstrip "@" s
    /\ Text.startswith "@" (Text.lstrip "@" s) = false.
Proof.
  induction s as [|a s [n [Hs Hn]]].
  - exists 0%nat. split; reflexivity.
  - rewrite lstrip_at_cons. destruct (Ascii.eqb a "@") eqn:Ha.
    + apply Ascii.eqb_eq in Ha. subst a. exists (S n). split; [|exact Hn].
      change (Text.replicate_char (S n) "@") with (String "@" (Text.replicate_char n "@")).
      rewrite append_String. f_equal. exact Hs.
    + exists 0%nat. split; [reflexivity|].
      rewrite startswith_at, Ascii.eqb_sym. exact Ha.
Qed.

Lemma lstrip_at_unchanged (s : string) :
  Text.startswith "@" s = false -> Text.lstrip "@" s = s.
Proof.
  destruct s as [|a s]; [reflexivity|].
  rewrite startswith_at, lstrip_at_cons, (Ascii.eqb_sym a). intros ->. reflexivity.
Qed.

Lemma lstrip_at_one (s : string) :
  Text.startswith "@" s = false -> Text.lstrip "@" (String "@" s) = s.
Proof. intros H. rewrite lstrip_at_cons. apply lstrip_at_unchanged, H. Qed.

Create HintDb contains.
#[local] Hint Resolve contains_middle contains_end contains_append_l contains_append_r
  : contains.

(** ** Facts about exceptions *)

Lemma issubclass_Exception (c : exn_class) : issubclass c Exception = true.
Proof. destruct c; reflexivity. Qed.

Lemma isinstance_Exception (e : exn) : isinstance e Exception = true.
Proof. apply issubclass_Exception. Qed.

(** Every timeout of the transport is a [RequestException]. *)
Lemma Timeout_is_RequestException (e : exn) :
  isinstance e Timeout = true -> isinstance e RequestException = true.
Proof. destruct e as [c msg]. destruct c; simpl; try discriminate; reflexivity. Qed.

(** ** One request, one answer: how [check_username_history] and
    [analyze_profile] end, by what the transport does with their request *)

Lemma check_username_history_answered self username timeout env w resp :
  transport env w (history_request self username timeout) = Ok resp ->
  (check_username_history self username timeout env w).1 =
    if status_code resp =? 429 then
      raise_ RateLimitError "Rate limit exceeded. Please wait before making another request."
    else if status_code resp =? 200 then
      match json resp with
      | Ok body => Ok body
      | Raise e =>
          if isinstance e Timeout then
            raise_ MoniBagsException ("Request timed out after " +:+ Text.of_Z timeout +:+ " seconds")
          else if isinstance e RequestException then
            raise_ MoniBagsException ("Request failed: " +:+ exn_msg e)
          else Raise e
      end
    else
      raise_ APIError ("API returned status code " +:+ Text.of_Z (status_code resp)
                       +:+ ": " +:+ text resp).
Proof.
  intros H. unfold_client. fold (history_request self username timeout). rewrite H.
  destruct (status_code resp =? 429); [reflexivity|].
  destruct (status_code resp =? 200); [|reflexivity].
  destruct (json resp) as [body|e]; [reflexivity|]. simpl.
  destruct (isinstance e Timeout); [reflexivity|]. simpl.
  destruct (isinstance e RequestException); reflexivity.
Qed.

Lemma check_username_history_failed self username timeout env w e :
  transport env w (history_request self username timeout) = Raise e ->
  (check_username_history self username timeout env w).1 =
    if isinstance e Timeout then
      raise_ MoniBagsException ("Request timed out after " +:+ Text.of_Z timeout +:+ " seconds")
    else if isinstance e RequestException then
      raise_ MoniBagsException ("Request failed: " +:+ exn_msg e)
    else Raise e.
Proof.
  intros H. unfold_client. fold (history_request self username timeout). rewrite H. simpl.
  destruct (isinstance e Timeout); [reflexivity|]. simpl.
  destruct (isinstance e RequestException); reflexivity.
Qed.

Lemma analyze_profile_answered self username timeout env w resp :
  transport env w (analyze_request self username timeout) = Ok resp ->
  (analyze_profile self username timeout env w).1 =
    if status_code resp =? 429 then raise_ RateLimitError "Rate limit exceeded"
    else if status_code resp =? 200 then
      match json resp with
      | Ok body => Ok body
      | Raise e =>
          if isinstance e RequestException then
            raise_ MoniBagsException ("Request failed: " +:+ exn_msg e)
          else Raise e
      end
    else raise_ APIError ("API returned status code " +:+ Text.of_Z (status_code resp)).
Proof.
  intros H. unfold_client. fold (analyze_request self username timeout). rewrite H.
  destruct (status_code resp =? 429); [reflexivity|].
  destruct (status_code resp =? 200); [|reflexivity].
  destruct (json resp) as [body|e]; [reflexivity|]. simpl.
  destruct (isinstance e RequestException); reflexivity.
Qed.

Lemma analyze_profile_failed self username timeout env w e :
  transport env w (analyze_request self username timeout) = Raise e ->
  (analyze_profile self username timeout env w).1 =
    if isinstance e RequestException then
      raise_ MoniBagsException ("Request failed: " +:+ exn_msg e)
    else Raise e.
Proof.
  intros H. unfold_client. fold (analyze_request self username timeout). rewrite H. simpl.
  destruct (isinstance e RequestException); reflexivity.
Qed.

(** Whatever the answer, the one thing a call does to the world is to send
    its request. *)
Lemma check_username_history_world self username timeout env w :
  (check_username_history self username timeout env w).2 =
    log (EvRequest (history_request self username timeout)) w.
Proof.
  unfold_client. fold (history_request self username timeout).
  destruct (transport env w _) as [resp|e]; simpl.
  - destruct (status_code resp =? 429); [reflexivity|].
    destruct (status_code resp =? 200); [|reflexivity].
    destruct (json resp) as [body|e]; [reflexivity|]. simpl.
    destruct (isinstance e Timeout); [reflexivity|]. simpl.
    destruct (isinstance e RequestException); reflexivity.
  - destruct (isinstance e Timeout); [reflexivity|]. simpl.
    destruct (isinstance e RequestException); reflexivity.
Qed.

Lemma analyze_profile_world self username timeout env w :
  (analyze_profile self username timeout env w).2 =
    log (EvRequest (analyze_request self username timeout)) w.
Proof.
  unfold_client. fold (analyze_request self username timeout).
  destruct (transport env w _) as [resp|e]; simpl.
  - destruct (status_code resp =? 429); [reflexivity|].
    destruct (status_code resp =? 200); [|reflexivity].
    destruct (json resp) as [body|e]; [reflexivity|]. simpl.
    destruct (isinstance e RequestException); reflexivity.
  - destruct (isinstance e RequestException); reflexivity.
Qed.

(** ** The claims about a single call *)

(** C3. When the service answers with status 429, [check_username_history]
    and [analyze_profile] both raise a [RateLimitError]; the exception is
    not an [APIError]. *)
Theorem status_429_raises_RateLimitError
    (self : MoniBagsSDK) (username : string) (timeout : Z) (env : Env) (w : World)
    (resp : response) :
  status_code resp = 429 ->
  (transport env w (history_request self username timeout) = Ok resp ->
   exists e, (check_username_history self username timeout env w).1 = Raise e
             /\ exn_cls e = RateLimitError /\ isinstance e APIError = false)
  /\ (transport env w (analyze_request self username timeout) = Ok resp ->
      exists e, (analyze_profile self username timeout env w).1 = Raise e
                /\ exn_cls e = RateLimitError /\ isinstance e APIError = false).
Proof.
  intros Hcode. split; intros H.
  - rewrite (check_username_history_answered _ _ _ _ _ _ H), Hcode.
    eexists. split; [reflexivity|]. split; reflexivity.
  - rewrite (analyze_profile_answered _ _ _ _ _ _ H), Hcode.
    eexists. split; [reflexivity|]. split; reflexivity.
Qed.

Lemma status_429_raises_RateLimitError_witness :
  (exists e, (check_username_history sample_sdk "@bob" 30
                (constant_env (Ok too_many_requests)) empty_world).1 = Raise e
             /\ exn_cls e = RateLimitError /\ isinstance e APIError = false)
  /\ (exists e, (analyze_profile sample_sdk "@bob" 60
                   (constant_env (Ok too_many_requests)) empty_world).1 = Raise e
                /\ exn_cls e = RateLimitError /\ isinstance e APIError = false).
Proof.
  destruct (status_429_raises_RateLimitError sample_sdk "@bob" 30
              (constant_env (Ok too_many_requests)) empty_world too_many_requests eq_refl)
    as [Hcheck _].
  destruct (status_429_raises_RateLimitError sample_sdk "@bob" 60
              (constant_env (Ok too_many_requests)) empty_world too_many_requests eq_refl)
    as [_ Hanalyze].
  split; [apply Hcheck | apply Hanalyze]; reflexivity.
Defined.

(** C4 (amended). When the service answers with a status other than 200 and
    429, both methods raise an [APIError] whose message contains the status
    code; the message of [check_username_history] also contains the body
    text, the message of [analyze_profile] is the status sentence alone. *)
Theorem other_status_raises_APIError
    (self : MoniBagsSDK) (username : string) (timeout : Z) (env : Env) (w : World)
    (resp : response) :
  status_code resp <> 200 -> status_code resp <> 429 ->
  (transport env w (history_request self username timeout) = Ok resp ->
   exists msg, (check_username_history self username timeout env w).1 = Raise (MkExn APIError msg)
               /\ Text.contains (Text.of_Z (status_code resp)) msg = true
               /\ Text.contains (text resp) msg = true)
  /\ (transport env w (analyze_request self username timeout) = Ok resp ->
      exists msg, (analyze_profile self username timeout env w).1 = Raise (MkExn APIError msg)
                  /\ Text.contains (Text.of_Z (status_code resp)) msg = true
                  /\ msg = "API returned status code " +:+ Text.of_Z (status_code resp)).
Proof.
  intros H200 H429.
  apply Z.eqb_neq in H200. apply Z.eqb_neq in H429.
  split; intros H.
  - rewrite (check_username_history_answered _ _ _ _ _ _ H), H429, H200.
    eexists. split; [reflexivity|]. split; auto with contains.
  - rewrite (analyze_profile_answered _ _ _ _ _ _ H), H429, H200.
    eexists. split; [reflexivity|]. split; [auto with contains | reflexivity].
Qed.

Lemma other_status_raises_APIError_witness :
  (exists msg, (check_username_history sample_sdk "bob" 30
                  (constant_env (Ok server_error)) empty_world).1 = Raise (MkExn APIError msg)
               /\ Text.contains "500" msg = true
               /\ Text.contains "Internal Server Error" msg = true)
  /\ (exists msg, (analyze_profile sample_sdk "bob" 60
                     (constant_env (Ok server_error)) empty_world).1 = Raise (MkExn APIError msg)
                  /\ Text.contains "500" msg = true
                  /\ msg = "API returned status code 500").
Proof.
  assert (H200 : status_code server_error <> 200) by (vm_compute; discriminate).
  assert (H429 : status_code server_error <> 429) by (vm_compute; discriminate).
  destruct (other_status_raises_APIError sample_sdk "bob" 30
              (constant_env (Ok server_error)) empty_world server_error H200 H429)
    as [Hcheck _].
  destruct (other_status_raises_APIError sample_sdk "bob" 60
              (constant_env (Ok server_error)) empty_world server_error H200 H429)
    as [_ Hanalyze].
  split; [apply Hcheck | apply Hanalyze]; reflexivity.
Defined.

(** C4 as stated fails for [analyze_profile]: on a 500 answer with the body
    [Internal Server Error] its message holds the status code but not the
    body text. *)
Lemma analyze_profile_message_omits_body :
  ~ (exists msg, (analyze_profile sample_sdk "bob" 60
                    (constant_env (Ok server_error)) empty_world).1 = Raise (MkExn APIError msg)
                 /\ Text.contains (Text.of_Z (status_code server_error)) msg = true
                 /\ Text.contains (text server_error) msg = true).
Proof.
  intros [msg [Hraise [_ Hbody]]].
  vm_compute in Hraise. injection Hraise as <-.
  vm_compute in Hbody. discriminate.
Qed.

(** C5 (amended). Both methods send the username with all its leading [@]
    removed: the input is some number of [@] followed by what is sent, and
    what is sent does not start with [@].  So exactly one [@] is removed
    when the username has exactly one, and a username with none is sent
    unchanged.  The request is sent whatever the answer will be. *)
Theorem request_username_has_leading_ats_stripped
    (self : MoniBagsSDK) (username : string) (timeout : Z) (env : Env) (w : World) :
  exists (n : nat) (sent : string),
    username = Text.replicate_char n "@" +:+ sent
    /\ Text.startswith "@" sent = false
    /\ (Text.startswith "@" username = false -> sent = username)
    /\ (forall rest, username = String "@" rest -> Text.startswith "@" rest = false ->
                     sent = rest)
    /\ trace (check_username_history self username timeout env w).2 =
         trace w ++ [EvRequest {| req_method := POST;
                                  req_url := base_url self +:+ "/api/check-username-history";
                                  req_headers := session_headers self;
                                  req_json := Some (PyDict [("username", PyStr sent)]);
                                  req_timeout := timeout |}]
    /\ trace (analyze_profile self username timeout env w).2 =
         trace w ++ [EvRequest {| req_method := POST;
                                  req_url := base_url self +:+ "/api/analyze";
                                  req_headers := session_headers self;
                                  req_json := Some (PyDict [("username", PyStr sent)]);
                                  req_timeout := timeout |}].
Proof.
  destruct (lstrip_at_shape username) as [n [Hshape Hstart]].
  exists n, (Text.lstrip "@" username).
  split; [exact Hshape|]. split; [exact Hstart|].
  split; [apply lstrip_at_unchanged|].
  split; [intros rest -> Hrest; apply lstrip_at_one, Hrest|].
  rewrite check_username_history_world, analyze_profile_world. split; reflexivity.
Qed.

Lemma request_username_has_leading_ats_stripped_witness :
  exists (n : nat) (sent : string),
    "@bob" = Text.replicate_char n "@" +:+ sent
    /\ sent = "bob"
    /\ trace (check_username_history sample_sdk "@bob" 30
                (constant_env (Ok server_error)) empty_world).2 =
         [EvRequest {| req_method := POST;
                       req_url := "https://monibags.xyz/api/check-username-history";
                       req_headers := session_headers sample_sdk;
                       req_json := Some (PyDict [("username", PyStr sent)]);
                       req_timeout := 30 |}].
Proof.
  destruct (request_username_has_leading_ats_stripped sample_sdk "@bob" 30
              (constant_env (Ok server_error)) empty_world)
    as (n & sent & Hshape & _ & _ & Hone & Hcheck & _).
  exists n, sent. split; [exact Hshape|].
  split; [apply (Hone "bob"); reflexivity|]. exact Hcheck.
Defined.

(** C5 as stated fails: for [@@bob] the request carries [bob], not the
    username with exactly one [@] removed, which is [@bob]. *)
Lemma two_leading_ats_are_both_stripped :
  payloads (check_username_history sample_sdk "@@bob" 30
              (constant_env (Ok server_error)) empty_world).2
    = [Some (PyDict [("username", PyStr "bob")])]
  /\ payloads (analyze_profile sample_sdk "@@bob" 60
                 (constant_env (Ok server_error)) empty_world).2
    = [Some (PyDict [("username", PyStr "bob")])]
  /\ payloads (check_username_history sample_sdk "@@bob" 30
                 (constant_env (Ok server_error)) empty_world).2
    <> [Some (PyDict [("username", PyStr "@bob")])]
  /\ payloads (analyze_profile sample_sdk "@@bob" 60
                 (constant_env (Ok server_error)) empty_world).2
    <> [Some (PyDict [("username", PyStr "@bob")])].
Proof.
  repeat split; try reflexivity; vm_compute; discriminate.
Qed.

(** C6 (amended). When the transport raises a timeout, both methods fail
    with the base [MoniBagsException] itself, which is neither an [APIError]
    nor a [RateLimitError].  The message of [check_username_history] names
    the timeout of the request; the message of [analyze_profile] is
    [Request failed: ] followed by the text of the transport's error. *)
Theorem transport_timeout_raises_MoniBagsException
    (self : MoniBagsSDK) (username : string) (timeout : Z) (env : Env) (w : World)
    (e : exn) :
  isinstance e Timeout = true ->
  (transport env w (history_request self username timeout) = Raise e ->
   exists msg,
     (check_username_history self username timeout env w).1 = Raise (MkExn MoniBagsException msg)
     /\ msg = "Request timed out after " +:+ Text.of_Z timeout +:+ " seconds"
     /\ Text.contains (Text.of_Z timeout) msg = true)
  /\ (transport env w (analyze_request self username timeout) = Raise e ->
      (analyze_profile self username timeout env w).1 =
        Raise (MkExn MoniBagsException ("Request failed: " +:+ exn_msg e)))
  /\ (forall msg, isinstance (MkExn MoniBagsException msg) APIError = false
                  /\ isinstance (MkExn MoniBagsException msg) RateLimitError = false).
Proof.
  intros Htimeout. split; [|split].
  - intros H. rewrite (check_username_history_failed _ _ _ _ _ _ H), Htimeout.
    eexists. split; [reflexivity|]. split; [reflexivity | auto with contains].
  - intros H. rewrite (analyze_profile_failed _ _ _ _ _ _ H).
    rewrite (Timeout_is_RequestException _ Htimeout). reflexivity.
  - intros msg. split; reflexivity.
Qed.

Lemma transport_timeout_raises_MoniBagsException_witness :
  (check_username_history sample_sdk "bob" 30
     (constant_env (Raise bare_timeout)) empty_world).1
    = Raise (MkExn MoniBagsException "Request timed out after 30 seconds")
  /\ (analyze_profile sample_sdk "bob" 60
        (constant_env (Raise bare_timeout)) empty_world).1
    = Raise (MkExn MoniBagsException "Request failed: ").
Proof.
  destruct (transport_timeout_raises_MoniBagsException sample_sdk "bob" 30
              (constant_env (Raise bare_timeout)) empty_world bare_timeout eq_refl)
    as [Hcheck _].
  destruct (transport_timeout_raises_MoniBagsException sample_sdk "bob" 60
              (constant_env (Raise bare_timeout)) empty_world bare_timeout eq_refl)
    as (_ & Hanalyze & _).
  split.
  - destruct (Hcheck eq_refl) as (msg & Hraise & -> & _). exact Hraise.
  - apply Hanalyze. reflexivity.
Defined.

(** C6 as stated fails for [analyze_profile]: with a timeout of 60 seconds
    and a transport timeout that carries no text, the message it raises
    does not name the 60. *)
Lemma analyze_profile_timeout_message_omits_value :
  isinstance bare_timeout Timeout = true
  /\ transport (constant_env (Raise bare_timeout)) empty_world
       (analyze_request sample_sdk "bob" 60) = Raise bare_timeout
  /\ ~ (exists msg, (analyze_profile sample_sdk "bob" 60
                       (constant_env (Raise bare_timeout)) empty_world).1
                    = Raise (MkExn MoniBagsException msg)
                    /\ Text.contains (Text.of_Z 60) msg = true).
Proof.
  split; [reflexivity|]. split; [reflexivity|].
  intros [msg [Hraise Hnames]].
  vm_compute in Hraise. injection Hraise as <-.
  vm_compute in Hnames. discriminate.
Qed.

(** ** [get_rate_limit_status] *)

Lemma error_mapping_has_error_key (msg : string) : has_error_key (error_mapping msg).
Proof. eexists. split; [reflexivity|]. eexists. reflexivity. Qed.

(** C7. [get_rate_limit_status] always returns: the parsed body on a 200
    answer, and a mapping with an [error] key when the status is not 200,
    when the body of a 200 answer cannot be parsed, and when the request
    raises. *)
Theorem get_rate_limit_status_never_raises (self : MoniBagsSDK) (env : Env) (w : World) :
  (exists v, (get_rate_limit_status self env w).1 = Ok v)
  /\ (forall resp body,
        transport env w (rate_limit_request self) = Ok resp ->
        status_code resp = 200 -> json resp = Ok body ->
        (get_rate_limit_status self env w).1 = Ok body)
  /\ (forall resp,
        transport env w (rate_limit_request self) = Ok resp ->
        status_code resp <> 200 ->
        (get_rate_limit_status self env w).1
          = Ok (error_mapping "Failed to get rate limit status"))
  /\ (forall resp e,
        transport env w (rate_limit_request self) = Ok resp ->
        status_code resp = 200 -> json resp = Raise e ->
        (get_rate_limit_status self env w).1 = Ok (error_mapping (exn_msg e)))
  /\ (forall e,
        transport env w (rate_limit_request self) = Raise e ->
        (get_rate_limit_status self env w).1 = Ok (error_mapping (exn_msg e)))
  /\ (forall v, (get_rate_limit_status self env w).1 = Ok v ->
        has_error_key v
        \/ exists resp, transport env w (rate_limit_request self) = Ok resp
                        /\ status_code resp = 200 /\ json resp = Ok v).
Proof.
  unfold_client. unfold error_mapping. fold (rate_limit_request self).
  destruct (transport env w (rate_limit_request self)) as [resp|e] eqn:Ht; simpl.
  - destruct (status_code resp =? 200) eqn:Hcode; simpl.
    + apply Z.eqb_eq in Hcode.
      destruct (json resp) as [body|e] eqn:Hjson; simpl.
      * repeat split; eauto; try (intros; simplify_eq; (reflexivity || congruence)).
        intros v Hv. injection Hv as <-. right. exists resp. split; [reflexivity|]. split; assumption.
      * rewrite isinstance_Exception. simpl.
        repeat split; eauto; try (intros; simplify_eq; (reflexivity || congruence)).
        intros v Hv. injection Hv as <-. left. apply error_mapping_has_error_key.
    + apply Z.eqb_neq in Hcode.
      repeat split; eauto; try (intros; simplify_eq; (reflexivity || congruence)).
      intros v Hv. injection Hv as <-. left. apply error_mapping_has_error_key.
  - rewrite isinstance_Exception. simpl.
    repeat split; eauto; try (intros; simplify_eq; (reflexivity || congruence)).
    intros v Hv. injection Hv as <-. left. apply error_mapping_has_error_key.
Qed.

Lemma get_rate_limit_status_never_raises_witness :
  (get_rate_limit_status sample_sdk
     (constant_env (Ok {| status_code := 200; text := "{...}"; json := Ok rate_limit_body |}))
     empty_world).1 = Ok rate_limit_body
  /\ (get_rate_limit_status sample_sdk (constant_env (Ok server_error)) empty_world).1
     = Ok (error_mapping "Failed to get rate limit status")
  /\ (get_rate_limit_status sample_sdk
        (constant_env (Raise (MkExn ConnectionError "Connection refused"))) empty_world).1
     = Ok (error_mapping "Connection refused").
Proof.
  split; [|split].
  - destruct (get_rate_limit_status_never_raises sample_sdk
                (constant_env (Ok {| status_code := 200; text := "{...}";
                                     json := Ok rate_limit_body |})) empty_world)
      as (_ & Hbody & _).
    eapply Hbody; reflexivity.
  - destruct (get_rate_limit_status_never_raises sample_sdk
                (constant_env (Ok server_error)) empty_world) as (_ & _ & Hstatus & _).
    eapply Hstatus; [reflexivity|]. vm_compute. discriminate.
  - destruct (get_rate_limit_status_never_raises sample_sdk
                (constant_env (Raise (MkExn ConnectionError "Connection refused")))
                empty_world) as (_ & _ & _ & _ & Hraise & _).
    apply (Hraise (MkExn ConnectionError "Connection refused")). reflexivity.
Defined.

(** ** [export_results] and [format_result] *)

(** C8. With a format that is neither [json] nor [csv], [export_results]
    raises the unsupported-format [ValueError] and leaves the world as it
    was: no file is created or changed, nothing is printed. *)
Theorem export_results_unsupported_format
    (results : list pyval) (filename format : string) (env : Env) (w : World) :
  format <> "json" -> format <> "csv" ->
  export_results results filename format env w
    = (Raise (MkExn ValueError ("Unsupported format: " +:+ format)), w).
Proof.
  intros Hjson Hcsv. unfold export_results.
  rewrite (bool_decide_eq_false_2 _ Hjson), (bool_decide_eq_false_2 _ Hcsv).
  reflexivity.
Qed.

Lemma export_results_unsupported_format_witness :
  export_results [PyDict [("success", PyBool true)]] "out.xml" "xml"
    (constant_env (Ok server_error)) empty_world
  = (Raise (MkExn ValueError "Unsupported format: xml"), empty_world).
Proof.
  apply (export_results_unsupported_format _ "out.xml" "xml"); vm_compute; discriminate.
Defined.

(** C10. For a result whose [success] is truthy and which has no [data]
    key, [format_result] returns a text: the data is taken to be empty, so
    the text holds [Username: @unknown] and the changes-detected status
    line, between the two rules. *)
Theorem format_result_without_data
    (rt : Runtime) (entries : list (string * pyval)) (success : pyval) :
  Py.lookup "success" entries = Some success ->
  Py.truthy success = true ->
  Py.lookup "data" entries = None ->
  exists out,
    format_result rt (PyDict entries) = Ok out
    /\ out = Text.join Text.newline
               [rule; "Username: @unknown"; "Status: CHANGES DETECTED ⚠️"; rule]
    /\ Text.contains "Username: @unknown" out = true
    /\ Text.contains "Status: CHANGES DETECTED ⚠️" out = true.
Proof.
  intros Hsuccess Htruthy Hdata.
  unfold format_result, Py.get. simpl.
  rewrite Hsuccess. simpl. rewrite Htruthy, Hdata. simpl.
  eexists. split; [reflexivity|]. split; [reflexivity|].
  split; vm_compute; reflexivity.
Qed.

Lemma format_result_without_data_witness :
  exists out,
    format_result sample_runtime
      (PyDict [("success", PyBool true); ("username", PyStr "bob")]) = Ok out
    /\ Text.contains "Username: @unknown" out = true
    /\ Text.contains "Status: CHANGES DETECTED ⚠️" out = true.
Proof.
  destruct (format_result_without_data sample_runtime
              [("success", PyBool true); ("username", PyStr "bob")] (PyBool true)
              eq_refl eq_refl eq_refl) as (out & Hout & _ & Hname & Hstatus).
  exists out. split; [exact Hout|]. split; assumption.
Defined.

(** *** What the CSV and JSON branches write *)

Lemma file_content_open_w filename env w :
  open_error env w filename = None ->
  open_w filename env w = (Ok tt, (open_w filename env w).2)
  /\ file_content (open_w filename env w).2 filename = Some ""
  /\ trace (open_w filename env w).2 = trace w.
Proof.
  intros H. unfold open_w, file_content. rewrite H. simpl.
  split; [reflexivity|]. split; [apply lookup_insert_eq | reflexivity].
Qed.

Lemma file_content_fwrite filename data env w content :
  file_content w filename = Some content ->
  fwrite filename data env w = (Ok tt, (fwrite filename data env w).2)
  /\ file_content (fwrite filename data env w).2 filename = Some (content +:+ data)
  /\ trace (fwrite filename data env w).2 = trace w.
Proof.
  unfold fwrite, file_content. intros H. simpl. rewrite H. simpl.
  split; [reflexivity|]. split; [apply lookup_insert_eq | reflexivity].
Qed.

Lemma export_csv_rows_cons filename result rest env w :
  export_csv_rows filename (result :: rest) env w =
    match Py.get result "success" PyNone with
    | Raise e => (Raise e, w)
    | Ok success =>
        if Py.truthy success then
          match csv_rowdict result with
          | Raise e => (Raise e, w)
          | Ok cells =>
              export_csv_rows filename rest env
                (fwrite filename (Csv.row (Csv.cell (runtime env) <$> cells)) env w).2
          end
        else export_csv_rows filename rest env w
    end.
Proof.
  cbn [export_csv_rows]. unfold mbind, M_bind, lift, get_runtime, mret, M_ret.
  destruct (Py.get result "success" PyNone) as [success|e]; [|reflexivity].
  destruct (Py.truthy success); [|reflexivity].
  destruct (csv_rowdict result) as [cells|e]; reflexivity.
Qed.

(** The loop of the CSV branch appends one row per successful result, in
    order, and stops at the first result it cannot read. *)
Lemma export_csv_rows_spec filename results env w content :
  file_content w filename = Some content ->
  exists written rows,
    file_content (export_csv_rows filename results env w).2 filename
      = Some (content +:+ Text.concat rows)
    /\ written `prefix_of` filter (fun r => is_success r = true) results
    /\ Forall2 (fun r row => csv_line (runtime env) r = Ok row) written rows
    /\ ((export_csv_rows filename results env w).1 = Ok tt ->
        written = filter (fun r => is_success r = true) results)
    /\ trace (export_csv_rows filename results env w).2 = trace w.
Proof.
  revert w content.
  induction results as [|result rest IH]; intros w content Hcontent.
  - exists [], []. simpl. rewrite append_empty_r. repeat split; auto.
  - rewrite export_csv_rows_cons, filter_cons.
    assert (Hsucc : is_success result =
                    match Py.get result "success" PyNone with
                    | Ok v => Py.truthy v | Raise _ => false end) by reflexivity.
    assert (Hline : csv_line (runtime env) result =
                    match csv_rowdict result with
                    | Ok cells => Ok (Csv.row (Csv.cell (runtime env) <$> cells))
                    | Raise e => Raise e end) by reflexivity.
    destruct (Py.get result "success" PyNone) as [success|e].
    2:{ exists [], []. simpl. rewrite append_empty_r.
        repeat split; auto using prefix_nil. discriminate. }
    destruct (Py.truthy success) eqn:Htruthy.
    + rewrite decide_True by exact Hsucc.
      destruct (csv_rowdict result) as [cells|e] eqn:Hcells.
      2:{ exists [], []. simpl. rewrite append_empty_r.
          repeat split; auto using prefix_nil. discriminate. }
      destruct (file_content_fwrite filename (Csv.row (Csv.cell (runtime env) <$> cells))
                  env w content Hcontent) as (_ & Hfile & Htrace).
      destruct (IH _ _ Hfile) as (written & rows & Hc & Hprefix & Hrows & Hall & Htr).
      exists (result :: written), (Csv.row (Csv.cell (runtime env) <$> cells) :: rows).
      split; [rewrite Hc; simpl; rewrite append_assoc; reflexivity|].
      split; [apply prefix_cons, Hprefix|].
      split; [constructor; [exact Hline | exact Hrows]|].
      split; [intros Hok; rewrite (Hall Hok); reflexivity|].
      rewrite Htr. exact Htrace.
    + rewrite decide_False by (rewrite Hsucc; discriminate).
      destruct (IH _ _ Hcontent) as (written & rows & Hc & Hprefix & Hrows & Hall & Htr).
      exists written, rows. repeat split; assumption.
Qed.

Lemma export_results_csv_run results filename env w :
  open_error env w filename = None ->
  export_results results filename "csv" env w =
    let opened := (open_w filename env w).2 in
    match results with
    | [] => (Ok tt, log (EvPrint ("Results exported to " +:+ filename)) opened)
    | _ =>
        let r := export_csv_rows filename results env
                   (fwrite filename (Csv.row fieldnames) env opened).2 in
        match r.1 with
        | Ok _ => (Ok tt, log (EvPrint ("Results exported to " +:+ filename)) r.2)
        | Raise e => (Raise e, r.2)
        end
    end.
Proof.
  intros Hopen. unfold export_results.
  rewrite bool_decide_eq_false_2 by discriminate.
  rewrite bool_decide_eq_true_2 by reflexivity.
  unfold mbind, M_bind. unfold open_w at 1. rewrite Hopen.
  unfold open_w. rewrite Hopen. cbn [snd].
  destruct results as [|result rest]; [reflexivity|].
  unfold fwrite at 1. cbn [snd].
  destruct (export_csv_rows _ _ _ _) as [[[]|e] w']; reflexivity.
Qed.

Lemma export_results_json_run results filename env w :
  open_error env w filename = None ->
  export_results results filename "json" env w =
    (Ok tt, log (EvPrint ("Results exported to " +:+ filename))
              (fwrite filename (Json.dumps (runtime env) 2 (PyList results)) env
                 (open_w filename env w).2).2).
Proof.
  intros Hopen. unfold export_results.
  rewrite bool_decide_eq_true_2 by reflexivity.
  unfold mbind, M_bind, get_runtime. unfold open_w. rewrite Hopen. reflexivity.
Qed.

Lemma join_items_strs sep (items : list string) : forall idx,
  Py.join_items sep idx (PyStr <$> items) = Ok items.
Proof.
  induction items as [|s items IH]; intros idx; [reflexivity|].
  simpl. rewrite IH. reflexivity.
Qed.

(** A successful exportable result has its row. *)
Lemma exportable_csv_rowdict result :
  exportable result -> is_success result = true ->
  exists cells, csv_rowdict result = Ok cells.
Proof.
  intros [[entries ->] Hdata] Hsuccess.
  destruct (Hdata Hsuccess) as (data & history & Hget & [fields ->] & Hhistory & [items ->]).
  unfold csv_rowdict. rewrite Hget. cbn [mbind outcome_bind].
  cbn [Py.get] in Hhistory |- *. cbn [mbind outcome_bind].
  injection Hhistory as Hhistory. rewrite Hhistory.
  unfold Py.str_join. cbn [Py.iter]. rewrite join_items_strs.
  eexists. reflexivity.
Qed.

(** On exportable results the loop of the CSV branch returns: a failed
    result is passed over, a successful one has its row written. *)
Lemma export_csv_rows_returns filename results env : forall w,
  Forall exportable results ->
  (export_csv_rows filename results env w).1 = Ok tt.
Proof.
  induction results as [|result rest IH]; intros w Hall; [reflexivity|].
  apply Forall_cons in Hall as [Hresult Hrest].
  rewrite export_csv_rows_cons.
  assert (Hsucc : is_success result =
                  match Py.get result "success" PyNone with
                  | Ok v => Py.truthy v | Raise _ => false end) by reflexivity.
  pose proof (exportable_csv_rowdict result Hresult) as Hcells.
  destruct Hresult as [[entries ->] _].
  cbn [Py.get] in Hsucc |- *.
  destruct (Py.truthy (default PyNone (Py.lookup "success" entries))).
  - destruct (Hcells Hsucc) as (cells & ->). apply IH, Hrest.
  - apply IH, Hrest.
Qed.

(** C9. In CSV format, for results that are exportable, [export_results]
    returns and the file holds the header and then one row for each result
    whose [success] is truthy, in order: a result whose [success] is falsy
    or missing gets no row and raises nothing.  For results of any shape,
    rows are written up to the first result that cannot be read, and when
    the export returns every successful result has its row.  For an empty
    list the file is empty, without header.  In JSON format the file holds
    the encoding of the whole list: every result, failed ones included, has
    its encoding in it. *)
Theorem export_results_csv_skips_failures_json_keeps_all
    (results : list pyval) (filename : string) (env : Env) (w : World) :
  open_error env w filename = None ->
  (Forall exportable results ->
   exists rows,
     (export_results results filename "csv" env w).1 = Ok tt
     /\ Forall2 (fun r row => csv_line (runtime env) r = Ok row)
          (filter (fun r => is_success r = true) results) rows
     /\ file_content (export_results results filename "csv" env w).2 filename
        = Some (match results with
                | [] => ""
                | _ => Csv.row fieldnames +:+ Text.concat rows
                end))
  /\ (exists written rows,
      file_content (export_results results filename "csv" env w).2 filename
        = Some (match results with
                | [] => ""
                | _ => Csv.row fieldnames +:+ Text.concat rows
                end)
      /\ written `prefix_of` filter (fun r => is_success r = true) results
      /\ Forall2 (fun r row => csv_line (runtime env) r = Ok row) written rows
      /\ ((export_results results filename "csv" env w).1 = Ok tt ->
          written = filter (fun r => is_success r = true) results))
  /\ (results = [] ->
      (export_results results filename "csv" env w).1 = Ok tt
      /\ file_content (export_results results filename "csv" env w).2 filename = Some "")
  /\ (export_results results filename "json" env w).1 = Ok tt
  /\ file_content (export_results results filename "json" env w).2 filename
       = Some (Json.dumps (runtime env) 2 (PyList results))
  /\ Json.dumps (runtime env) 2 (PyList results)
       = match results with
         | [] => "[]"
         | _ => "[" +:+ Json.newline_indent 2 1
                +:+ Text.join ("," +:+ Json.newline_indent 2 1)
                      (map (Json.encode (runtime env) 2 1) results)
                +:+ Json.newline_indent 2 0 +:+ "]"
         end.
Proof.
  intros Hopen.
  destruct (file_content_open_w filename env w Hopen) as (_ & Hopened & _).
  assert (Hcsv : exists written rows,
    file_content (export_results results filename "csv" env w).2 filename
      = Some (match results with
              | [] => ""
              | _ => Csv.row fieldnames +:+ Text.concat rows
              end)
    /\ written `prefix_of` filter (fun r => is_success r = true) results
    /\ Forall2 (fun r row => csv_line (runtime env) r = Ok row) written rows
    /\ ((export_results results filename "csv" env w).1 = Ok tt ->
        written = filter (fun r => is_success r = true) results)).
  { rewrite (export_results_csv_run _ _ _ _ Hopen). cbn zeta.
    destruct results as [|result rest].
    + exists [], []. repeat split; auto.
    + destruct (file_content_fwrite filename (Csv.row fieldnames) env _ _ Hopened)
        as (_ & Hheader & _).
      destruct (export_csv_rows_spec filename (result :: rest) env _ _ Hheader)
        as (written & rows & Hc & Hprefix & Hrows & Hall & _).
      exists written, rows.
      destruct (export_csv_rows _ _ _ _) as [[[]|e] w'] eqn:Hrun; simpl in *.
      * repeat split; auto.
      * repeat split; auto. }
  split; [|split; [exact Hcsv | split; [|split; [|split]]]].
  - intros Hexportable.
    assert (Hreturns : (export_results results filename "csv" env w).1 = Ok tt).
    { rewrite (export_results_csv_run _ _ _ _ Hopen). cbn zeta.
      destruct results as [|result rest]; [reflexivity|].
      pose proof (export_csv_rows_returns filename (result :: rest) env
                    (fwrite filename (Csv.row fieldnames) env
                       (open_w filename env w).2).2 Hexportable) as Hrows.
      destruct (export_csv_rows _ _ _ _) as [[[]|e] w']; [reflexivity | discriminate]. }
    destruct Hcsv as (written & rows & Hfile & _ & Hrows & Hall).
    exists rows. split; [exact Hreturns|].
    split; [rewrite <- (Hall Hreturns); exact Hrows | exact Hfile].
  - intros ->. rewrite (export_results_csv_run _ _ _ _ Hopen). cbn zeta.
    split; [reflexivity|]. exact Hopened.
  - rewrite (export_results_json_run _ _ _ _ Hopen). reflexivity.
  - rewrite (export_results_json_run _ _ _ _ Hopen).
    destruct (file_content_fwrite filename (Json.dumps (runtime env) 2 (PyList results))
                env _ _ Hopened) as (_ & Hfile & _).
    exact Hfile.
  - destruct results; reflexivity.
Qed.

Lemma export_results_csv_skips_failures_json_keeps_all_witness :
  (exists rows,
      (export_results sample_results "out.csv" "csv"
         (constant_env (Ok server_error)) empty_world).1 = Ok tt
      /\ Forall2 (fun r row => csv_line sample_runtime r = Ok row)
           (filter (fun r => is_success r = true) sample_results) rows
      /\ file_content (export_results sample_results "out.csv" "csv"
                         (constant_env (Ok server_error)) empty_world).2 "out.csv"
         = Some (Csv.row fieldnames +:+ Text.concat rows))
  /\ file_content (export_results sample_results "out.json" "json"
                     (constant_env (Ok server_error)) empty_world).2 "out.json"
       = Some (Json.dumps sample_runtime 2 (PyList sample_results)).
Proof.
  destruct (export_results_csv_skips_failures_json_keeps_all sample_results "out.csv"
              (constant_env (Ok server_error)) empty_world eq_refl)
    as [Hcsv _].
  destruct (export_results_csv_skips_failures_json_keeps_all sample_results "out.json"
              (constant_env (Ok server_error)) empty_world eq_refl)
    as (_ & _ & _ & _ & Hjson & _).
  split; [|exact Hjson].
  apply Hcsv. repeat constructor.
  - eexists. reflexivity.
  - intros _. eexists _, _. split; [reflexivity|].
    split; [eexists; reflexivity|]. split; [reflexivity|]. exists []. reflexivity.
  - eexists. reflexivity.
  - intros Hsuccess. discriminate Hsuccess.
Defined.

(** The sample export, run: the failed result has no CSV row. *)
Example export_sample_csv :
  file_content (export_results sample_results "out.csv" "csv"
                  (constant_env (Ok server_error)) empty_world).2 "out.csv"
  = Some ("username,is_clean,total_changes,history,timestamp" +:+ Text.crlf
          +:+ "bob,True,0,,2024-01-01T00:00:00" +:+ Text.crlf).
Proof. vm_compute. reflexivity. Qed.

Example export_empty_csv :
  file_content (export_results [] "out.csv" "csv"
                  (constant_env (Ok server_error)) empty_world).2 "out.csv" = Some "".
Proof. vm_compute. reflexivity. Qed.

(** ** The batch loop *)

Lemma lookup_store_eq key v entries : Py.lookup key (Py.store key v entries) = Some v.
Proof.
  induction entries as [|[k v0] rest IH]; simpl.
  - rewrite bool_decide_eq_true_2 by reflexivity. reflexivity.
  - destruct (bool_decide (k = key)) eqn:Hk; simpl; rewrite Hk; [reflexivity | exact IH].
Qed.

Lemma lookup_store_ne key key' v entries :
  key <> key' -> Py.lookup key' (Py.store key v entries) = Py.lookup key' entries.
Proof.
  intros Hne. induction entries as [|[k v0] rest IH]; simpl.
  - rewrite bool_decide_eq_false_2 by exact Hne. reflexivity.
  - destruct (bool_decide (k = key)) eqn:Hk; simpl.
    + apply bool_decide_eq_true_1 in Hk. subst k.
      rewrite bool_decide_eq_false_2 by exact Hne. reflexivity.
    + destruct (bool_decide (k = key')); [reflexivity | exact IH].
Qed.

(** The [try] statement never raises: it adds one record, reads the clock
    once, and does to the world what the check does. *)
Lemma batch_try_run self username results env w :
  let checked := check_username_history self username check_timeout_default env w in
  batch_try self username results env w =
    (Ok (results ++ [item_record username checked.1 (now_isoformat env checked.2)]),
     tick checked.2).
Proof.
  cbn zeta. unfold batch_try, try_except. unfold mbind at 1, M_bind.
  destruct (check_username_history self username check_timeout_default env w)
    as [[result|e] w1]; cbn [fst snd].
  - destruct result; cbn; rewrite ?isinstance_Exception; reflexivity.
  - cbn. rewrite isinstance_Exception. reflexivity.
Qed.

Lemma item_record_username username checked timestamp :
  Py.get (item_record username checked timestamp) "username" PyNone = Ok (PyStr username).
Proof.
  destruct checked as [[]|e]; try reflexivity.
  unfold item_record, Py.setitem, Py.get.
  rewrite lookup_store_ne by discriminate. rewrite lookup_store_eq. reflexivity.
Qed.

Lemma sleeps_app (a b : list event) : sleeps (a ++ b) = (sleeps a + sleeps b)%nat.
Proof.
  induction a as [|ev a IH]; [reflexivity|].
  destruct ev; simpl; rewrite IH; reflexivity.
Qed.

Lemma separate_cons (sep b : list event) (bs : list (list event)) :
  bs <> [] -> separate sep (b :: bs) = b ++ sep ++ separate sep bs.
Proof. destruct bs; [congruence | reflexivity]. Qed.

Lemma requests_of_app (a b : list event) :
  requests_of (a ++ b) = requests_of a ++ requests_of b.
Proof. apply omap_app. Qed.

Section BatchLoop.
Variables (self : MoniBagsSDK) (delay : float) (progress_callback : option callback).
Variables (env : Env) (total : Z).

Let events_of := check_events self progress_callback total.
Let blocks_from := blocks self progress_callback total.

Lemma blocks_cons i username rest :
  blocks_from i (username :: rest) = events_of i username :: blocks_from (i + 1) rest.
Proof. reflexivity. Qed.

Lemma blocks_not_nil i username rest : blocks_from i (username :: rest) <> [].
Proof. discriminate. Qed.

Lemma sleeps_check_events i username : sleeps (events_of i username) = 0%nat.
Proof. subst events_of. destruct progress_callback; reflexivity. Qed.


Lemma sleeps_separate usernames : forall i,
  sleeps (separate [EvSleep delay] (blocks_from i usernames)) = (length usernames - 1)%nat.
Proof.
  induction usernames as [|u rest IH]; intros i; [reflexivity|].
  destruct rest as [|u' rest'].
  - apply sleeps_check_events.
  - rewrite blocks_cons, separate_cons by apply blocks_not_nil.
    rewrite !sleeps_app, IH, sleeps_check_events. simpl. lia.
Qed.


Lemma last_separate usernames : forall i u,
  last usernames = Some u ->
  last (separate [EvSleep delay] (blocks_from i usernames))
  = Some (EvRequest (history_request self u check_timeout_default)).
Proof.
  induction usernames as [|u0 rest IH]; intros i u Hlast; [discriminate|].
  destruct rest as [|u' rest'].
  - injection Hlast as <-. reflexivity.
  - rewrite blocks_cons, separate_cons by apply blocks_not_nil.
    rewrite !last_app, (IH (i + 1) u Hlast). reflexivity.
Qed.

Hypothesis callback_ok : callback_returns progress_callback.

(** One turn of the loop. *)
Lemma batch_body_run i username results w :
  (i < total - 1 -> sleep_error env delay = None) ->
  let checked := check_username_history self username check_timeout_default env
                   (log (progress_event progress_callback total i username) w) in
  exists w',
    batch_body self delay progress_callback total i username results env w
      = (Ok (results ++ [item_record username checked.1 (now_isoformat env checked.2)]), w')
    /\ trace w' = trace w ++ events_of i username
                  ++ (if i <? total - 1 then [EvSleep delay] else []).
Proof.
  intros Hsleep. cbn zeta.
  assert (Hnotify :
    (match progress_callback with
     | Some f => call_progress f (i + 1) total username
     | None => print ("Checking " +:+ Text.of_Z (i + 1) +:+ "/" +:+ Text.of_Z total
                      +:+ ": @" +:+ username)
     end) env w = (Ok tt, log (progress_event progress_callback total i username) w)).
  { destruct progress_callback as [f|] eqn:Hcb; [|reflexivity].
    unfold call_progress, emit, lift, mbind, M_bind.
    rewrite (callback_ok f eq_refl). reflexivity. }
  unfold batch_body. unfold mbind at 1, M_bind. rewrite Hnotify.
  unfold mbind at 1, M_bind. rewrite batch_try_run. cbn zeta.
  set (checked := check_username_history self username check_timeout_default env
                    (log (progress_event progress_callback total i username) w)).
  assert (Htrace : trace checked.2 = trace w ++ events_of i username).
  { unfold checked. rewrite check_username_history_world. simpl.
    rewrite <- app_assoc. reflexivity. }
  clearbody checked.
  unfold mbind, M_bind, mret, M_ret.
  destruct (i <? total - 1) eqn:Hlt.
  - apply Z.ltb_lt in Hlt. unfold time_sleep. rewrite (Hsleep Hlt).
    eexists. split; [reflexivity|]. simpl. rewrite Htrace, <- app_assoc. reflexivity.
  - eexists. split; [reflexivity|]. simpl. rewrite Htrace. reflexivity.
Qed.

(** The loop from position [i] on: it never raises, stores one record per
    username, in order, and sleeps between two checks only. *)
Lemma batch_loop_run usernames : forall i results w,
  (i + 1 < total -> sleep_error env delay = None) ->
  i + Z.of_nat (length usernames) = total ->
  exists records w',
    batch_loop self delay progress_callback total i usernames results env w
      = (Ok (results ++ records), w')
    /\ Forall2 record_of usernames records
    /\ trace w' = trace w ++ separate [EvSleep delay] (blocks_from i usernames).
Proof.
  induction usernames as [|u rest IH]; intros i results w Hsleep Htotal.
  - exists [], w. simpl. rewrite !app_nil_r. repeat split. constructor.
  - cbn [batch_loop]. unfold mbind at 1, M_bind.
    destruct (batch_body_run i u results w) as (w1 & Hrun & Htr).
    { intros Hlt. apply Hsleep. lia. }
    rewrite Hrun.
    destruct (IH (i + 1) (results ++ [item_record u
                 (check_username_history self u check_timeout_default env
                    (log (progress_event progress_callback total i u) w)).1
                 (now_isoformat env
                    (check_username_history self u check_timeout_default env
                       (log (progress_event progress_callback total i u) w)).2)]) w1)
      as (records & w' & Hloop & Hrecords & Htr').
    { intros Hlt. apply Hsleep. lia. }
    { rewrite length_cons in Htotal. lia. }
    eexists (_ :: records), w'.
    split; [rewrite Hloop, <- app_assoc; reflexivity|].
    split; [constructor; [eexists _, _; reflexivity | exact Hrecords]|].
    rewrite Htr', Htr, blocks_cons, <- !app_assoc. f_equal. f_equal.
    destruct rest as [|u' rest'].
    + simpl in Htotal. replace (i <? total - 1) with false by (symmetry; apply Z.ltb_ge; lia).
      reflexivity.
    + rewrite separate_cons by apply blocks_not_nil.
      rewrite !length_cons in Htotal.
      replace (i <? total - 1) with true by (symmetry; apply Z.ltb_lt; lia).
      reflexivity.
Qed.

End BatchLoop.

(** One turn of the loop, in full: the notification may raise, then the
    check gives its record, then the pause before the next check may raise. *)
Lemma batch_body_cases self delay cb total i username results env w :
  batch_body self delay cb total i username results env w =
    match notified cb total i username with
    | Raise e => (Raise e, log (progress_event cb total i username) w)
    | Ok _ =>
        let checked := check_username_history self username check_timeout_default env
                         (log (progress_event cb total i username) w) in
        let results' := results ++ [item_record username checked.1
                                      (now_isoformat env checked.2)] in
        if i <? total - 1 then
          match sleep_error env delay with
          | Some e => (Raise e, tick checked.2)
          | None => (Ok results', log (EvSleep delay) (tick checked.2))
          end
        else (Ok results', tick checked.2)
    end.
Proof.
  unfold batch_body, notified. unfold mbind at 1, M_bind.
  assert (Hnotify :
    (match cb with
     | Some f => call_progress f (i + 1) total username
     | None => print ("Checking " +:+ Text.of_Z (i + 1) +:+ "/" +:+ Text.of_Z total
                      +:+ ": @" +:+ username)
     end) env w
    = (match cb with Some f => f (i + 1) total username | None => Ok tt end,
       log (progress_event cb total i username) w)).
  { destruct cb as [f|]; [|reflexivity].
    unfold call_progress, emit, lift, mbind, M_bind. reflexivity. }
  rewrite Hnotify.
  destruct (match cb with Some f => f (i + 1) total username | None => Ok tt end)
    as [[]|e]; [|reflexivity].
  unfold mbind at 1, M_bind. rewrite batch_try_run. cbn zeta.
  unfold mbind, M_bind, mret, M_ret, time_sleep.
  destruct (i <? total - 1); [|reflexivity].
  destruct (sleep_error env delay); reflexivity.
Qed.

Lemma batch_body_fs self delay cb total i username results env w :
  fs (batch_body self delay cb total i username results env w).2 = fs w.
Proof.
  rewrite batch_body_cases.
  destruct (notified cb total i username) as [[]|e]; [|reflexivity].
  cbn zeta.
  assert (Hfs : fs (tick (check_username_history self username check_timeout_default env
                            (log (progress_event cb total i username) w)).2) = fs w).
  { rewrite check_username_history_world. reflexivity. }
  destruct (i <? total - 1); [|exact Hfs].
  destruct (sleep_error env delay); exact Hfs.
Qed.

Lemma batch_body_clock self delay cb total i username results env w results' w' :
  batch_body self delay cb total i username results env w = (Ok results', w') ->
  clock_reads w' = S (clock_reads w) /\ length results' = S (length results).
Proof.
  rewrite batch_body_cases.
  destruct (notified cb total i username) as [[]|e]; [|discriminate].
  cbn zeta.
  assert (Hclock : clock_reads
                     (tick (check_username_history self username check_timeout_default env
                              (log (progress_event cb total i username) w)).2)
                   = S (clock_reads w)).
  { rewrite check_username_history_world. reflexivity. }
  destruct (i <? total - 1).
  - destruct (sleep_error env delay); [discriminate|].
    intros H. injection H as <- <-. rewrite length_app. simpl. split; [exact Hclock | lia].
  - intros H. injection H as <- <-. rewrite length_app. simpl. split; [exact Hclock | lia].
Qed.

Lemma batch_loop_cons self delay cb total i username rest results env w :
  batch_loop self delay cb total i (username :: rest) results env w =
    match batch_body self delay cb total i username results env w with
    | (Ok results', w') => batch_loop self delay cb total (i + 1) rest results' env w'
    | (Raise e, w') => (Raise e, w')
    end.
Proof. reflexivity. Qed.

Lemma batch_loop_fs self delay cb total env usernames : forall i results w,
  fs (batch_loop self delay cb total i usernames results env w).2 = fs w.
Proof.
  induction usernames as [|u rest IH]; intros i results w; [reflexivity|].
  rewrite batch_loop_cons.
  pose proof (batch_body_fs self delay cb total i u results env w) as Hbody.
  destruct (batch_body self delay cb total i u results env w) as [[results'|e] w1];
    simpl in Hbody; [|exact Hbody].
  rewrite IH. exact Hbody.
Qed.

Lemma batch_loop_clock self delay cb total env usernames : forall i results w results' w',
  batch_loop self delay cb total i usernames results env w = (Ok results', w') ->
  clock_reads w' = (clock_reads w + length usernames)%nat
  /\ length results' = (length results + length usernames)%nat.
Proof.
  induction usernames as [|u rest IH]; intros i results w results' w' Hrun.
  - injection Hrun as <- <-. simpl. split; lia.
  - rewrite batch_loop_cons in Hrun.
    destruct (batch_body self delay cb total i u results env w) as [[results1|e] w1] eqn:Hbody;
      [|discriminate].
    destruct (batch_body_clock _ _ _ _ _ _ _ _ _ _ _ Hbody) as [Hc1 Hl1].
    destruct (IH _ _ _ _ _ Hrun) as [Hc Hl].
    rewrite length_cons. split; lia.
Qed.

Lemma batch_loop_raises self delay cb total env usernames : forall i results w e w',
  batch_loop self delay cb total i usernames results env w = (Raise e, w') ->
  callback_raises cb e \/ sleep_error env delay = Some e.
Proof.
  induction usernames as [|u rest IH]; intros i results w e w' Hrun; [discriminate|].
  rewrite batch_loop_cons in Hrun.
  destruct (batch_body self delay cb total i u results env w) as [[results1|e1] w1] eqn:Hbody.
  - eapply IH. exact Hrun.
  - injection Hrun as -> ->. rewrite batch_body_cases in Hbody.
    unfold notified in Hbody. destruct cb as [f|].
    + destruct (f (i + 1) total u) as [[]|e0] eqn:Hf.
      * cbn zeta in Hbody. destruct (i <? total - 1); [|discriminate].
        destruct (sleep_error env delay) as [e0|]; [|discriminate].
        injection Hbody as -> _. right. reflexivity.
      * injection Hbody as -> _. left. exists f, (i + 1), total, u. split; [reflexivity|exact Hf].
    + cbn zeta in Hbody. destruct (i <? total - 1); [|discriminate].
      destruct (sleep_error env delay) as [e0|]; [|discriminate].
      injection Hbody as -> _. right. reflexivity.
Qed.

(** ** The batch loop, whatever the callback and [time.sleep] do *)

Lemma sleeps_progress_event cb total i username :
  sleeps [progress_event cb total i username] = 0%nat.
Proof. destruct cb; reflexivity. Qed.

Lemma trace_after_check self cb total i username env w :
  trace (tick (check_username_history self username check_timeout_default env
                 (log (progress_event cb total i username) w)).2)
  = trace w ++ check_events self cb total i username.
Proof.
  rewrite check_username_history_world. cbn [tick log trace].
  rewrite <- app_assoc. reflexivity.
Qed.

(** When the loop returns, it has stored one record per username and its
    events are the checks with one sleep between two of them. *)
Lemma batch_loop_returned self delay cb total env usernames : forall i results w rs w',
  i + Z.of_nat (length usernames) = total ->
  batch_loop self delay cb total i usernames results env w = (Ok rs, w') ->
  trace w' = trace w ++ separate [EvSleep delay] (blocks self cb total i usernames)
  /\ exists records, rs = results ++ records /\ Forall2 record_of usernames records.
Proof.
  induction usernames as [|u rest IH]; intros i results w rs w' Htotal Hrun.
  - injection Hrun as <- <-. simpl. rewrite app_nil_r. split; [reflexivity|].
    exists []. rewrite app_nil_r. split; [reflexivity | constructor].
  - rewrite batch_loop_cons, batch_body_cases in Hrun.
    destruct (notified cb total i u) as [[]|e]; [|discriminate].
    cbn zeta in Hrun.
    pose proof (trace_after_check self cb total i u env w) as Htr.
    destruct rest as [|u' rest'].
    + replace (i <? total - 1) with false in Hrun
        by (symmetry; apply Z.ltb_ge; simpl in Htotal; lia).
      injection Hrun as <- <-. split; [exact Htr|].
      eexists [_]. split; [reflexivity|].
      constructor; [eexists _, _; reflexivity | constructor].
    + replace (i <? total - 1) with true in Hrun
        by (symmetry; apply Z.ltb_lt; rewrite !length_cons in Htotal; lia).
      destruct (sleep_error env delay); [discriminate|].
      apply IH in Hrun as (Htr' & records & -> & Hrecords);
        [|rewrite !length_cons in *; lia].
      split.
      * rewrite Htr'. cbn [log trace]. rewrite Htr.
        rewrite (blocks_cons self cb total i u), separate_cons by apply blocks_not_nil.
        rewrite <- !app_assoc. reflexivity.
      * eexists (_ :: records). split; [rewrite <- app_assoc; reflexivity|].
        constructor; [eexists _, _; reflexivity | exact Hrecords].
Qed.

(** When the loop raises, the error is the callback's, or that of a
    [time.sleep] between two checks. *)
Lemma batch_loop_raised self delay cb total env usernames : forall i results w e w',
  i + Z.of_nat (length usernames) = total ->
  batch_loop self delay cb total i usernames results env w = (Raise e, w') ->
  callback_raises cb e \/ (sleep_error env delay = Some e /\ (1 < length usernames)%nat).
Proof.
  induction usernames as [|u rest IH]; intros i results w e w' Htotal Hrun; [discriminate|].
  rewrite batch_loop_cons, batch_body_cases in Hrun.
  destruct (notified cb total i u) as [[]|e0] eqn:Hnotified.
  - cbn zeta in Hrun. destruct (i <? total - 1) eqn:Hlt.
    + apply Z.ltb_lt in Hlt. rewrite length_cons in Htotal.
      destruct (sleep_error env delay) as [e0|] eqn:Hsleep.
      * injection Hrun as <- _. right. split; [reflexivity|]. rewrite length_cons. lia.
      * apply IH in Hrun as [Hcb | [Hs Hlen]]; [left; exact Hcb | | lia].
        right. split; [exact Hs|]. rewrite length_cons. lia.
    + apply IH in Hrun as [Hcb | [Hs Hlen]]; [left; exact Hcb | |rewrite length_cons in Htotal; lia].
      right. split; [exact Hs|]. rewrite length_cons. lia.
  - injection Hrun as <- _. left. unfold notified in Hnotified.
    destruct cb as [f|]; [|discriminate].
    exists f, (i + 1), total, u. split; [reflexivity | exact Hnotified].
Qed.

(** The loop never sleeps more often than between two usernames. *)
Lemma batch_loop_sleeps_le self delay cb total env usernames : forall i results w,
  i + Z.of_nat (length usernames) = total ->
  (sleeps (trace (batch_loop self delay cb total i usernames results env w).2)
   <= sleeps (trace w) + (length usernames - 1))%nat.
Proof.
  induction usernames as [|u rest IH]; intros i results w Htotal; [simpl; lia|].
  rewrite batch_loop_cons, batch_body_cases.
  destruct (notified cb total i u) as [[]|e0].
  - cbn zeta.
    pose proof (trace_after_check self cb total i u env w) as Htr.
    assert (Hsl : sleeps (trace (tick (check_username_history self u check_timeout_default env
                                          (log (progress_event cb total i u) w)).2))
                  = sleeps (trace w)).
    { rewrite Htr, sleeps_app, (sleeps_check_events self cb total). lia. }
    rewrite length_cons in Htotal.
    destruct (i <? total - 1) eqn:Hlt.
    + apply Z.ltb_lt in Hlt.
      destruct (sleep_error env delay) as [e0|].
      * cbn [snd]. rewrite Hsl. lia.
      * etransitivity; [apply IH; lia|].
        cbn [log trace]. rewrite sleeps_app, Hsl. simpl.
        destruct rest; [simpl in *; lia|]. rewrite !length_cons. lia.
    + etransitivity; [apply IH; lia|]. rewrite Hsl, length_cons. lia.
  - cbn [snd log trace]. rewrite sleeps_app, sleeps_progress_event. lia.
Qed.

(** The loop returns exactly when every notification returns and, with two
    usernames or more left, [time.sleep] accepts the delay: what the checks
    do plays no part in it. *)
Lemma batch_loop_returns_iff self delay cb total env usernames : forall i results w,
  i + Z.of_nat (length usernames) = total ->
  (exists rs w', batch_loop self delay cb total i usernames results env w = (Ok rs, w'))
  <-> (forall k u, usernames !! k = Some u -> notified cb total (i + Z.of_nat k) u = Ok tt)
      /\ ((1 < length usernames)%nat -> sleep_error env delay = None).
Proof.
  induction usernames as [|u rest IH]; intros i results w Htotal.
  - split.
    + intros _. split; [intros k u Hk; discriminate | simpl; lia].
    + intros _. eexists _, _. reflexivity.
  - rewrite batch_loop_cons, batch_body_cases. rewrite length_cons in Htotal.
    assert (Hshift : forall k, i + 1 + Z.of_nat k = i + Z.of_nat (S k)) by (intros; lia).
    destruct (notified cb total i u) as [[]|e0] eqn:Hnotified.
    + cbn zeta. destruct (i <? total - 1) eqn:Hlt.
      * apply Z.ltb_lt in Hlt.
        destruct (sleep_error env delay) as [e0|] eqn:Hsleep.
        -- split; [intros (rs & w' & H); discriminate|].
           intros [_ Hs]. rewrite length_cons in Hs. discriminate Hs. lia.
        -- rewrite IH by lia. split.
           ++ intros [Hall _]. split; [|intros _; reflexivity].
              intros [|k] u0 Hk.
              ** injection Hk as <-. rewrite Z.add_0_r. exact Hnotified.
              ** rewrite <- Hshift. apply Hall. exact Hk.
           ++ intros [Hall _]. split; [|intros _; reflexivity].
              intros k u0 Hk. rewrite Hshift. apply Hall. exact Hk.
      * apply Z.ltb_ge in Hlt. rewrite IH by lia.
        assert (Hrest : rest = []) by (destruct rest; [reflexivity | simpl in Htotal; lia]).
        subst rest. split.
        -- intros _. split; [|simpl; lia].
           intros [|k] u0 Hk; [|discriminate].
           injection Hk as <-. rewrite Z.add_0_r. exact Hnotified.
        -- intros _. split; [intros k u0 Hk; discriminate | simpl; lia].
    + split; [intros (rs & w' & H); discriminate|].
      intros [Hall _]. specialize (Hall 0%nat u eq_refl).
      rewrite Z.add_0_r, Hnotified in Hall. discriminate.
Qed.





Lemma callback_returns_every_notification cb usernames :
  callback_returns cb -> every_notification_returns cb usernames.
Proof.
  intros Hcb i username _. unfold notified.
  destruct cb as [f|]; [apply (Hcb f eq_refl) | reflexivity].
Qed.

Lemma batch_check_returns_iff self usernames delay cb env w :
  (exists results w', batch_check self usernames delay cb env w = (Ok results, w'))
  <-> every_notification_returns cb usernames
      /\ ((1 < length usernames)%nat -> sleep_error env delay = None).
Proof.
  unfold batch_check. cbn zeta. rewrite batch_loop_returns_iff by lia.
  unfold every_notification_returns. split; intros [Hall Hsleep]; (split; [|exact Hsleep]).
  - intros i username Hi. exact (Hall i username Hi).
  - intros k u Hk. exact (Hall k u Hk).
Qed.

Lemma batch_check_raised self usernames delay cb env w e w' :
  batch_check self usernames delay cb env w = (Raise e, w') ->
  callback_raises cb e \/ (sleep_error env delay = Some e /\ (1 < length usernames)%nat).
Proof.
  unfold batch_check. cbn zeta. apply batch_loop_raised. lia.
Qed.

(** C1. When [batch_check] on [N] usernames returns, it returns [N]
    records, the record at each position being that of the username at
    that position; its events are the checks (a notification and a request
    each) with one sleep between two consecutive checks and nowhere else:
    it has slept [N - 1] times, not at all when [N] is 0 or 1, and the last
    event is the last request.  When it raises instead, the error is the
    progress callback's, or that of [time.sleep] refusing the delay between
    two of [N >= 2] checks; no results are returned and it has slept at
    most [N - 1] times.  It returns exactly when every call of the callback
    returns and, for [N >= 2], [time.sleep] accepts the delay. *)
Theorem batch_check_results_and_sleeps
    (self : MoniBagsSDK) (usernames : list string) (delay : float)
    (progress_callback : option callback) (env : Env) (w : World) :
  (forall results w',
      batch_check self usernames delay progress_callback env w = (Ok results, w') ->
      length results = length usernames
      /\ Forall2 (fun u r => Py.get r "username" PyNone = Ok (PyStr u)) usernames results
      /\ trace w' = trace w ++ separate [EvSleep delay]
                                 (blocks self progress_callback
                                    (Z.of_nat (length usernames)) 0 usernames)
      /\ sleeps (trace w') = (sleeps (trace w) + (length usernames - 1))%nat
      /\ (forall u, last usernames = Some u ->
                    last (trace w')
                    = Some (EvRequest (history_request self u check_timeout_default))))
  /\ (forall e w',
        batch_check self usernames delay progress_callback env w = (Raise e, w') ->
        (callback_raises progress_callback e
         \/ (sleep_error env delay = Some e /\ (1 < length usernames)%nat))
        /\ (sleeps (trace w') <= sleeps (trace w) + (length usernames - 1))%nat)
  /\ ((exists results w',
          batch_check self usernames delay progress_callback env w = (Ok results, w'))
      <-> every_notification_returns progress_callback usernames
          /\ ((1 < length usernames)%nat -> sleep_error env delay = None))
  /\ (callback_returns progress_callback ->
      ((1 < length usernames)%nat -> sleep_error env delay = None) ->
      exists results w',
        batch_check self usernames delay progress_callback env w = (Ok results, w')).
Proof.
  split; [|split; [|split]].
  - intros results w' Hrun. unfold batch_check in Hrun. cbn zeta in Hrun.
    destruct (batch_loop_returned self delay progress_callback
                (Z.of_nat (length usernames)) env usernames 0 [] w results w')
      as (Htr & records & Hrs & Hrecords); [lia | exact Hrun |].
    simpl in Hrs. subst results.
    split; [symmetry; apply (Forall2_length _ _ _ Hrecords)|].
    split.
    { eapply Forall2_impl; [exact Hrecords|].
      intros u r (checked & timestamp & ->). apply item_record_username. }
    split; [exact Htr|].
    split.
    + rewrite Htr, sleeps_app, sleeps_separate. reflexivity.
    + intros u Hlast. rewrite Htr, last_app, (last_separate _ _ _ _ _ _ _ Hlast). reflexivity.
  - intros e w' Hrun. split; [eapply batch_check_raised; exact Hrun|].
    pose proof (batch_loop_sleeps_le self delay progress_callback
                  (Z.of_nat (length usernames)) env usernames 0 [] w) as Hle.
    unfold batch_check in Hrun. cbn zeta in Hrun. rewrite Hrun in Hle. apply Hle. lia.
  - apply batch_check_returns_iff.
  - intros Hcb Hsleep. apply batch_check_returns_iff.
    split; [apply callback_returns_every_notification, Hcb | exact Hsleep].
Qed.

Lemma batch_check_results_and_sleeps_witness :
  exists results w',
    batch_check sample_sdk ["@alice"; "bob"; "carol"] batch_delay_default None
      (constant_env (Ok clean_answer)) empty_world = (Ok results, w')
    /\ length results = 3%nat
    /\ sleeps (trace w') = 2%nat
    /\ last (trace w')
       = Some (EvRequest (history_request sample_sdk "carol" check_timeout_default)).
Proof.
  destruct (batch_check_results_and_sleeps sample_sdk ["@alice"; "bob"; "carol"]
              batch_delay_default None (constant_env (Ok clean_answer)) empty_world)
    as (Hreturned & _ & _ & Hreturns).
  destruct Hreturns as (results & w' & Hrun).
  - intros cb Hcb. discriminate.
  - intros _. reflexivity.
  - destruct (Hreturned results w' Hrun) as (Hlen & _ & _ & Hsleeps & Hlast).
    exists results, w'. split; [exact Hrun|]. split; [exact Hlen|].
    split; [exact Hsleeps|]. apply Hlast. reflexivity.
Defined.

(** That [batch_check] returns [N] results and sleeps [N - 1] times for
    every list fails when [time.sleep] refuses the delay: with two
    usernames and a delay of -1 second, it raises [time.sleep]'s
    [ValueError] after the first check; there are no results, and no sleep
    was performed where [N - 1] is 1. *)
Lemma batch_check_refused_delay_returns_no_results :
  (batch_check sample_sdk ["alice"; "bob"] (-1)%float None refusing_env empty_world).1
  = Raise (MkExn ValueError "sleep length must be non-negative")
  /\ ~ (exists results,
          (batch_check sample_sdk ["alice"; "bob"] (-1)%float None
             refusing_env empty_world).1 = Ok results
          /\ length results = 2%nat)
  /\ sleeps (trace (batch_check sample_sdk ["alice"; "bob"] (-1)%float None
                      refusing_env empty_world).2) = 0%nat.
Proof.
  assert (Hrun : (batch_check sample_sdk ["alice"; "bob"] (-1)%float None
                    refusing_env empty_world).1
                 = Raise (MkExn ValueError "sleep length must be non-negative"))
    by reflexivity.
  split; [exact Hrun|]. split; [|reflexivity].
  intros (results & Hok & _). rewrite Hrun in Hok. discriminate.
Qed.

(** The sample batch, run: three records, two sleeps, none at the end. *)
Example batch_check_sample_trace :
  trace (batch_check sample_sdk ["@alice"; "bob"; "carol"] batch_delay_default None
           (constant_env (Ok clean_answer)) empty_world).2
  = [ EvPrint "Checking 1/3: @@alice";
      EvRequest (history_request sample_sdk "@alice" 30);
      EvSleep 2%float;
      EvPrint "Checking 2/3: @bob";
      EvRequest (history_request sample_sdk "bob" 30);
      EvSleep 2%float;
      EvPrint "Checking 3/3: @carol";
      EvRequest (history_request sample_sdk "carol" 30) ].
Proof. vm_compute. reflexivity. Qed.

Example batch_check_one_username_never_sleeps :
  sleeps (trace (batch_check sample_sdk ["bob"] batch_delay_default None
                   (constant_env (Ok clean_answer)) empty_world).2) = 0%nat.
Proof. vm_compute. reflexivity. Qed.



(** The same batch, run: both checks fail, both records are failure records. *)
Example batch_check_all_fail :
  (batch_check sample_sdk ["alice"; "bob"] batch_delay_default None
     (constant_env (Ok server_error)) empty_world).1
  = Ok [ failure_record "alice"
           (MkExn APIError "API returned status code 500: Internal Server Error")
           "2024-01-01T00:00:00";
         failure_record "bob"
           (MkExn APIError "API returned status code 500: Internal Server Error")
           "2024-01-01T00:00:00" ].
Proof. vm_compute. reflexivity. Qed.

(** * Further properties of the client *)

(** ** The constructor *)

Lemma rev_app_append (s t u : string) :
  String.rev_app s t +:+ u = String.rev_app s (t +:+ u).
Proof.
  revert t. induction s as [|a s IH]; intros t; [reflexivity|].
  simpl. rewrite IH. reflexivity.
Qed.

Lemma rev_app_rev (s t : string) : String.rev_app s t = String.rev s +:+ t.
Proof. unfold String.rev. rewrite rev_app_append. reflexivity. Qed.

Lemma rev_String (a : ascii) (s : string) :
  String.rev (String a s) = String.rev s +:+ String a "".
Proof. unfold String.rev at 1. simpl. apply rev_app_rev. Qed.

Lemma rev_append (s t : string) : String.rev (s +:+ t) = String.rev t +:+ String.rev s.
Proof.
  induction s as [|a s IH].
  - rewrite append_empty_r. reflexivity.
  - rewrite append_String, !rev_String, IH, append_assoc. reflexivity.
Qed.

Lemma rev_involutive (s : string) : String.rev (String.rev s) = s.
Proof.
  induction s as [|a s IH]; [reflexivity|].
  rewrite rev_String, rev_append, IH. reflexivity.
Qed.

Lemma replicate_char_snoc (n : nat) (c : ascii) :
  Text.replicate_char (S n) c = Text.replicate_char n c +:+ String c "".
Proof.
  induction n as [|n IH]; [reflexivity|].
  change (Text.replicate_char (S (S n)) c) with (String c (Text.replicate_char (S n) c)).
  rewrite IH at 1. reflexivity.
Qed.

Lemma rev_replicate_char (n : nat) (c : ascii) :
  String.rev (Text.replicate_char n c) = Text.replicate_char n c.
Proof.
  induction n as [|n IH]; [reflexivity|].
  change (Text.replicate_char (S n) c) with (String c (Text.replicate_char n c)) at 1.
  rewrite rev_String, IH, <- replicate_char_snoc. reflexivity.
Qed.

Lemma lstrip_char_cons (c a : ascii) (s : string) :
  Text.lstrip (String c "") (String a s)
  = if Ascii.eqb a c then Text.lstrip (String c "") s else String a s.
Proof. unfold Text.lstrip at 1, Text.mem. destruct (Ascii.eqb a c); reflexivity. Qed.

(** [lstrip] with one character to strip: the input is a run of that
    character followed by the result, which does not start with it. *)
Lemma lstrip_char_shape (c : ascii) (s : string) :
  exists n : nat,
    s = Text.replicate_char n c +:+ Text.lstrip (String c "") s
    /\ forall rest, Text.lstrip (String c "") s <> String c rest.
Proof.
  induction s as [|a s [n [Hs Hn]]].
  - exists 0%nat. split; [reflexivity | discriminate].
  - rewrite lstrip_char_cons. destruct (Ascii.eqb a c) eqn:Ha.
    + apply Ascii.eqb_eq in Ha. subst a. exists (S n). split; [|exact Hn].
      change (Text.replicate_char (S n) c) with (String c (Text.replicate_char n c)).
      rewrite append_String. f_equal. exact Hs.
    + exists 0%nat. split; [reflexivity|].
      intros rest Heq. injection Heq as -> _. rewrite Ascii.eqb_refl in Ha. discriminate.
Qed.

(** X1. The constructor removes every trailing slash of the URL and nothing
    else: the URL is the stored base followed by slashes only, the stored
    base does not end with a slash, and a URL without a trailing slash is
    stored as it is. *)
Theorem init_strips_trailing_slashes (url : string) :
  exists n : nat,
    url = base_url (init url) +:+ Text.replicate_char n "/"
    /\ ~ ends_with_char "/" (base_url (init url))
    /\ (~ ends_with_char "/" url -> base_url (init url) = url).
Proof.
  destruct (lstrip_char_shape "/" (String.rev url)) as [n [Hshape Hstart]].
  assert (Hurl : url = base_url (init url) +:+ Text.replicate_char n "/").
  { rewrite <- (rev_involutive url) at 1. rewrite Hshape at 1.
    rewrite rev_append, rev_replicate_char. reflexivity. }
  assert (Hend : ~ ends_with_char "/" (base_url (init url))).
  { intros [prefix Hprefix]. apply (Hstart (String.rev prefix)).
    change (Text.lstrip "/" (String.rev url)) with (Text.lstrip "/" (String.rev url)).
    rewrite <- (rev_involutive (Text.lstrip "/" (String.rev url))).
    change (String.rev (Text.lstrip "/" (String.rev url))) with (base_url (init url)).
    rewrite Hprefix, rev_append. reflexivity. }
  exists n. split; [exact Hurl|]. split; [exact Hend|].
  intros Hno. destruct n as [|n].
  - rewrite Hurl at 2. rewrite append_empty_r. reflexivity.
  - exfalso. apply Hno. exists (base_url (init url) +:+ Text.replicate_char n "/").
    rewrite Hurl at 1. rewrite replicate_char_snoc, append_assoc. reflexivity.
Qed.

Lemma init_strips_trailing_slashes_witness :
  base_url (init "https://monibags.xyz") = "https://monibags.xyz"
  /\ base_url (init "https://monibags.xyz//") = "https://monibags.xyz".
Proof.
  split; [|reflexivity].
  destruct (init_strips_trailing_slashes "https://monibags.xyz") as (n & _ & _ & Hsame).
  apply Hsame. intros [prefix Hprefix].
  apply (f_equal String.rev) in Hprefix. rewrite rev_append in Hprefix.
  vm_compute in Hprefix. discriminate.
Defined.

(** ** Answers and errors of a single call *)

(** X2. On a 200 answer both methods return what [response.json()] gives,
    unchanged, whatever kind of value it is; all they do to the world is to
    send their request. *)
Theorem status_200_returns_parsed_body
    (self : MoniBagsSDK) (username : string) (timeout : Z) (env : Env) (w : World)
    (resp : response) (body : pyval) :
  status_code resp = 200 -> json resp = Ok body ->
  (transport env w (history_request self username timeout) = Ok resp ->
   check_username_history self username timeout env w
     = (Ok body, log (EvRequest (history_request self username timeout)) w))
  /\ (transport env w (analyze_request self username timeout) = Ok resp ->
      analyze_profile self username timeout env w
        = (Ok body, log (EvRequest (analyze_request self username timeout)) w)).
Proof.
  intros Hcode Hjson. split; intros H.
  - rewrite (surjective_pairing (check_username_history _ _ _ _ _)).
    rewrite check_username_history_world, (check_username_history_answered _ _ _ _ _ _ H).
    rewrite Hcode, Hjson. reflexivity.
  - rewrite (surjective_pairing (analyze_profile _ _ _ _ _)).
    rewrite analyze_profile_world, (analyze_profile_answered _ _ _ _ _ _ H).
    rewrite Hcode, Hjson. reflexivity.
Qed.

Lemma status_200_returns_parsed_body_witness :
  (check_username_history sample_sdk "@bob" 30 (constant_env (Ok clean_answer)) empty_world).1
    = json clean_answer
  /\ (analyze_profile sample_sdk "@bob" 60 (constant_env (Ok clean_answer)) empty_world).1
    = json clean_answer.
Proof.
  destruct (status_200_returns_parsed_body sample_sdk "@bob" 30
              (constant_env (Ok clean_answer)) empty_world clean_answer _ eq_refl eq_refl)
    as [Hcheck _].
  destruct (status_200_returns_parsed_body sample_sdk "@bob" 60
              (constant_env (Ok clean_answer)) empty_world clean_answer _ eq_refl eq_refl)
    as [_ Hanalyze].
  split; [rewrite Hcheck | rewrite Hanalyze]; reflexivity.
Defined.

(** X3. No error of the [requests] library leaves the two methods.  What
    they raise is an instance of [MoniBagsException], or it is an exception
    that is not a [RequestException] and that the transport or the decoding
    of the body raised: that one goes through unchanged. *)
Theorem no_RequestException_escapes
    (self : MoniBagsSDK) (username : string) (timeout : Z) (env : Env) (w : World)
    (e : exn) :
  ((check_username_history self username timeout env w).1 = Raise e ->
   isinstance e RequestException = false
   /\ (isinstance e MoniBagsException = true
       \/ raised_below env w (history_request self username timeout) e))
  /\ ((analyze_profile self username timeout env w).1 = Raise e ->
      isinstance e RequestException = false
      /\ (isinstance e MoniBagsException = true
          \/ raised_below env w (analyze_request self username timeout) e)).
Proof.
  unfold raised_below. split; intros Hraise.
  - destruct (transport env w (history_request self username timeout)) as [resp|e0] eqn:Ht.
    + rewrite (check_username_history_answered _ _ _ _ _ _ Ht) in Hraise.
      destruct (status_code resp =? 429);
        [injection Hraise as <-; split; [reflexivity | left; reflexivity]|].
      destruct (status_code resp =? 200);
        [|injection Hraise as <-; split; [reflexivity | left; reflexivity]].
      destruct (json resp) as [body|e1] eqn:Hjson; [discriminate|].
      destruct (isinstance e1 Timeout);
        [injection Hraise as <-; split; [reflexivity | left; reflexivity]|].
      destruct (isinstance e1 RequestException) eqn:Hreq;
        [injection Hraise as <-; split; [reflexivity | left; reflexivity]|].
      injection Hraise as <-. split; [exact Hreq|]. right. right. eauto.
    + rewrite (check_username_history_failed _ _ _ _ _ _ Ht) in Hraise.
      destruct (isinstance e0 Timeout);
        [injection Hraise as <-; split; [reflexivity | left; reflexivity]|].
      destruct (isinstance e0 RequestException) eqn:Hreq;
        [injection Hraise as <-; split; [reflexivity | left; reflexivity]|].
      injection Hraise as <-. split; [exact Hreq|]. right. left. reflexivity.
  - destruct (transport env w (analyze_request self username timeout)) as [resp|e0] eqn:Ht.
    + rewrite (analyze_profile_answered _ _ _ _ _ _ Ht) in Hraise.
      destruct (status_code resp =? 429);
        [injection Hraise as <-; split; [reflexivity | left; reflexivity]|].
      destruct (status_code resp =? 200);
        [|injection Hraise as <-; split; [reflexivity | left; reflexivity]].
      destruct (json resp) as [body|e1] eqn:Hjson; [discriminate|].
      destruct (isinstance e1 RequestException) eqn:Hreq;
        [injection Hraise as <-; split; [reflexivity | left; reflexivity]|].
      injection Hraise as <-. split; [exact Hreq|]. right. right. eauto.
    + rewrite (analyze_profile_failed _ _ _ _ _ _ Ht) in Hraise.
      destruct (isinstance e0 RequestException) eqn:Hreq;
        [injection Hraise as <-; split; [reflexivity | left; reflexivity]|].
      injection Hraise as <-. split; [exact Hreq|]. right. left. reflexivity.
Qed.

Lemma no_RequestException_escapes_witness :
  isinstance (MkExn MoniBagsException "Request failed: Connection refused")
    RequestException = false
  /\ (check_username_history sample_sdk "bob" 30
        (constant_env (Raise (MkExn ConnectionError "Connection refused"))) empty_world).1
     = Raise (MkExn MoniBagsException "Request failed: Connection refused").
Proof.
  assert (Hrun : (check_username_history sample_sdk "bob" 30
                    (constant_env (Raise (MkExn ConnectionError "Connection refused")))
                    empty_world).1
                 = Raise (MkExn MoniBagsException "Request failed: Connection refused"))
    by reflexivity.
  destruct (no_RequestException_escapes sample_sdk "bob" 30
              (constant_env (Raise (MkExn ConnectionError "Connection refused")))
              empty_world (MkExn MoniBagsException "Request failed: Connection refused"))
    as [Hcheck _].
  split; [apply (Hcheck Hrun) | exact Hrun].
Defined.

(** X4. A failure of the transport that is a [RequestException] and, for
    [check_username_history], not a timeout, comes out as the base
    [MoniBagsException] whose message is [Request failed: ] followed by the
    text of the cause. *)
Theorem transport_failure_wraps_cause
    (self : MoniBagsSDK) (username : string) (timeout : Z) (env : Env) (w : World)
    (e : exn) :
  isinstance e RequestException = true ->
  (isinstance e Timeout = false ->
   transport env w (history_request self username timeout) = Raise e ->
   (check_username_history self username timeout env w).1
     = Raise (MkExn MoniBagsException ("Request failed: " +:+ exn_msg e)))
  /\ (transport env w (analyze_request self username timeout) = Raise e ->
      (analyze_profile self username timeout env w).1
        = Raise (MkExn MoniBagsException ("Request failed: " +:+ exn_msg e)))
  /\ Text.contains (exn_msg e) ("Request failed: " +:+ exn_msg e) = true.
Proof.
  intros Hreq. split; [|split].
  - intros Htimeout H.
    rewrite (check_username_history_failed _ _ _ _ _ _ H), Htimeout, Hreq. reflexivity.
  - intros H. rewrite (analyze_profile_failed _ _ _ _ _ _ H), Hreq. reflexivity.
  - auto with contains.
Qed.

Lemma transport_failure_wraps_cause_witness :
  (check_username_history sample_sdk "bob" 30
     (constant_env (Raise (MkExn ConnectionError "Connection refused"))) empty_world).1
    = Raise (MkExn MoniBagsException "Request failed: Connection refused")
  /\ (analyze_profile sample_sdk "bob" 60
        (constant_env (Raise (MkExn ConnectionError "Connection refused"))) empty_world).1
    = Raise (MkExn MoniBagsException "Request failed: Connection refused").
Proof.
  destruct (transport_failure_wraps_cause sample_sdk "bob" 30
              (constant_env (Raise (MkExn ConnectionError "Connection refused")))
              empty_world (MkExn ConnectionError "Connection refused") eq_refl)
    as (Hcheck & _ & _).
  destruct (transport_failure_wraps_cause sample_sdk "bob" 60
              (constant_env (Raise (MkExn ConnectionError "Connection refused")))
              empty_world (MkExn ConnectionError "Connection refused") eq_refl)
    as (_ & Hanalyze & _).
  split; [apply Hcheck | apply Hanalyze]; reflexivity.
Defined.

(** X5. A 200 answer whose body cannot be decoded does not give a result:
    the decoding error of [requests] is a [RequestException], so both
    methods raise the base [MoniBagsException] with the text of the
    decoding error. *)
Theorem undecodable_body_raises_MoniBagsException
    (self : MoniBagsSDK) (username : string) (timeout : Z) (env : Env) (w : World)
    (resp : response) (msg : string) :
  status_code resp = 200 ->
  json resp = Raise (MkExn RequestsJSONDecodeError msg) ->
  (transport env w (history_request self username timeout) = Ok resp ->
   (check_username_history self username timeout env w).1
     = Raise (MkExn MoniBagsException ("Request failed: " +:+ msg)))
  /\ (transport env w (analyze_request self username timeout) = Ok resp ->
      (analyze_profile self username timeout env w).1
        = Raise (MkExn MoniBagsException ("Request failed: " +:+ msg))).
Proof.
  intros Hcode Hjson. split; intros H.
  - rewrite (check_username_history_answered _ _ _ _ _ _ H), Hcode, Hjson. reflexivity.
  - rewrite (analyze_profile_answered _ _ _ _ _ _ H), Hcode, Hjson. reflexivity.
Qed.

Lemma undecodable_body_raises_MoniBagsException_witness :
  (check_username_history sample_sdk "bob" 30 (constant_env (Ok html_answer)) empty_world).1
    = Raise (MkExn MoniBagsException
               "Request failed: Expecting value: line 1 column 1 (char 0)")
  /\ (analyze_profile sample_sdk "bob" 60 (constant_env (Ok html_answer)) empty_world).1
    = Raise (MkExn MoniBagsException
               "Request failed: Expecting value: line 1 column 1 (char 0)").
Proof.
  destruct (undecodable_body_raises_MoniBagsException sample_sdk "bob" 30
              (constant_env (Ok html_answer)) empty_world html_answer _ eq_refl eq_refl)
    as [Hcheck _].
  destruct (undecodable_body_raises_MoniBagsException sample_sdk "bob" 60
              (constant_env (Ok html_answer)) empty_world html_answer _ eq_refl eq_refl)
    as [_ Hanalyze].
  split; [apply Hcheck | apply Hanalyze]; reflexivity.
Defined.

(** ** The batch loop, turn by turn *)

(** X6. [batch_check] never touches a file, whatever happens; and when it
    returns, it has produced one record per username and read the clock
    once per username (the timestamp of the record), with or without a
    callback. *)
Theorem batch_check_keeps_files_and_reads_clock_once_per_username
    (self : MoniBagsSDK) (usernames : list string) (delay : float)
    (progress_callback : option callback) (env : Env) (w : World) :
  fs (batch_check self usernames delay progress_callback env w).2 = fs w
  /\ (forall results w',
        batch_check self usernames delay progress_callback env w = (Ok results, w') ->
        length results = length usernames
        /\ clock_reads w' = (clock_reads w + length usernames)%nat).
Proof.
  unfold batch_check. cbn zeta. split.
  - apply batch_loop_fs.
  - intros results w' Hrun.
    destruct (batch_loop_clock _ _ _ _ _ _ _ _ _ _ _ Hrun) as [Hc Hl].
    simpl in Hl. split; assumption.
Qed.

Lemma batch_check_keeps_files_and_reads_clock_once_per_username_witness :
  exists results w',
    batch_check sample_sdk ["alice"; "bob"] batch_delay_default None
      (constant_env (Ok clean_answer)) empty_world = (Ok results, w')
    /\ length results = 2%nat /\ clock_reads w' = 2%nat.
Proof.
  eexists _, _. split; [vm_compute; reflexivity|].
  eapply (batch_check_keeps_files_and_reads_clock_once_per_username sample_sdk
            ["alice"; "bob"] batch_delay_default None (constant_env (Ok clean_answer))
            empty_world).
  vm_compute. reflexivity.
Defined.

(** X7. When the check of a username returns a JSON object, the record the
    [try] statement adds is that object with [username] set to the username
    as it was passed to [batch_check] (replacing a [username] the service
    may have sent) and [timestamp] set to the clock reading taken after the
    request; every other entry is the service's. *)
Theorem batch_try_tags_successful_body
    (self : MoniBagsSDK) (username : string) (results : list pyval) (env : Env) (w : World)
    (entries : list (string * pyval)) :
  (check_username_history self username check_timeout_default env w).1 = Ok (PyDict entries) ->
  exists tagged w',
    batch_try self username results env w = (Ok (results ++ [PyDict tagged]), w')
    /\ Py.lookup "username" tagged = Some (PyStr username)
    /\ Py.lookup "timestamp" tagged
       = Some (PyStr (now_isoformat env
                        (log (EvRequest (history_request self username check_timeout_default)) w)))
    /\ (forall key, key <> "username" -> key <> "timestamp" ->
                    Py.lookup key tagged = Py.lookup key entries).
Proof.
  intros Hcheck. rewrite batch_try_run. cbn zeta.
  rewrite Hcheck, check_username_history_world.
  eexists _, _. split; [reflexivity|].
  split; [rewrite lookup_store_ne by discriminate; apply lookup_store_eq|].
  split; [apply lookup_store_eq|].
  intros key Hu Ht.
  rewrite lookup_store_ne by congruence. apply lookup_store_ne. congruence.
Qed.

Lemma batch_try_tags_successful_body_witness :
  exists tagged w',
    batch_try sample_sdk "@bob" [] (constant_env (Ok clean_answer)) empty_world
      = (Ok [PyDict tagged], w')
    /\ Py.lookup "username" tagged = Some (PyStr "@bob")
    /\ Py.lookup "success" tagged = Some (PyBool true).
Proof.
  destruct (batch_try_tags_successful_body sample_sdk "@bob" []
              (constant_env (Ok clean_answer)) empty_world
              [("success", PyBool true);
               ("data", PyDict [("is_clean", PyBool true); ("total_changes", PyInt 0)])]
              eq_refl) as (tagged & w' & Hrun & Huser & _ & Hother).
  exists tagged, w'. split; [exact Hrun|]. split; [exact Huser|].
  rewrite Hother by discriminate. reflexivity.
Defined.

(** X8. When the check returns a JSON value that is not an object (a list,
    a string, a number, [null]), storing the username into it fails: the
    record the [try] statement adds is the failure record of a
    [TypeError], although [check_username_history] itself succeeded. *)
Theorem batch_try_records_non_object_body_as_failure
    (self : MoniBagsSDK) (username : string) (results : list pyval) (env : Env) (w : World)
    (body : pyval) :
  (check_username_history self username check_timeout_default env w).1 = Ok body ->
  (forall entries, body <> PyDict entries) ->
  exists e w',
    batch_try self username results env w
      = (Ok (results ++ [failure_record username e
                           (now_isoformat env
                              (log (EvRequest (history_request self username
                                                 check_timeout_default)) w))]), w')
    /\ exn_cls e = TypeError
    /\ Py.setitem body "username" (PyStr username) = Raise e.
Proof.
  intros Hcheck Hnot. rewrite batch_try_run. cbn zeta.
  rewrite Hcheck, check_username_history_world.
  destruct body; try (eexists _, _; split; [reflexivity|]; split; reflexivity).
  exfalso. eapply Hnot. reflexivity.
Qed.

Lemma batch_try_records_non_object_body_as_failure_witness :
  exists w',
    batch_try sample_sdk "bob" [] (constant_env (Ok list_answer)) empty_world
      = (Ok [failure_record "bob"
               (MkExn TypeError "list indices must be integers or slices, not str")
               "2024-01-01T00:00:00"], w').
Proof.
  destruct (batch_try_records_non_object_body_as_failure sample_sdk "bob" []
              (constant_env (Ok list_answer)) empty_world (PyList []) eq_refl)
    as (e & w' & Hrun & _ & Hset).
  - intros entries. discriminate.
  - exists w'. injection Hset as <-. exact Hrun.
Defined.

(** X9. Whatever [batch_check] raises was raised by the progress callback
    or by [time.sleep]: the two calls of the loop that are outside the
    [try] statement.  No error of a check, of the network or of the
    service's answer ever leaves it. *)
Theorem batch_check_raises_only_from_callback_or_sleep
    (self : MoniBagsSDK) (usernames : list string) (delay : float)
    (progress_callback : option callback) (env : Env) (w : World) (e : exn) (w' : World) :
  batch_check self usernames delay progress_callback env w = (Raise e, w') ->
  callback_raises progress_callback e \/ sleep_error env delay = Some e.
Proof. unfold batch_check. cbn zeta. apply batch_loop_raises. Qed.

Lemma batch_check_raises_only_from_callback_or_sleep_witness :
  callback_raises (Some failing_callback) (MkExn ValueError "no progress bar")
  \/ sleep_error (constant_env (Ok clean_answer)) batch_delay_default
     = Some (MkExn ValueError "no progress bar").
Proof.
  apply (batch_check_raises_only_from_callback_or_sleep sample_sdk ["alice"; "bob"]
           batch_delay_default (Some failing_callback) (constant_env (Ok clean_answer))
           empty_world (MkExn ValueError "no progress bar")
           (log (EvProgress 1 2 "alice") empty_world)).
  reflexivity.
Defined.

(** X10. A callback that raises on its first call stops the batch before
    anything is sent: [batch_check] raises the callback's exception, and
    all that has happened is the call of the callback. *)
Theorem batch_check_callback_error_stops_before_first_request
    (self : MoniBagsSDK) (username : string) (rest : list string) (delay : float)
    (cb : callback) (env : Env) (w : World) (e : exn) :
  cb 1 (Z.of_nat (length (username :: rest))) username = Raise e ->
  batch_check self (username :: rest) delay (Some cb) env w
    = (Raise e,
       log (EvProgress 1 (Z.of_nat (length (username :: rest))) username) w)
  /\ requests_of (trace (batch_check self (username :: rest) delay (Some cb) env w).2)
     = requests_of (trace w).
Proof.
  intros Hcb.
  assert (Hrun : batch_check self (username :: rest) delay (Some cb) env w
                 = (Raise e,
                    log (EvProgress 1 (Z.of_nat (length (username :: rest))) username) w)).
  { unfold batch_check. cbn zeta. rewrite batch_loop_cons, batch_body_cases.
    unfold notified. change (0 + 1) with 1. rewrite Hcb. reflexivity. }
  split; [exact Hrun|]. rewrite Hrun. simpl.
  rewrite requests_of_app. simpl. apply app_nil_r.
Qed.

Lemma batch_check_callback_error_stops_before_first_request_witness :
  batch_check sample_sdk ["alice"; "bob"] batch_delay_default
    (Some failing_callback) (constant_env (Ok clean_answer)) empty_world
  = (Raise (MkExn ValueError "no progress bar"), log (EvProgress 1 2 "alice") empty_world).
Proof.
  apply (batch_check_callback_error_stops_before_first_request sample_sdk "alice" ["bob"]
           batch_delay_default failing_callback (constant_env (Ok clean_answer)) empty_world).
  reflexivity.
Defined.

(** X11. With two usernames or more, a delay that [time.sleep] refuses (a
    negative one) makes [batch_check] raise [time.sleep]'s error right
    after the first check: one request has been sent, and its record is
    lost with the error. *)
Theorem batch_check_refused_delay_stops_after_first_check
    (self : MoniBagsSDK) (first second : string) (rest : list string) (delay : float)
    (progress_callback : option callback) (env : Env) (w : World) (e : exn) :
  callback_returns progress_callback ->
  sleep_error env delay = Some e ->
  (batch_check self (first :: second :: rest) delay progress_callback env w).1 = Raise e
  /\ requests_of (trace (batch_check self (first :: second :: rest) delay
                           progress_callback env w).2)
     = requests_of (trace w) ++ [history_request self first check_timeout_default].
Proof.
  intros Hcb Hsleep. unfold batch_check. cbn zeta.
  rewrite batch_loop_cons, batch_body_cases.
  assert (Hnotified : notified progress_callback
                        (Z.of_nat (length (first :: second :: rest))) 0 first = Ok tt).
  { unfold notified. destruct progress_callback as [cb|]; [|reflexivity].
    apply (Hcb cb eq_refl). }
  rewrite Hnotified. cbn zeta.
  replace (0 <? Z.of_nat (length (first :: second :: rest)) - 1) with true
    by (symmetry; apply Z.ltb_lt; rewrite !length_cons; lia).
  rewrite Hsleep. split; [reflexivity|].
  cbn [snd]. rewrite check_username_history_world. simpl.
  rewrite !requests_of_app. destruct progress_callback; simpl; rewrite app_nil_r; reflexivity.
Qed.

Lemma batch_check_refused_delay_stops_after_first_check_witness :
  (batch_check sample_sdk ["alice"; "bob"] (-1)%float None
     refusing_env empty_world).1
  = Raise (MkExn ValueError "sleep length must be non-negative").
Proof.
  apply (batch_check_refused_delay_stops_after_first_check sample_sdk "alice" "bob" []
           (-1)%float None refusing_env empty_world).
  - intros cb Hcb. discriminate.
  - reflexivity.
Defined.

Lemma notifications_app (a b : list event) :
  notifications (a ++ b) = notifications a ++ notifications b.
Proof. apply omap_app. Qed.

Lemma notifications_progress_event cb total i username :
  notifications [progress_event cb total i username] = [progress_event cb total i username].
Proof. destruct cb; reflexivity. Qed.

Lemma notifications_after_check self cb total i username env w :
  notifications (trace (tick (check_username_history self username check_timeout_default env
                                (log (progress_event cb total i username) w)).2))
  = notifications (trace w) ++ [progress_event cb total i username].
Proof.
  rewrite trace_after_check, notifications_app. f_equal.
  destruct cb; reflexivity.
Qed.

(** The notifications of the loop are made in the order of the list, and
    stop only where the loop stops. *)
Lemma batch_loop_notifications self delay cb total env usernames : forall i results w,
  exists k,
    (k <= length usernames)%nat
    /\ notifications (trace (batch_loop self delay cb total i usernames results env w).2)
       = notifications (trace w)
         ++ take k (imap (fun j u => progress_event cb total (i + Z.of_nat j) u) usernames)
    /\ ((exists rs, (batch_loop self delay cb total i usernames results env w).1 = Ok rs) ->
        k = length usernames)
    /\ (usernames <> [] -> (0 < k)%nat).
Proof.
  induction usernames as [|u rest IH]; intros i results w.
  - exists 0%nat. simpl. rewrite app_nil_r. repeat split; auto. congruence.
  - rewrite batch_loop_cons, batch_body_cases.
    assert (Htail : imap (fun j u0 => progress_event cb total (i + 1 + Z.of_nat j) u0) rest
                    = imap ((fun j u0 => progress_event cb total (i + Z.of_nat j) u0) ∘ S) rest).
    { apply imap_ext. intros j u0 _. simpl. f_equal. lia. }
    assert (Hone : forall w1 : World,
      notifications (trace w1) = notifications (trace w) ++ [progress_event cb total i u] ->
      notifications (trace w1)
      = notifications (trace w)
        ++ take 1 (imap (fun j u0 => progress_event cb total (i + Z.of_nat j) u0) (u :: rest))).
    { intros w1 ->. cbn [imap take]. rewrite Z.add_0_r. reflexivity. }
    assert (Hmore : forall out w1,
      notifications (trace w1) = notifications (trace w) ++ [progress_event cb total i u] ->
      exists k,
        (k <= length (u :: rest))%nat
        /\ notifications
             (trace (batch_loop self delay cb total (i + 1) rest out env w1).2)
           = notifications (trace w)
             ++ take k (imap (fun j u0 => progress_event cb total (i + Z.of_nat j) u0)
                          (u :: rest))
        /\ ((exists rs, (batch_loop self delay cb total (i + 1) rest out env w1).1 = Ok rs) ->
            k = length (u :: rest))
        /\ (u :: rest <> [] -> (0 < k)%nat)).
    { intros out w1 Hw1.
      destruct (IH (i + 1) out w1) as (k & Hk & Hnotes & Hall & _).
      exists (S k). split; [simpl; lia|].
      split.
      - rewrite Hnotes, Hw1, Htail, <- app_assoc. cbn [imap take].
        rewrite Z.add_0_r. reflexivity.
      - split; [intros Hok; rewrite (Hall Hok); reflexivity | intros _; lia]. }
    destruct (notified cb total i u) as [[]|e0].
    + cbn zeta.
      pose proof (notifications_after_check self cb total i u env w) as Hchecked.
      destruct (i <? total - 1).
      * destruct (sleep_error env delay) as [e0|].
        -- exists 1%nat. split; [simpl; lia|].
           split; [apply Hone, Hchecked|].
           split; [intros [rs Hrs]; discriminate | intros _; lia].
        -- apply Hmore. cbn [log trace]. rewrite notifications_app, Hchecked.
           simpl. apply app_nil_r.
      * apply Hmore, Hchecked.
    + exists 1%nat. split; [simpl; lia|].
      split.
      * apply Hone. cbn [snd log trace].
        rewrite notifications_app, notifications_progress_event. reflexivity.
      * split; [intros [rs Hrs]; discriminate | intros _; lia].
Qed.

(** X12. [batch_check] notifies the progress in the order of the list: the
    notification of position [j] (from 0) is
    [progress_callback(j + 1, N, username)], or without a callback the
    printed line [Checking j+1/N: @username], with the username as it was
    passed, so the callback only sees [1 <= current <= total].  Whatever
    happens, the notifications made are the first [k] of these [N], with
    [k >= 1] for a list that is not empty; they are all [N] whenever
    [batch_check] returns, as it does when the callback returns and
    [time.sleep] accepts the delay.  An error of the callback or a refused
    delay stops the notifications where it stops the loop. *)
Theorem batch_check_notifies_each_username_in_order
    (self : MoniBagsSDK) (usernames : list string) (delay : float)
    (progress_callback : option callback) (env : Env) (w : World) :
  (exists k,
      (k <= length usernames)%nat
      /\ (usernames <> [] -> (0 < k)%nat)
      /\ notifications (trace (batch_check self usernames delay progress_callback env w).2)
         = notifications (trace w)
           ++ take k (imap (fun j u => progress_event progress_callback
                                         (Z.of_nat (length usernames)) (Z.of_nat j) u)
                        usernames)
      /\ ((exists results,
              (batch_check self usernames delay progress_callback env w).1 = Ok results) ->
          k = length usernames))
  /\ (callback_returns progress_callback ->
      ((1 < length usernames)%nat -> sleep_error env delay = None) ->
      notifications (trace (batch_check self usernames delay progress_callback env w).2)
      = notifications (trace w)
        ++ imap (fun j u => progress_event progress_callback (Z.of_nat (length usernames))
                              (Z.of_nat j) u) usernames).
Proof.
  assert (Hprefix : exists k,
    (k <= length usernames)%nat
    /\ (usernames <> [] -> (0 < k)%nat)
    /\ notifications (trace (batch_check self usernames delay progress_callback env w).2)
       = notifications (trace w)
         ++ take k (imap (fun j u => progress_event progress_callback
                                       (Z.of_nat (length usernames)) (Z.of_nat j) u)
                      usernames)
    /\ ((exists results,
            (batch_check self usernames delay progress_callback env w).1 = Ok results) ->
        k = length usernames)).
  { unfold batch_check. cbn zeta.
    destruct (batch_loop_notifications self delay progress_callback
                (Z.of_nat (length usernames)) env usernames 0 [] w)
      as (k & Hk & Hnotes & Hall & Hpos).
    exists k. split; [exact Hk|]. split; [exact Hpos|]. split; [exact Hnotes | exact Hall]. }
  split; [exact Hprefix|].
  intros Hcb Hsleep.
  destruct Hprefix as (k & _ & _ & Hnotes & Hall).
  destruct (proj2 (batch_check_returns_iff self usernames delay progress_callback env w))
    as (results & w' & Hrun).
  { split; [apply callback_returns_every_notification, Hcb | exact Hsleep]. }
  rewrite Hnotes, Hall by (exists results; rewrite Hrun; reflexivity).
  f_equal. apply take_ge. rewrite length_imap. lia.
Qed.

Lemma batch_check_notifies_each_username_in_order_witness :
  notifications (trace (batch_check sample_sdk ["@alice"; "bob"] batch_delay_default
                          (Some (fun _ _ _ => Ok tt))
                          (constant_env (Ok clean_answer)) empty_world).2)
  = [EvProgress 1 2 "@alice"; EvProgress 2 2 "bob"].
Proof.
  destruct (batch_check_notifies_each_username_in_order sample_sdk ["@alice"; "bob"]
              batch_delay_default (Some (fun _ _ _ => Ok tt))
              (constant_env (Ok clean_answer)) empty_world) as [_ Hall].
  rewrite Hall.
  - reflexivity.
  - intros cb Hcb current total username. injection Hcb as <-. reflexivity.
  - intros _. reflexivity.
Defined.

(** X13. [get_rate_limit_status] sends one request and does nothing else:
    a GET to [/api/rate-limit] under the base URL, without payload, with a
    timeout of 10 seconds.  It reads no clock and touches no file. *)
Theorem get_rate_limit_status_sends_one_get
    (self : MoniBagsSDK) (env : Env) (w : World) :
  (get_rate_limit_status self env w).2
  = log (EvRequest {| req_method := GET;
                      req_url := base_url self +:+ "/api/rate-limit";
                      req_headers := session_headers self;
                      req_json := None;
                      req_timeout := 10 |}) w.
Proof.
  unfold_client.
  destruct (transport env w _) as [resp|e]; simpl.
  - destruct (status_code resp =? 200); [|reflexivity].
    destruct (json resp) as [body|e]; [reflexivity|]. simpl.
    rewrite isinstance_Exception. reflexivity.
  - rewrite isinstance_Exception. reflexivity.
Qed.

(** ** The formatter *)

Lemma starts_with_rule_single :
  exists middle : list string, [] ++ [Text.replicate_char 50 "="] = rule :: middle.
Proof. exists []. reflexivity. Qed.

Lemma starts_with_rule_app (body more : list string) :
  (exists middle, body = rule :: middle) ->
  exists middle, body ++ more = rule :: middle.
Proof. intros [middle ->]. exists (middle ++ more). reflexivity. Qed.

Lemma framed_intro (body : list string) :
  (exists middle, body = rule :: middle) ->
  exists middle,
    Text.join Text.newline (body ++ [Text.replicate_char 50 "="])
    = Text.join Text.newline (rule :: middle ++ [rule]).
Proof. intros [middle ->]. exists middle. reflexivity. Qed.

Lemma format_result_framed_or_raised (rt : Runtime) (result : pyval) :
  match format_result rt result with
  | Ok out => exists middle, out = Text.join Text.newline (rule :: middle ++ [rule])
  | Raise _ => True
  end.
Proof.
  unfold format_result. unfold mbind, outcome_bind, mret, outcome_ret.
  repeat step_outcome; try exact I;
    apply framed_intro;
    repeat first [apply starts_with_rule_single | apply starts_with_rule_app].
Qed.

(** X14. Whatever [format_result] returns is framed: the text is a list of
    lines joined by line breaks, and its first and its last line are the
    rule of fifty [=] signs. *)
Theorem format_result_is_framed (rt : Runtime) (result : pyval) (out : string) :
  format_result rt result = Ok out ->
  exists middle, out = Text.join Text.newline (rule :: middle ++ [rule]).
Proof.
  intros H. pose proof (format_result_framed_or_raised rt result) as Hframed.
  rewrite H in Hframed. exact Hframed.
Qed.

Lemma format_result_is_framed_witness :
  exists middle,
    Text.join Text.newline [rule; "Username: @unknown"; "Status: CHANGES DETECTED ⚠️"; rule]
    = Text.join Text.newline (rule :: middle ++ [rule]).
Proof.
  apply (format_result_is_framed sample_runtime (PyDict [("success", PyBool true)])).
  reflexivity.
Defined.

Lemma join_cons_cons (sep p q : string) (rest : list string) :
  Text.join sep (p :: q :: rest) = p +:+ sep +:+ Text.join sep (q :: rest).
Proof. reflexivity. Qed.

Lemma format_result_failure (rt : Runtime) (entries : list (string * pyval)) :
  Py.truthy (default PyNone (Py.lookup "success" entries)) = false ->
  format_result rt (PyDict entries)
  = Ok (Text.join Text.newline ([rule] ++ failure_lines rt entries ++ [rule])).
Proof.
  intros Hfalsy. unfold format_result, failure_lines, Py.get, Py.getitem.
  unfold mbind, outcome_bind, mret, outcome_ret. rewrite Hfalsy.
  destruct (Py.lookup "message" entries) as [message|]; simpl.
  - destruct (Py.truthy message); reflexivity.
  - reflexivity.
Qed.

(** X15. For a result mapping whose [success] is missing or falsy,
    [format_result] never raises: between the two rules it gives the line
    [Error: ] with the result's [error] ([Unknown error] when there is
    none) and, only when the result has a truthy [message], the line
    [Message: ] with it. *)
Theorem format_result_of_failure
    (rt : Runtime) (entries : list (string * pyval)) :
  Py.truthy (default PyNone (Py.lookup "success" entries)) = false ->
  exists out,
    format_result rt (PyDict entries) = Ok out
    /\ out = Text.join Text.newline ([rule] ++ failure_lines rt entries ++ [rule])
    /\ (Py.lookup "error" entries = None -> Text.contains "Error: Unknown error" out = true)
    /\ (forall text, Py.lookup "error" entries = Some (PyStr text) ->
                     Text.contains ("Error: " +:+ text) out = true).
Proof.
  intros Hfalsy. eexists. split; [apply format_result_failure, Hfalsy|].
  split; [reflexivity|].
  assert (Hline : forall line rest,
             Text.contains line
               (Text.join Text.newline ([rule] ++ (line :: rest) ++ [rule])) = true).
  { intros line rest.
    change ([rule] ++ (line :: rest) ++ [rule]) with (rule :: line :: (rest ++ [rule])).
    rewrite join_cons_cons.
    destruct rest as [|next rest].
    - change (line :: [] ++ [rule]) with [line; rule].
      rewrite join_cons_cons. auto with contains.
    - change (line :: (next :: rest) ++ [rule]) with (line :: next :: (rest ++ [rule])).
      rewrite join_cons_cons. auto with contains. }
  unfold failure_lines. split.
  - intros ->. apply Hline.
  - intros text ->. apply Hline.
Qed.

Lemma format_result_of_failure_witness :
  exists out,
    format_result sample_runtime
      (PyDict [("success", PyBool false); ("error", PyStr "boom")]) = Ok out
    /\ Text.contains "Error: boom" out = true.
Proof.
  destruct (format_result_of_failure sample_runtime
              [("success", PyBool false); ("error", PyStr "boom")] eq_refl)
    as (out & Hrun & _ & _ & Hcontains).
  exists out. split; [exact Hrun|]. apply Hcontains. reflexivity.
Defined.

(** X16. A result whose [success] is truthy and whose [data] entry is
    present but is not a mapping (JSON [null], a list, a string) makes
    [format_result] raise an [AttributeError]: the default of
    [result.get('data', {})] only covers a missing key. *)
Theorem format_result_data_not_a_mapping_raises
    (rt : Runtime) (entries : list (string * pyval)) (success data : pyval) :
  Py.lookup "success" entries = Some success ->
  Py.truthy success = true ->
  Py.lookup "data" entries = Some data ->
  (forall fields, data <> PyDict fields) ->
  exists msg, format_result rt (PyDict entries) = Raise (MkExn AttributeError msg).
Proof.
  intros Hsuccess Htruthy Hdata Hnot.
  unfold format_result, Py.get. unfold mbind, outcome_bind, mret, outcome_ret.
  rewrite Hsuccess. simpl. rewrite Htruthy, Hdata. simpl.
  destruct data; try (eexists; reflexivity).
  exfalso. eapply Hnot. reflexivity.
Qed.

Lemma format_result_data_not_a_mapping_raises_witness :
  format_result sample_runtime (PyDict [("success", PyBool true); ("data", PyNone)])
  = Raise (MkExn AttributeError "'NoneType' object has no attribute 'get'").
Proof.
  destruct (format_result_data_not_a_mapping_raises sample_runtime
              [("success", PyBool true); ("data", PyNone)] (PyBool true) PyNone
              eq_refl eq_refl eq_refl) as [msg Hrun].
  - intros fields. discriminate.
  - rewrite Hrun. vm_compute in Hrun. injection Hrun as <-. reflexivity.
Defined.

(** X17. Whether the previous usernames are shown depends on
    [total_changes] alone, not on [history]: with an integer
    [total_changes] above 0 the text has the [Total Changes] line, the
    heading and one bullet per item of [history], in order; with 0 or less
    it has none of them, however long [history] is. *)
Theorem format_result_shows_history_iff_changes
    (rt : Runtime) (entries fields : list (string * pyval)) (success : pyval)
    (total_changes : Z) (items : list pyval) :
  Py.lookup "success" entries = Some success ->
  Py.truthy success = true ->
  Py.lookup "data" entries = Some (PyDict fields) ->
  Py.lookup "total_changes" fields = Some (PyInt total_changes) ->
  Py.lookup "history" fields = Some (PyList items) ->
  Py.lookup "insights" fields = None ->
  format_result rt (PyDict entries)
  = Ok (Text.join Text.newline
          ([rule;
            "Username: @" +:+ Py.str rt (default (PyStr "unknown")
                                           (Py.lookup "current_username" fields));
            "Status: " +:+ (if Py.truthy (default PyNone (Py.lookup "is_clean" fields))
                            then "CLEAN ✅" else "CHANGES DETECTED ⚠️")]
           ++ (if 0 <? total_changes then history_lines rt total_changes items else [])
           ++ [rule])).
Proof.
  intros Hsuccess Htruthy Hdata Htotal Hhistory Hinsights.
  unfold format_result, history_lines, Py.get, Py.getitem, Py.gt_zero, Py.iter.
  unfold mbind, outcome_bind, mret, outcome_ret.
  rewrite Hsuccess. simpl. rewrite Htruthy, Hdata. simpl.
  rewrite Htotal. simpl. rewrite Hinsights. simpl.
  destruct (0 <? total_changes); simpl.
  - rewrite Hhistory. simpl. rewrite <- ?app_assoc. reflexivity.
  - reflexivity.
Qed.

Lemma format_result_shows_history_iff_changes_witness :
  format_result sample_runtime
    (PyDict [("success", PyBool true);
             ("data", PyDict [("current_username", PyStr "bob"); ("is_clean", PyBool false);
                              ("total_changes", PyInt 0);
                              ("history", PyList [PyStr "old_bob"; PyStr "older_bob"])])])
  = Ok (Text.join Text.newline
          [rule; "Username: @bob"; "Status: CHANGES DETECTED ⚠️"; rule]).
Proof.
  rewrite (format_result_shows_history_iff_changes sample_runtime _
             [("current_username", PyStr "bob"); ("is_clean", PyBool false);
              ("total_changes", PyInt 0);
              ("history", PyList [PyStr "old_bob"; PyStr "older_bob"])]
             (PyBool true) 0 [PyStr "old_bob"; PyStr "older_bob"]);
    reflexivity.
Defined.

(** X18. The record that the [try] statement of [batch_check] adds for a
    check that raised can always be formatted: [format_result] gives the
    two rules around the single line [Error: ] with the text of the
    exception. *)
Theorem failed_check_record_formats_as_error
    (rt : Runtime) (self : MoniBagsSDK) (username : string) (results : list pyval)
    (env : Env) (w : World) (e : exn) :
  (check_username_history self username check_timeout_default env w).1 = Raise e ->
  exists record w',
    batch_try self username results env w = (Ok (results ++ [record]), w')
    /\ format_result rt record
       = Ok (Text.join Text.newline [rule; "Error: " +:+ exn_msg e; rule]).
Proof.
  intros Hcheck. rewrite batch_try_run. cbn zeta. rewrite Hcheck.
  eexists _, _. split; [reflexivity|].
  unfold item_record, failure_record.
  rewrite format_result_failure by reflexivity. reflexivity.
Qed.

Lemma failed_check_record_formats_as_error_witness :
  exists record w',
    batch_try sample_sdk "bob" [] (constant_env (Ok too_many_requests)) empty_world
      = (Ok [record], w')
    /\ format_result sample_runtime record
       = Ok (Text.join Text.newline
               [rule;
                "Error: Rate limit exceeded. Please wait before making another request.";
                rule]).
Proof.
  apply (failed_check_record_formats_as_error sample_runtime sample_sdk "bob" []
           (constant_env (Ok too_many_requests)) empty_world
           (MkExn RateLimitError
              "Rate limit exceeded. Please wait before making another request.")).
  reflexivity.
Defined.

(** ** The exporter *)

Lemma fwrite_other filename data env w other :
  filename <> other ->
  fs (fwrite filename data env w).2 !! other = fs w !! other.
Proof. intros Hne. unfold fwrite. simpl. apply lookup_insert_ne, Hne. Qed.

Lemma open_w_other filename env w other :
  filename <> other ->
  fs (open_w filename env w).2 !! other = fs w !! other.
Proof.
  intros Hne. unfold open_w. destruct (open_error env w filename); simpl;
    [reflexivity | apply lookup_insert_ne, Hne].
Qed.

Lemma export_csv_rows_other filename results env other : forall w,
  filename <> other ->
  fs (export_csv_rows filename results env w).2 !! other = fs w !! other.
Proof.
  induction results as [|result rest IH]; intros w Hne; [reflexivity|].
  rewrite export_csv_rows_cons.
  destruct (Py.get result "success" PyNone) as [success|e]; [|reflexivity].
  destruct (Py.truthy success); [|apply IH, Hne].
  destruct (csv_rowdict result) as [cells|e]; [|reflexivity].
  rewrite IH by exact Hne. apply fwrite_other, Hne.
Qed.

Lemma export_csv_rows_trace filename results env : forall w,
  trace (export_csv_rows filename results env w).2 = trace w.
Proof.
  induction results as [|result rest IH]; intros w; [reflexivity|].
  rewrite export_csv_rows_cons.
  destruct (Py.get result "success" PyNone) as [success|e]; [|reflexivity].
  destruct (Py.truthy success); [|apply IH].
  destruct (csv_rowdict result) as [cells|e]; [|reflexivity].
  rewrite IH. reflexivity.
Qed.

Lemma export_results_open_fails results filename format env w e :
  open_error env w filename = Some e ->
  format = "json" \/ format = "csv" ->
  export_results results filename format env w = (Raise e, w).
Proof.
  intros Hopen [-> | ->]; unfold export_results.
  - rewrite bool_decide_eq_true_2 by reflexivity.
    unfold mbind, M_bind, open_w. rewrite Hopen. reflexivity.
  - rewrite bool_decide_eq_false_2 by discriminate.
    rewrite bool_decide_eq_true_2 by reflexivity.
    unfold mbind, M_bind, open_w. rewrite Hopen. reflexivity.
Qed.

Lemma export_results_format_cases (format : string) :
  format = "json" \/ format = "csv" \/ (format <> "json" /\ format <> "csv").
Proof.
  destruct (decide (format = "json")); [left; assumption|].
  destruct (decide (format = "csv")); [right; left; assumption|].
  right. right. split; assumption.
Qed.

Lemma export_results_unsupported results filename format env w :
  format <> "json" -> format <> "csv" ->
  export_results results filename format env w
  = (Raise (MkExn ValueError ("Unsupported format: " +:+ format)), w).
Proof.
  intros Hjson Hcsv. unfold export_results.
  rewrite (bool_decide_eq_false_2 _ Hjson), (bool_decide_eq_false_2 _ Hcsv).
  reflexivity.
Qed.

(** X19. [export_results] changes no file but the one it is asked to
    write: every other file is as before, for every format and whether the
    export returns or raises. *)
Theorem export_results_touches_only_its_file
    (results : list pyval) (filename format other : string) (env : Env) (w : World) :
  filename <> other ->
  file_content (export_results results filename format env w).2 other
  = file_content w other.
Proof.
  intros Hne. unfold file_content.
  destruct (export_results_format_cases format) as [-> | [-> | [Hjson Hcsv]]].
  - destruct (open_error env w filename) as [e|] eqn:Hopen.
    + rewrite (export_results_open_fails _ _ _ _ _ _ Hopen) by (left; reflexivity).
      reflexivity.
    + rewrite (export_results_json_run _ _ _ _ Hopen). simpl.
      rewrite lookup_insert_ne by exact Hne.
      apply (open_w_other filename env w other Hne).
  - destruct (open_error env w filename) as [e|] eqn:Hopen.
    + rewrite (export_results_open_fails _ _ _ _ _ _ Hopen) by (right; reflexivity).
      reflexivity.
    + rewrite (export_results_csv_run _ _ _ _ Hopen). cbn zeta.
      pose proof (open_w_other filename env w other Hne) as Hopened.
      destruct results as [|result rest]; [exact Hopened|].
      assert (Hrows : fs (export_csv_rows filename (result :: rest) env
                            (fwrite filename (Csv.row fieldnames) env
                               (open_w filename env w).2).2).2 !! other
                      = fs w !! other).
      { rewrite export_csv_rows_other, fwrite_other by exact Hne. exact Hopened. }
      destruct (export_csv_rows _ _ _ _) as [[[]|e] w']; exact Hrows.
  - rewrite (export_results_unsupported _ _ _ _ _ Hjson Hcsv). reflexivity.
Qed.

Lemma export_results_touches_only_its_file_witness :
  file_content (export_results sample_results "out.csv" "csv"
                  (constant_env (Ok server_error)) world_with_notes).2 "notes.txt"
  = Some "keep me".
Proof.
  rewrite (export_results_touches_only_its_file sample_results "out.csv" "csv" "notes.txt").
  - reflexivity.
  - discriminate.
Defined.

(** X20. When the file cannot be opened for writing, [export_results] in
    JSON or CSV format raises the error of [open] and nothing has happened:
    no file is created or emptied and nothing is printed. *)
Theorem export_results_propagates_open_error
    (results : list pyval) (filename format : string) (env : Env) (w : World) (e : exn) :
  open_error env w filename = Some e ->
  format = "json" \/ format = "csv" ->
  export_results results filename format env w = (Raise e, w).
Proof. apply export_results_open_fails. Qed.

Lemma export_results_propagates_open_error_witness :
  export_results sample_results "/root/out.json" "json" read_only_env empty_world
  = (Raise (MkExn OSError "[Errno 13] Permission denied: '/root/out.json'"), empty_world).
Proof.
  apply (export_results_propagates_open_error sample_results "/root/out.json" "json"
           read_only_env empty_world).
  - reflexivity.
  - left. reflexivity.
Defined.

(** X21. The line [Results exported to <filename>] is printed exactly when
    the export returns, as its last act; an export that raises, for
    whatever reason, prints nothing. *)
Theorem export_results_prints_iff_it_returns
    (results : list pyval) (filename format : string) (env : Env) (w : World) :
  match (export_results results filename format env w).1 with
  | Ok _ => trace (export_results results filename format env w).2
            = trace w ++ [EvPrint ("Results exported to " +:+ filename)]
  | Raise _ => trace (export_results results filename format env w).2 = trace w
  end.
Proof.
  destruct (export_results_format_cases format) as [-> | [-> | [Hjson Hcsv]]].
  - destruct (open_error env w filename) as [e|] eqn:Hopen.
    + rewrite (export_results_open_fails _ _ _ _ _ _ Hopen) by (left; reflexivity).
      reflexivity.
    + rewrite (export_results_json_run _ _ _ _ Hopen). simpl.
      unfold open_w. rewrite Hopen. reflexivity.
  - destruct (open_error env w filename) as [e|] eqn:Hopen.
    + rewrite (export_results_open_fails _ _ _ _ _ _ Hopen) by (right; reflexivity).
      reflexivity.
    + rewrite (export_results_csv_run _ _ _ _ Hopen). cbn zeta.
      assert (Hopened : trace (open_w filename env w).2 = trace w).
      { unfold open_w. rewrite Hopen. reflexivity. }
      destruct results as [|result rest]; [simpl; rewrite Hopened; reflexivity|].
      pose proof (export_csv_rows_trace filename (result :: rest) env
                    (fwrite filename (Csv.row fieldnames) env (open_w filename env w).2).2)
        as Hrows.
      destruct (export_csv_rows _ _ _ _) as [[[]|e] w']; simpl in *;
        rewrite Hrows, Hopened; reflexivity.
  - rewrite (export_results_unsupported _ _ _ _ _ Hjson Hcsv). reflexivity.
Qed.

Lemma export_csv_rows_all_failed filename results env w :
  Forall is_failed_mapping results ->
  export_csv_rows filename results env w = (Ok tt, w).
Proof.
  induction 1 as [|result rest (entries & -> & Hfalsy) _ IH]; [reflexivity|].
  rewrite export_csv_rows_cons. unfold Py.get. rewrite Hfalsy. exact IH.
Qed.

Lemma failure_record_is_failed_mapping username e timestamp :
  is_failed_mapping (failure_record username e timestamp).
Proof. eexists. split; reflexivity. Qed.

(** X22. A CSV export of results that all failed is not empty and not an
    error: when the list is not empty and no result has a truthy
    [success], the export returns and the file holds the header row alone.
    The failure records of [batch_check] are such results. *)
Theorem export_results_csv_of_failures_is_header_only
    (results : list pyval) (filename : string) (env : Env) (w : World) :
  open_error env w filename = None ->
  results <> [] ->
  Forall is_failed_mapping results ->
  (export_results results filename "csv" env w).1 = Ok tt
  /\ file_content (export_results results filename "csv" env w).2 filename
     = Some (Csv.row fieldnames)
  /\ Csv.row fieldnames
     = "username,is_clean,total_changes,history,timestamp" +:+ Text.crlf
  /\ (forall username e timestamp,
        is_failed_mapping (failure_record username e timestamp)).
Proof.
  intros Hopen Hnonempty Hfailed.
  rewrite (export_results_csv_run _ _ _ _ Hopen). cbn zeta.
  destruct results as [|result rest]; [congruence|].
  rewrite (export_csv_rows_all_failed _ _ _ _ Hfailed). cbn [fst snd].
  split; [reflexivity|].
  destruct (file_content_open_w filename env w Hopen) as (_ & Hopened & _).
  destruct (file_content_fwrite filename (Csv.row fieldnames) env _ _ Hopened)
    as (_ & Hheader & _).
  split; [exact Hheader|].
  split; [reflexivity | apply failure_record_is_failed_mapping].
Qed.

Lemma export_results_csv_of_failures_is_header_only_witness :
  file_content
    (export_results
       [failure_record "alice" (MkExn APIError "API returned status code 500: oops")
          "2024-01-01T00:00:00";
        PyDict [("success", PyBool false); ("error", PyStr "User not found")]]
       "out.csv" "csv" (constant_env (Ok server_error)) empty_world).2 "out.csv"
  = Some ("username,is_clean,total_changes,history,timestamp" +:+ Text.crlf).
Proof.
  destruct (export_results_csv_of_failures_is_header_only
              [failure_record "alice" (MkExn APIError "API returned status code 500: oops")
                 "2024-01-01T00:00:00";
               PyDict [("success", PyBool false); ("error", PyStr "User not found")]]
              "out.csv" (constant_env (Ok server_error)) empty_world)
    as (_ & Hfile & Hheader & _).
  - reflexivity.
  - discriminate.
  - repeat constructor; eexists; split; reflexivity.
  - rewrite Hfile, Hheader. reflexivity.
Defined.

(** ** The summary counters of the command line and of the examples *)

Lemma sum_ones_if_shift cond results : forall acc,
  sum_ones_if cond results acc =
    match sum_ones_if cond results 0 with
    | Ok k => Ok (acc + k)
    | Raise e => Raise e
    end.
Proof.
  induction results as [|r rest IH]; intros acc.
  - simpl. rewrite Z.add_0_r. reflexivity.
  - simpl. unfold mbind, outcome_bind.
    destruct (cond r) as [counted|e]; [|reflexivity].
    destruct counted.
    + rewrite (IH (acc + 1)), (IH (0 + 1)).
      destruct (sum_ones_if cond rest 0); [f_equal; lia | reflexivity].
    + apply IH.
Qed.

Lemma sum_ones_if_cons cond r rest :
  sum_ones_if cond (r :: rest) 0 =
    match cond r with
    | Ok counted =>
        match sum_ones_if cond rest 0 with
        | Ok k => Ok ((if counted then 1 else 0) + k)
        | Raise e => Raise e
        end
    | Raise e => Raise e
    end.
Proof.
  simpl. unfold mbind, outcome_bind.
  destruct (cond r) as [counted|e]; [|reflexivity].
  destruct counted; [apply sum_ones_if_shift|].
  destruct (sum_ones_if cond rest 0); reflexivity.
Qed.

(** Of the three tests of the summary, exactly one counts a result. *)
Lemma summary_tests_partition r clean suspicious failed :
  is_clean_result r = Ok clean ->
  is_suspicious_result r = Ok suspicious ->
  is_error_result r = Ok failed ->
  (if clean then 1 else 0) + (if suspicious then 1 else 0) + (if failed then 1 else 0) = 1.
Proof.
  unfold is_clean_result, is_suspicious_result, is_error_result.
  unfold mbind, outcome_bind, mret, outcome_ret.
  destruct (Py.get r "success" PyNone) as [success|e]; [|discriminate].
  destruct (Py.truthy success).
  - destruct (Py.get r "data" (PyDict [])) as [data|e]; [|discriminate].
    destruct (Py.get data "is_clean" PyNone) as [is_clean|e]; [|discriminate].
    intros Hc Hs Hf. injection Hc as <-. injection Hs as <-. injection Hf as <-.
    destruct (Py.truthy is_clean); reflexivity.
  - intros Hc Hs Hf. injection Hc as <-. injection Hs as <-. injection Hf as <-.
    reflexivity.
Qed.

(** X23. The summary of the [batch] command adds up: whenever the three
    counts can be computed, every result is counted exactly once, as clean,
    as suspicious or as an error, so the counts sum to the number of
    results.  (The same three expressions are the statistics of
    [examples/export_results.py].) *)
Theorem summary_counts_add_up (results : list pyval) (clean suspicious failed : Z) :
  sum_ones_if is_clean_result results 0 = Ok clean ->
  sum_ones_if is_suspicious_result results 0 = Ok suspicious ->
  sum_ones_if is_error_result results 0 = Ok failed ->
  clean + suspicious + failed = Z.of_nat (length results)
  /\ 0 <= clean /\ 0 <= suspicious /\ 0 <= failed.
Proof.
  revert clean suspicious failed.
  induction results as [|r rest IH]; intros clean suspicious failed Hc Hs Hf.
  - injection Hc as <-. injection Hs as <-. injection Hf as <-. simpl. lia.
  - rewrite sum_ones_if_cons in Hc, Hs, Hf.
    destruct (is_clean_result r) as [c|e] eqn:Ec; [|discriminate].
    destruct (is_suspicious_result r) as [s|e] eqn:Es; [|discriminate].
    destruct (is_error_result r) as [f|e] eqn:Ef; [|discriminate].
    destruct (sum_ones_if is_clean_result rest 0) as [c'|e]; [|discriminate].
    destruct (sum_ones_if is_suspicious_result rest 0) as [s'|e]; [|discriminate].
    destruct (sum_ones_if is_error_result rest 0) as [f'|e]; [|discriminate].
    injection Hc as <-. injection Hs as <-. injection Hf as <-.
    pose proof (summary_tests_partition r c s f Ec Es Ef) as Hone.
    destruct (IH c' s' f' eq_refl eq_refl eq_refl) as (Hsum & Hc' & Hs' & Hf').
    rewrite length_cons. destruct c, s, f; lia.
Qed.

Lemma summary_counts_add_up_witness :
  sum_ones_if is_clean_result sample_results 0 = Ok 1
  /\ sum_ones_if is_suspicious_result sample_results 0 = Ok 0
  /\ sum_ones_if is_error_result sample_results 0 = Ok 1
  /\ 1 + 0 + 1 = Z.of_nat (length sample_results).
Proof.
  split; [reflexivity|]. split; [reflexivity|]. split; [reflexivity|].
  apply (summary_counts_add_up sample_results 1 0 1); reflexivity.
Defined.

(** ** The command line *)

Lemma bind_returns {A B} (m : M A) (k : A -> M B) env w b w' :
  (m ≫= k) env w = (Ok b, w') ->
  exists a w1, m env w = (Ok a, w1) /\ k a env w1 = (Ok b, w').
Proof.
  unfold mbind, M_bind. destruct (m env w) as [[a|e] w1]; [|discriminate].
  intros H. exists a, w1. split; [reflexivity | exact H].
Qed.

Lemma bind_raised {A B} (m : M A) (k : A -> M B) env w e w' :
  m env w = (Raise e, w') -> (m ≫= k) env w = (Raise e, w').
Proof. unfold mbind, M_bind. intros ->. reflexivity. Qed.

Lemma bind_returned {A B} (m : M A) (k : A -> M B) env w a w' :
  m env w = (Ok a, w') -> (m ≫= k) env w = k a env w'.
Proof. unfold mbind, M_bind. intros ->. reflexivity. Qed.

(** A handler for [Exception] that prints the error and exits with 1. *)
Lemma try_except_exit_1 (body : M Z) env w :
  try_except body
    [ (Exception, fun e => print ("Error: " +:+ exn_msg e);; mret 1) ] env w
  = match body env w with
    | (Ok code, w') => (Ok code, w')
    | (Raise e, w') => (Ok 1, log (EvPrint ("Error: " +:+ exn_msg e)) w')
    end.
Proof.
  unfold try_except. destruct (body env w) as [[code|e] w']; [reflexivity|].
  simpl. rewrite isinstance_Exception. reflexivity.
Qed.

(** X24. The [check] command with one username never ends in a traceback:
    whatever the check, the formatter or the export raise, [main] prints
    [Error: ] with the text of the exception as its last line and exits
    with status 1; otherwise it exits with 0.  In particular a check that
    raises leads to status 1 with nothing formatted and nothing written. *)
Theorem main_check_one_exits_with_0_or_1
    (cli : CliEnv) (sdk : MoniBagsSDK) (username : string) (save : bool)
    (output : option string) (format : string) (env : Env) (w : World) :
  (exists code w',
      main_check_one cli sdk username save output format env w = (Ok code, w')
      /\ (code = 0
          \/ (code = 1
              /\ exists msg, last (trace w') = Some (EvPrint ("Error: " +:+ msg)))))
  /\ (forall e,
        (check_username_history sdk username check_timeout_default env
           (log (EvPrint ("Checking @" +:+ username +:+ "...")) w)).1 = Raise e ->
        exists w',
          main_check_one cli sdk username save output format env w = (Ok 1, w')
          /\ trace w' = trace w
                        ++ [EvPrint ("Checking @" +:+ username +:+ "...");
                            EvRequest (history_request sdk username check_timeout_default);
                            EvPrint ("Error: " +:+ exn_msg e)]
          /\ fs w' = fs w).
Proof.
  unfold main_check_one.
  set (body := check_username_history sdk username check_timeout_default ≫= _).
  assert (Hmain : forall handlers,
             (print ("Checking @" +:+ username +:+ "...");; try_except body handlers) env w
             = try_except body handlers env
                 (log (EvPrint ("Checking @" +:+ username +:+ "...")) w)) by reflexivity.
  rewrite Hmain, try_except_exit_1. split.
  - destruct (body env _) as [[code|e] w'] eqn:Hbody.
    + exists code, w'. split; [reflexivity|]. left.
      unfold body in Hbody.
      apply bind_returns in Hbody as (result & w1 & _ & Hbody).
      apply bind_returns in Hbody as (rt & w2 & _ & Hbody).
      apply bind_returns in Hbody as (text & w3 & _ & Hbody).
      apply bind_returns in Hbody as (? & w4 & _ & Hbody).
      apply bind_returns in Hbody as (? & w5 & _ & Hbody).
      injection Hbody as <- _. reflexivity.
    + eexists 1, _. split; [reflexivity|]. right. split; [reflexivity|].
      exists (exn_msg e). simpl. apply last_snoc.
  - intros e Hraise.
    assert (Hbody : body env (log (EvPrint ("Checking @" +:+ username +:+ "...")) w)
                    = (Raise e,
                       log (EvRequest (history_request sdk username check_timeout_default))
                         (log (EvPrint ("Checking @" +:+ username +:+ "...")) w))).
    { unfold body. apply bind_raised.
      rewrite (surjective_pairing (check_username_history _ _ _ _ _)).
      rewrite Hraise, check_username_history_world. reflexivity. }
    rewrite Hbody. eexists. split; [reflexivity|]. split; [|reflexivity].
    simpl. rewrite <- !app_assoc. reflexivity.
Qed.

Lemma main_check_one_exits_with_0_or_1_witness :
  exists w',
    main_check_one sample_cli sample_sdk "bob" true None "json"
      (constant_env (Ok too_many_requests)) empty_world = (Ok 1, w')
    /\ trace w'
       = [EvPrint "Checking @bob...";
          EvRequest (history_request sample_sdk "bob" check_timeout_default);
          EvPrint "Error: Rate limit exceeded. Please wait before making another request."]
    /\ fs w' = fs empty_world.
Proof.
  destruct (main_check_one_exits_with_0_or_1 sample_cli sample_sdk "bob" true None "json"
              (constant_env (Ok too_many_requests)) empty_world) as [_ Hraise].
  apply (Hraise (MkExn RateLimitError
                   "Rate limit exceeded. Please wait before making another request.")).
  reflexivity.
Defined.

Lemma batch_loop_records (P : string -> outcome pyval -> Prop)
    self delay cb total env usernames :
  (forall u w, P u (check_username_history self u check_timeout_default env w).1) ->
  forall i results w results' w',
    batch_loop self delay cb total i usernames results env w = (Ok results', w') ->
    exists records,
      results' = results ++ records
      /\ Forall2 (fun u r => exists checked timestamp,
                               P u checked /\ r = item_record u checked timestamp)
           usernames records.
Proof.
  intros HP. induction usernames as [|u rest IH]; intros i results w results' w' Hrun.
  - injection Hrun as <- _. exists []. rewrite app_nil_r. split; [reflexivity | constructor].
  - rewrite batch_loop_cons in Hrun.
    destruct (batch_body self delay cb total i u results env w) as [[results1|e] w1] eqn:Hbody;
      [|discriminate].
    assert (Hone : exists checked timestamp,
               P u checked /\ results1 = results ++ [item_record u checked timestamp]).
    { rewrite batch_body_cases in Hbody.
      destruct (notified cb total i u) as [[]|e]; [|discriminate].
      cbn zeta in Hbody.
      destruct (i <? total - 1);
        [destruct (sleep_error env delay); [discriminate|]|];
        injection Hbody as <- _; eexists _, _; (split; [apply HP | reflexivity]). }
    destruct Hone as (checked & timestamp & HPc & ->).
    destruct (IH _ _ _ _ _ Hrun) as (records & -> & Hrecords).
    exists (item_record u checked timestamp :: records).
    split; [rewrite <- app_assoc; reflexivity|].
    constructor; [eexists _, _; split; [exact HPc | reflexivity] | exact Hrecords].
Qed.

Lemma print_results_failures results env w :
  Forall (fun r => exists username e timestamp, r = failure_record username e timestamp)
    results ->
  exists w', print_results results env w = (Ok tt, w') /\ fs w' = fs w.
Proof.
  intros Hall. revert w.
  induction Hall as [|r rest (username & e & timestamp & ->) _ IH]; intros w.
  - exists w. split; reflexivity.
  - cbn [print_results]. unfold mbind at 1, M_bind, get_runtime.
    unfold mbind at 1, M_bind, lift.
    unfold failure_record. rewrite format_result_failure by reflexivity.
    unfold mbind at 1, M_bind, print, emit.
    destruct (IH (log (EvPrint
                         (Text.join Text.newline
                            ([rule]
                             ++ failure_lines (runtime env)
                                  [("username", PyStr username); ("success", PyBool false);
                                   ("error", PyStr (exn_msg e));
                                   ("timestamp", PyStr timestamp)]
                             ++ [rule]))) w)) as (w' & Hrun & Hfs).
    exists w'. split; [exact Hrun | exact Hfs].
Qed.

(** X25. With several usernames the [check] command exits with status 0
    even when every single check fails: [batch_check] turns the failures
    into records, the records are printed as errors, and [main] runs to
    its end.  (With one username a failing check exits with 1.) *)
Theorem main_check_many_exits_0_when_every_check_fails
    (cli : CliEnv) (sdk : MoniBagsSDK) (usernames : list string)
    (output : option string) (format : string) (env : Env) (w : World) :
  (forall u w0, exists e,
      (check_username_history sdk u check_timeout_default env w0).1 = Raise e) ->
  ((1 < length usernames)%nat -> sleep_error env batch_delay_default = None) ->
  exists w',
    main_check_many cli sdk usernames false output format env w = (Ok 0, w')
    /\ fs w' = fs w.
Proof.
  intros Hfail Hsleep. unfold main_check_many.
  assert (Hcb : callback_returns None) by (intros cb Hcb; discriminate).
  destruct (batch_loop_run sdk batch_delay_default None env (Z.of_nat (length usernames))
              Hcb usernames 0 [] w) as (records & w1 & Hloop & _ & _).
  { intros Hlt. apply Hsleep. lia. }
  { lia. }
  assert (Hbatch : batch_check sdk usernames batch_delay_default None env w
                   = (Ok records, w1)) by exact Hloop.
  destruct (batch_loop_records (fun _ checked => exists e, checked = Raise e)
              sdk batch_delay_default None (Z.of_nat (length usernames)) env usernames
              Hfail 0 [] w _ _ Hloop) as (records' & Heq & Hrecords).
  simpl in Heq. subst records'.
  assert (Hall : Forall (fun r => exists username e timestamp,
                                    r = failure_record username e timestamp) records).
  { clear -Hrecords. induction Hrecords as [|u r us rs (checked & ts & [e ->] & ->) _ IH];
      constructor; [eexists _, _, _; reflexivity | exact IH]. }
  destruct (print_results_failures records env w1 Hall) as (w2 & Hprint & Hfs).
  rewrite (bind_returned _ _ _ _ _ _ Hbatch).
  rewrite (bind_returned _ _ _ _ _ _ Hprint).
  exists w2. split; [reflexivity|].
  rewrite Hfs. pose proof (batch_loop_fs sdk batch_delay_default None
                             (Z.of_nat (length usernames)) env usernames 0 [] w) as Hfs1.
  rewrite Hloop in Hfs1. exact Hfs1.
Qed.

Lemma main_check_many_exits_0_when_every_check_fails_witness :
  exists w',
    main_check_many sample_cli sample_sdk ["alice"; "bob"] false None "json"
      (constant_env (Raise (MkExn ConnectionError "Connection refused"))) empty_world
    = (Ok 0, w')
    /\ fs w' = fs empty_world.
Proof.
  apply (main_check_many_exits_0_when_every_check_fails sample_cli sample_sdk
           ["alice"; "bob"] None "json"
           (constant_env (Raise (MkExn ConnectionError "Connection refused"))) empty_world).
  - intros u w0. eexists. reflexivity.
  - intros _. reflexivity.
Defined.

(** X26. When the service answers the [analyze] command with a mapping
    whose [success] is missing or falsy, [main] prints [Error: ] with the
    answer's [error] ([Unknown error] when there is none) and exits with
    status 0, not 1; nothing is saved, with or without [--save]. *)
Theorem main_analyze_reported_failure_exits_0
    (cli : CliEnv) (sdk : MoniBagsSDK) (username : string) (save : bool)
    (env : Env) (w : World) (resp : response) (entries : list (string * pyval)) :
  transport env (log (EvPrint ("Analyzing @" +:+ username +:+ "...")) w)
    (analyze_request sdk username analyze_timeout_default) = Ok resp ->
  status_code resp = 200 ->
  json resp = Ok (PyDict entries) ->
  Py.truthy (default PyNone (Py.lookup "success" entries)) = false ->
  exists w',
    main_analyze cli sdk username save env w = (Ok 0, w')
    /\ trace w'
       = trace w
         ++ [EvPrint ("Analyzing @" +:+ username +:+ "...");
             EvRequest (analyze_request sdk username analyze_timeout_default);
             EvPrint ("Error: " +:+ Py.str (runtime env)
                                      (default (PyStr "Unknown error")
                                         (Py.lookup "error" entries)))]
    /\ fs w' = fs w.
Proof.
  intros Ht Hcode Hjson Hfalsy. unfold main_analyze.
  set (body := analyze_profile sdk username analyze_timeout_default ≫= _).
  assert (Hmain : forall handlers,
             (print ("Analyzing @" +:+ username +:+ "...");; try_except body handlers) env w
             = try_except body handlers env
                 (log (EvPrint ("Analyzing @" +:+ username +:+ "...")) w)) by reflexivity.
  rewrite Hmain, try_except_exit_1.
  assert (Hanalyze : analyze_profile sdk username analyze_timeout_default env
                       (log (EvPrint ("Analyzing @" +:+ username +:+ "...")) w)
                     = (Ok (PyDict entries),
                        log (EvRequest (analyze_request sdk username analyze_timeout_default))
                          (log (EvPrint ("Analyzing @" +:+ username +:+ "...")) w))).
  { rewrite (surjective_pairing (analyze_profile _ _ _ _ _)).
    rewrite analyze_profile_world, (analyze_profile_answered _ _ _ _ _ _ Ht).
    rewrite Hcode, Hjson. reflexivity. }
  unfold body. rewrite (bind_returned _ _ _ _ _ _ Hanalyze).
  unfold mbind, M_bind, lift, Py.get. rewrite Hfalsy.
  unfold get_runtime, print, emit, mret, M_ret. cbn.
  eexists. split; [reflexivity|]. split; [|reflexivity].
  cbn. rewrite <- ?app_assoc. reflexivity.
Qed.

Lemma main_analyze_reported_failure_exits_0_witness :
  exists w',
    main_analyze sample_cli sample_sdk "bob" true
      (constant_env (Ok suspended_answer)) empty_world = (Ok 0, w')
    /\ trace w'
       = [EvPrint "Analyzing @bob...";
          EvRequest (analyze_request sample_sdk "bob" analyze_timeout_default);
          EvPrint "Error: Account suspended"]
    /\ fs w' = fs empty_world.
Proof.
  apply (main_analyze_reported_failure_exits_0 sample_cli sample_sdk "bob" true
           (constant_env (Ok suspended_answer)) empty_world suspended_answer
           [("success", PyBool false); ("error", PyStr "Account suspended")]);
    reflexivity.
Defined.

(** X27. When the file of usernames does not exist, the [batch] command
    prints [Error: File '<file>' not found] and exits with status 1; it
    sends no request and writes no file. *)
Theorem main_batch_missing_file_exits_1
    (cli : CliEnv) (sdk : MoniBagsSDK) (file : string) (delay : float)
    (output : option string) (env : Env) (w : World) (msg : string) :
  file_lines cli w file = Raise (MkExn FileNotFoundError msg) ->
  main_batch cli sdk file delay output env w
  = (Ok 1, log (EvPrint ("Error: File '" +:+ file +:+ "' not found")) w).
Proof.
  intros Hread. unfold main_batch, try_except.
  unfold mbind at 1, M_bind, read_lines. rewrite Hread. reflexivity.
Qed.

Lemma main_batch_missing_file_exits_1_witness :
  main_batch sample_cli sample_sdk "missing.txt" batch_delay_default None
    (constant_env (Ok clean_answer)) empty_world
  = (Ok 1, log (EvPrint "Error: File 'missing.txt' not found") empty_world).
Proof.
  apply (main_batch_missing_file_exits_1 sample_cli sample_sdk "missing.txt"
           batch_delay_default None (constant_env (Ok clean_answer)) empty_world
           "[Errno 2] No such file or directory: 'missing.txt'").
  reflexivity.
Defined.

Lemma try_except_two_handlers_exit (body : M Z) (note : string) env w :
  (forall code w', body env w = (Ok code, w') -> code = 0) ->
  exists code w',
    try_except body
      [ (FileNotFoundError, fun _ => print note;; mret 1);
        (Exception, fun e => print ("Error: " +:+ exn_msg e);; mret 1) ] env w
    = (Ok code, w')
    /\ (code = 0 \/ code = 1).
Proof.
  intros Hzero. unfold try_except.
  destruct (body env w) as [[code|e] w'] eqn:Hbody.
  - exists code, w'. split; [reflexivity|]. left. eapply Hzero. reflexivity.
  - simpl. destruct (isinstance e FileNotFoundError).
    + eexists 1, _. split; [reflexivity|]. right. reflexivity.
    + rewrite isinstance_Exception. eexists 1, _. split; [reflexivity|]. right. reflexivity.
Qed.

(** X28. Except for [check] with several usernames, [main] never ends in a
    traceback: for no command, [check] with one username, [analyze] and
    [batch] it returns the exit status 0 or 1 whatever the network, the
    files and the data do (a refused [--delay] included). *)
Theorem main_guarded_commands_exit_with_0_or_1
    (cli : CliEnv) (args : command) (env : Env) (w : World) :
  guarded args ->
  exists code w', main cli args env w = (Ok code, w') /\ (code = 0 \/ code = 1).
Proof.
  destruct args as [|usernames save output format|username save|file delay output];
    intros Hguarded.
  - eexists 1, _. split; [reflexivity|]. right. reflexivity.
  - destruct usernames as [|username [|second rest]]; try contradiction.
    cbn [main]. cbv zeta. unfold main_check_one.
    set (body := check_username_history _ username check_timeout_default ≫= _).
    assert (Hmain : forall handlers,
               (print ("Checking @" +:+ username +:+ "...");; try_except body handlers) env w
               = try_except body handlers env
                   (log (EvPrint ("Checking @" +:+ username +:+ "...")) w)) by reflexivity.
    rewrite Hmain, try_except_exit_1.
    destruct (body env _) as [[code|e] w'] eqn:Hbody.
    + exists code, w'. split; [reflexivity|]. left.
      unfold body in Hbody. repeat (cbv beta zeta in Hbody;
              apply bind_returns in Hbody as (? & ? & _ & Hbody)). injection Hbody as <- _. reflexivity.
    + eexists 1, _. split; [reflexivity|]. right. reflexivity.
  - cbn [main]. unfold main_analyze.
    set (body := analyze_profile _ username analyze_timeout_default ≫= _).
    assert (Hmain : forall handlers,
               (print ("Analyzing @" +:+ username +:+ "...");; try_except body handlers) env w
               = try_except body handlers env
                   (log (EvPrint ("Analyzing @" +:+ username +:+ "...")) w)) by reflexivity.
    rewrite Hmain, try_except_exit_1.
    destruct (body env _) as [[code|e] w'] eqn:Hbody.
    + exists code, w'. split; [reflexivity|]. left.
      unfold body in Hbody. repeat (cbv beta zeta in Hbody;
              apply bind_returns in Hbody as (? & ? & _ & Hbody)). injection Hbody as <- _. reflexivity.
    + eexists 1, _. split; [reflexivity|]. right. reflexivity.
  - cbn [main]. unfold main_batch. apply try_except_two_handlers_exit.
    intros code w' Hbody. repeat (cbv beta zeta in Hbody;
              apply bind_returns in Hbody as (? & ? & _ & Hbody)). injection Hbody as <- _. reflexivity.
Qed.

Lemma main_guarded_commands_exit_with_0_or_1_witness :
  exists w',
    main sample_cli (Batch "usernames.txt" (-1)%float None) refusing_env empty_world
    = (Ok 1, w')
    /\ last (trace w') = Some (EvPrint "Error: sleep length must be non-negative").
Proof.
  destruct (main_guarded_commands_exit_with_0_or_1 sample_cli
              (Batch "usernames.txt" (-1)%float None) refusing_env empty_world I)
    as (code & w' & Hrun & _).
  exists w'. vm_compute in Hrun. injection Hrun as <- <-.
  split; vm_compute; reflexivity.
Defined.

(** The unguarded command can end in a traceback: with several usernames, a
    record that the formatter cannot read stops [main] with the
    formatter's exception. *)
Example main_check_many_can_raise :
  (main sample_cli (Check ["alice"; "bob"] false None "json")
     (constant_env (Ok {| status_code := 200; text := "{...}";
                          json := Ok null_data_result |})) empty_world).1
  = Raise (MkExn AttributeError "'NoneType' object has no attribute 'get'").
Proof. vm_compute. reflexivity. Qed.

(** ** The HTML report of the examples *)

Example format_doubled_braces :
  Format.format no_renderer sample_runtime "{{x}} {a}" [("a", PyInt 5)] = Ok "{x} 5".
Proof. reflexivity. Qed.

Example format_single_close :
  Format.format no_renderer sample_runtime "a}b" []
  = raise_ ValueError "Single '}' encountered in format string".
Proof. reflexivity. Qed.

Example format_unclosed :
  Format.format no_renderer sample_runtime "a{b" []
  = raise_ ValueError "expected '}' before end of string".
Proof. reflexivity. Qed.

Example format_missing_keyword :
  Format.format no_renderer sample_runtime "{ a}" [("a", PyInt 1)]
  = raise_ KeyError "' a'".
Proof. reflexivity. Qed.

Example format_no_positional :
  Format.format no_renderer sample_runtime "{}" []
  = raise_ (OtherException "IndexError")
      "Replacement index 0 out of range for positional args tuple".
Proof. reflexivity. Qed.

(** The style sheet of the template has single braces: its first rule is
    read as a field named [ font-family], which no argument supplies. *)
Lemma html_content_cannot_be_formatted render rt kwargs :
  Py.lookup " font-family" kwargs = None ->
  Format.format render rt html_content kwargs = raise_ KeyError (str_repr rt " font-family").
Proof.
  intros Hmissing. unfold Format.format, html_content.
  cbv -[Py.lookup]. rewrite Hmissing. reflexivity.
Qed.

(** X29. [export_to_html] never produces a report.  Whatever the results
    and the file name, it raises and leaves every file as it was: when the
    loop over the results gets through, the call of [format] on the
    template fails with a [KeyError], because the braces of the style sheet
    are read as a field named [ font-family]. *)
Theorem export_to_html_always_raises
    (cli : CliEnv) (render : Format.renderer) (results : list pyval) (filename : string)
    (env : Env) (w : World) :
  (exists e, (export_to_html cli render results filename env w).1 = Raise e)
  /\ fs (export_to_html cli render results filename env w).2 = fs w
  /\ (forall counted,
        html_rows (runtime env) results [] 0 0 = Ok counted ->
        (export_to_html cli render results filename env w).1
        = Raise (MkExn KeyError (str_repr (runtime env) " font-family"))).
Proof.
  unfold export_to_html, get_runtime, lift, datetime_now_strftime.
  unfold mbind, M_bind.
  destruct (html_rows (runtime env) results [] 0 0) as [[[rows clean] suspicious]|e].
  - rewrite html_content_cannot_be_formatted by reflexivity.
    split; [eexists; reflexivity|]. split; [reflexivity|].
    intros counted _. reflexivity.
  - split; [eexists; reflexivity|]. split; [reflexivity|].
    intros counted Hcounted. discriminate.
Qed.

Lemma export_to_html_always_raises_witness :
  (export_to_html sample_cli no_renderer sample_results "report.html"
     (constant_env (Ok clean_answer)) empty_world).1
  = Raise (MkExn KeyError "' font-family'").
Proof.
  destruct (export_to_html_always_raises sample_cli no_renderer sample_results "report.html"
              (constant_env (Ok clean_answer)) empty_world) as (_ & _ & Hformat).
  rewrite (Hformat ([html_row "bob" status_clean "0" "None"], 1, 0)); reflexivity.
Defined.

(** X30. The [batch] command reports every [FileNotFoundError] as a missing
    file of usernames.  When the usernames were read and checked and the
    error comes from opening the output file (its directory does not
    exist), [main] still prints [Error: File '<file of usernames>' not
    found]; it exits with status 1 and the results are not saved. *)
Theorem main_batch_blames_input_file_for_output_error
    (cli : CliEnv) (sdk : MoniBagsSDK) (file : string) (delay : float) (name : string)
    (env : Env) (w : World) (lines : list string) (results : list pyval) (w2 : World)
    (clean suspicious failed : Z) (msg : string) :
  file_lines cli w file = Ok lines ->
  batch_check sdk (loaded_usernames cli lines) delay None env
    (log (EvPrint ("Loaded " +:+ Text.of_Z (Z.of_nat (length (loaded_usernames cli lines)))
                   +:+ " usernames from " +:+ file)) w) = (Ok results, w2) ->
  sum_ones_if is_clean_result results 0 = Ok clean ->
  sum_ones_if is_suspicious_result results 0 = Ok suspicious ->
  sum_ones_if is_error_result results 0 = Ok failed ->
  name <> "" ->
  (forall w', open_error env w' name = Some (MkExn FileNotFoundError msg)) ->
  exists w',
    main_batch cli sdk file delay (Some name) env w = (Ok 1, w')
    /\ last (trace w') = Some (EvPrint ("Error: File '" +:+ file +:+ "' not found"))
    /\ fs w' = fs w.
Proof.
  intros Hread Hbatch Hclean Hsuspicious Hfailed Hname Hopen.
  assert (Hfs : fs w2 = fs w).
  { pose proof (batch_loop_fs sdk delay None
                  (Z.of_nat (length (loaded_usernames cli lines))) env
                  (loaded_usernames cli lines) 0 []
                  (log (EvPrint ("Loaded "
                                 +:+ Text.of_Z (Z.of_nat (length (loaded_usernames cli lines)))
                                 +:+ " usernames from " +:+ file)) w)) as H.
    unfold batch_check in Hbatch. cbn zeta in Hbatch. rewrite Hbatch in H. exact H. }
  unfold main_batch, try_except.
  rewrite (bind_returned _ _ env w lines w) by (unfold read_lines; rewrite Hread; reflexivity).
  cbv zeta.
  erewrite bind_returned by (unfold print, emit; reflexivity).
  erewrite bind_returned by exact Hbatch.
  erewrite bind_returned by (unfold lift; rewrite Hclean; reflexivity).
  erewrite bind_returned by (unfold lift; rewrite Hsuspicious; reflexivity).
  erewrite bind_returned by (unfold lift; rewrite Hfailed; reflexivity).
  do 7 (erewrite bind_returned by (unfold print, emit; reflexivity)).
  erewrite bind_returned
    by (unfold output_or; rewrite (bool_decide_eq_false_2 _ Hname); reflexivity).
  erewrite bind_raised by (unfold open_w; rewrite Hopen; reflexivity).
  cbn. eexists. split; [reflexivity|]. split; [apply last_snoc|].
  cbn. exact Hfs.
Qed.

Lemma main_batch_blames_input_file_for_output_error_witness :
  exists w',
    main_batch sample_cli sample_sdk "usernames.txt" batch_delay_default
      (Some "reports/out.json") no_directory_env empty_world = (Ok 1, w')
    /\ last (trace w') = Some (EvPrint "Error: File 'usernames.txt' not found")
    /\ fs w' = fs empty_world.
Proof.
  eapply (main_batch_blames_input_file_for_output_error sample_cli sample_sdk
            "usernames.txt" batch_delay_default "reports/out.json" no_directory_env
            empty_world ["alice"; ""; "bob"]).
  - reflexivity.
  - vm_compute. reflexivity.
  - vm_compute. reflexivity.
  - vm_compute. reflexivity.
  - vm_compute. reflexivity.
  - discriminate.
  - intros w'. reflexivity.
Defined.
